(** * Payment-processor adapters: Adyen (encrypted card) and PayPal (redirect wallet)

    A shallow embedding of
      - [ecommerce/extensions/payment/processors/adyen/processor.py]
      - [ecommerce/extensions/payment/processors/paypal.py]
    and the properties of the adapters that follow from it.

    Conventions of the embedding.
      - Python values that come from JSON are [PyVal]; a [dict] is a
        [gmap string PyVal].
      - Text is a Rocq [string], and the embedding covers ASCII text:
        [lower] folds the letters A-Z, which is what [unicode.lower] does
        there.
      - [Decimal] amounts are integers counting the smallest unit that occurs.
      - A method is a function in the monad [M]: it reads and writes the
        [World] (database tables, audit log, logger) and either returns a
        value or raises an exception.  The world is kept when an exception is
        raised: nothing in these modules rolls back.
      - The text of exception and log messages is kept as a tag with the
        values that are formatted into it. *)

From stdpp Require Import gmap strings list.
From Stdlib Require Import ZArith Ascii String Lia.

Set Warnings "-register-all".
Local Open Scope string_scope.
Local Open Scope Z_scope.

(** ** Python values *)

Inductive PyVal :=
| PyNone
| PyBool (b : bool)
| PyInt (n : Z)
| PyStr (s : string)
| PyList (l : list PyVal)
| PyDict (d : gmap string PyVal).

Abbreviation dict := (gmap string PyVal).

(** Truth value of an object, as [if x:] tests it. *)
Definition truthy (v : PyVal) : bool :=
  match v with
  | PyNone => false
  | PyBool b => b
  | PyInt n => negb (n =? 0)
  | PyStr s => negb (String.eqb s "")
  | PyList l => match l with [] => false | _ => true end
  | PyDict d => negb (bool_decide (d = ∅))
  end.

(** [v == s] for a text literal [s]. *)
Definition py_eq_str (v : PyVal) (s : string) : bool :=
  match v with
  | PyStr t => String.eqb t s
  | _ => false
  end.

(** [d.get(k)]: the value, or [None]. *)
Definition dict_get (d : dict) (k : string) : PyVal :=
  default PyNone (d !! k).

Definition lower_char (c : ascii) : ascii :=
  let n := N_of_ascii c in
  if ((65 <=? n) && (n <=? 90))%N then ascii_of_N (n + 32) else c.

(** [s.lower()] *)
Fixpoint lower (s : string) : string :=
  match s with
  | EmptyString => EmptyString
  | String c s' => String (lower_char c) (lower s')
  end.

(** [s.split(' ', 1)]: cut at the first space, if there is one. *)
Fixpoint split_space_1 (s : string) : list string :=
  match s with
  | EmptyString => [EmptyString]
  | String c s' =>
      if Ascii.eqb c " "%char then [EmptyString; s']
      else match split_space_1 s' with
           | h :: t => String c h :: t
           | [] => [String c EmptyString]
           end
  end.

(** [' ' in s] *)
Fixpoint contains_space (s : string) : bool :=
  match s with
  | EmptyString => false
  | String c s' => Ascii.eqb c " "%char || contains_space s'
  end.

(** [range(lo, hi)] *)
Definition py_range (lo hi : Z) : list Z :=
  map (fun k => lo + Z.of_nat k) (seq 0 (Z.to_nat (hi - lo))).

(** ** Exceptions *)

(** The message of a [GatewayError], by the place that builds it. *)
Inductive GatewayMsg :=
| NoMessage
| AdyenCreditFailedForOrder (order_number : string)
| AdyenCreditError (order_number : string)
| PaypalError (error : PyVal)
| PaypalApprovalUrlMissing (entry_id : nat)
| PaypalCreditError (order_number : string)
| PaypalRefundFailed (sale_id : string) (entry_id : nat).

Inductive Exn :=
| KeyError
| AttributeError
| TypeError
| ValueError
| IndexError
| UnboundLocalError
| DoesNotExist
| MultipleObjectsReturned
| GatewayError (msg : GatewayMsg)
| TransactionDeclined
| MissingAdyenEventCodeException
| UnsupportedAdyenEventException
| ExternalError (name : string).

Definition is_GatewayError (e : Exn) : bool :=
  match e with GatewayError _ => true | _ => false end.

Inductive Res (A : Type) :=
| Ret (a : A)
| Raise (e : Exn).
Arguments Ret {A} a.
Arguments Raise {A} e.

(** ** Ledger entities and the audit log *)

(** [ecommerce.extensions.order.constants.PaymentEventTypeName] *)
Inductive PaymentEventTypeName := PAID | REFUNDED.

(** [ecommerce.extensions.refund.status.REFUND] *)
Inductive REFUND :=
| OPEN
| PENDING_WITH_REVOCATION
| PENDING_WITHOUT_REVOCATION
| PAYMENT_REFUNDED
| COMPLETE.

Definition REFUND_eqb (a b : REFUND) : bool :=
  match a, b with
  | OPEN, OPEN
  | PENDING_WITH_REVOCATION, PENDING_WITH_REVOCATION
  | PENDING_WITHOUT_REVOCATION, PENDING_WITHOUT_REVOCATION
  | PAYMENT_REFUNDED, PAYMENT_REFUNDED
  | COMPLETE, COMPLETE => true
  | _, _ => false
  end.

Record Basket := {
  basket_id : nat;
  order_number : string;
  basket_currency : string;
  total_incl_tax : Z
}.

Record Order := {
  order_id : nat;
  number : string;
  order_basket : option nat        (* foreign key to the basket *)
}.

(** [payment.Source]; [source_id] and [source_order] are [None] on an
    instance that has not been saved. *)
Record Source := {
  source_id : option nat;
  source_order : option nat;
  source_type : string;
  currency : string;
  amount_allocated : Z;
  amount_debited : Z;
  amount_refunded : Z;
  reference : PyVal
}.

(** [order.PaymentEvent] *)
Record PaymentEvent := {
  event_type : PaymentEventTypeName;
  event_order : option nat;
  amount : Z;
  event_reference : PyVal;
  processor_name : string
}.

Record Refund := {
  refund_id : nat;
  refund_order : nat;
  status : REFUND;
  total_credit_excl_tax : Z
}.

(** [payment.PaymentProcessorResponse], a row of the audit log. *)
Record PaymentProcessorResponse := {
  ppr_processor_name : string;
  ppr_transaction_id : PyVal;
  ppr_basket : option nat;
  ppr_response : PyVal
}.

Inductive LogLevel := INFO | WARNING | ERROR | EXCEPTION.

(** Everything a method can read or change. *)
Record World := {
  audit : list PaymentProcessorResponse;   (* in order of creation; the id of a row is its position, from 1 *)
  log : list (LogLevel * string);
  source_types : list string;
  payment_event_types : list PaymentEventTypeName;
  orders : list Order;
  sources : list Source;
  refunds : list Refund;
  payment_events : list PaymentEvent;
  revoked : list nat;                      (* refunds whose fulfillment was revoked *)
  gateway_calls : nat                      (* calls made through the PayPal SDK so far *)
}.

Definition with_audit (f : list PaymentProcessorResponse -> list PaymentProcessorResponse) (w : World) : World :=
  {| audit := f (audit w); log := log w; source_types := source_types w;
     payment_event_types := payment_event_types w; orders := orders w;
     sources := sources w; refunds := refunds w;
     payment_events := payment_events w; revoked := revoked w;
     gateway_calls := gateway_calls w |}.

Definition with_log (f : list (LogLevel * string) -> list (LogLevel * string)) (w : World) : World :=
  {| audit := audit w; log := f (log w); source_types := source_types w;
     payment_event_types := payment_event_types w; orders := orders w;
     sources := sources w; refunds := refunds w;
     payment_events := payment_events w; revoked := revoked w;
     gateway_calls := gateway_calls w |}.

Definition with_source_types (f : list string -> list string) (w : World) : World :=
  {| audit := audit w; log := log w; source_types := f (source_types w);
     payment_event_types := payment_event_types w; orders := orders w;
     sources := sources w; refunds := refunds w;
     payment_events := payment_events w; revoked := revoked w;
     gateway_calls := gateway_calls w |}.

Definition with_payment_event_types
    (f : list PaymentEventTypeName -> list PaymentEventTypeName) (w : World) : World :=
  {| audit := audit w; log := log w; source_types := source_types w;
     payment_event_types := f (payment_event_types w); orders := orders w;
     sources := sources w; refunds := refunds w;
     payment_events := payment_events w; revoked := revoked w;
     gateway_calls := gateway_calls w |}.

Definition with_sources (f : list Source -> list Source) (w : World) : World :=
  {| audit := audit w; log := log w; source_types := source_types w;
     payment_event_types := payment_event_types w; orders := orders w;
     sources := f (sources w); refunds := refunds w;
     payment_events := payment_events w; revoked := revoked w;
     gateway_calls := gateway_calls w |}.

Definition with_refunds (f : list Refund -> list Refund) (w : World) : World :=
  {| audit := audit w; log := log w; source_types := source_types w;
     payment_event_types := payment_event_types w; orders := orders w;
     sources := sources w; refunds := f (refunds w);
     payment_events := payment_events w; revoked := revoked w;
     gateway_calls := gateway_calls w |}.

Definition with_payment_events (f : list PaymentEvent -> list PaymentEvent) (w : World) : World :=
  {| audit := audit w; log := log w; source_types := source_types w;
     payment_event_types := payment_event_types w; orders := orders w;
     sources := sources w; refunds := refunds w;
     payment_events := f (payment_events w); revoked := revoked w;
     gateway_calls := gateway_calls w |}.

Definition with_revoked (f : list nat -> list nat) (w : World) : World :=
  {| audit := audit w; log := log w; source_types := source_types w;
     payment_event_types := payment_event_types w; orders := orders w;
     sources := sources w; refunds := refunds w;
     payment_events := payment_events w; revoked := f (revoked w);
     gateway_calls := gateway_calls w |}.

Definition with_gateway_calls (f : nat -> nat) (w : World) : World :=
  {| audit := audit w; log := log w; source_types := source_types w;
     payment_event_types := payment_event_types w; orders := orders w;
     sources := sources w; refunds := refunds w;
     payment_events := payment_events w; revoked := revoked w;
     gateway_calls := f (gateway_calls w) |}.

(** The tables of the ledger are the same in two worlds. *)
Definition ledger_kept (w w' : World) : Prop :=
  sources w' = sources w
  /\ refunds w' = refunds w
  /\ payment_events w' = payment_events w
  /\ revoked w' = revoked w.

(** The audit log of [w'] is the one of [w] with rows added at its end. *)
Definition audit_extended (w w' : World) : Prop :=
  exists rows, audit w' = (audit w ++ rows)%list.

(** ** The monad of methods *)

Definition M (A : Type) : Type := World -> Res A * World.

Definition ret {A} (a : A) : M A := fun w => (Ret a, w).

Definition raise {A} (e : Exn) : M A := fun w => (Raise e, w).

Definition bind {A B} (m : M A) (k : A -> M B) : M B :=
  fun w =>
    match m w with
    | (Ret a, w') => k a w'
    | (Raise e, w') => (Raise e, w')
    end.

(** [try: m  except: h e], where [h] raises [e] again for the exceptions
    its clauses do not name. *)
Definition try_except {A} (m : M A) (h : Exn -> M A) : M A :=
  fun w =>
    match m w with
    | (Ret a, w') => (Ret a, w')
    | (Raise e, w') => h e w'
    end.

Definition modify (f : World -> World) : M unit := fun w => (Ret tt, f w).

Definition gets {A} (f : World -> A) : M A := fun w => (Ret (f w), w).

Definition lift_res {A} (r : Res A) : M A := fun w => (r, w).

Declare Scope py_scope.
Delimit Scope py_scope with py.
Notation "x <- m ;; k" := (bind m (fun x => k))
  (at level 100, m at next level, right associativity) : py_scope.
Notation "m ;; k" := (bind m (fun _ => k))
  (at level 100, right associativity) : py_scope.
Local Open Scope py_scope.

(** [o[k]] *)
Definition py_getitem (o : PyVal) (k : string) : Res PyVal :=
  match o with
  | PyDict d => match d !! k with Some v => Ret v | None => Raise KeyError end
  | _ => Raise TypeError
  end.

(** [d[k]] for a [dict] *)
Definition dict_getitem (d : dict) (k : string) : Res PyVal :=
  match d !! k with Some v => Ret v | None => Raise KeyError end.

(** [v.lower()]: only text has the method. *)
Definition py_lower (v : PyVal) : Res string :=
  match v with
  | PyStr s => Ret (lower s)
  | _ => Raise AttributeError
  end.

(** [x.attr] where [x] may be [None]. *)
Definition getattr_of {A B} (x : option A) (attr : A -> B) : Res B :=
  match x with
  | Some a => Ret (attr a)
  | None => Raise AttributeError
  end.

(** [logger.<level>(msg, ...)] *)
Definition logger (lvl : LogLevel) (msg : string) : M unit :=
  modify (with_log (fun l => (l ++ [(lvl, msg)])%list)).

(** The row of the audit log for a response. *)
Definition audit_row (NAME : string) (response : PyVal) (transaction_id : PyVal)
    (basket : option nat) : PaymentProcessorResponse :=
  {| ppr_processor_name := NAME; ppr_transaction_id := transaction_id;
     ppr_basket := basket; ppr_response := response |}.

(** Modelled from the spec: [BasePaymentProcessor.record_processor_response]
    is not among the sources.  Per the spec it is
    [record_processor_response(raw_payload, transaction_id, basket) -> AuditRecordId]
    on an append-only store keyed by processor name, transaction id and
    basket: it appends one row and returns the row's id. *)
Definition record_processor_response (NAME : string) (response : PyVal)
    (transaction_id : PyVal) (basket : option nat) : M nat :=
  fun w =>
    (Ret (S (List.length (audit w))),
     with_audit (fun l => (l ++ [audit_row NAME response transaction_id basket])%list) w).

(** [Model.objects.get_or_create(name=...)] on a table of names. *)
Definition get_or_create {A} (eqb : A -> A -> bool) (x : A) (l : list A) : list A :=
  if existsb (eqb x) l then l else (l ++ [x])%list.

(** ** Queries and model methods the adapters call *)

(** [basket.order_set.first()] *)
Definition order_set_first (b : Basket) : M (option Order) :=
  gets (fun w =>
    head (List.filter (fun o => bool_decide (order_basket o = Some (basket_id b))) (orders w))).

(** [order.sources.first()] *)
Definition sources_first (o : Order) : M (option Source) :=
  gets (fun w =>
    head (List.filter (fun s => bool_decide (source_order s = Some (order_id o))) (sources w))).

(** [source.order] *)
Definition Source_order (s : Source) : M (option Order) :=
  gets (fun w =>
    match source_order s with
    | Some k => head (List.filter (fun o => Nat.eqb (order_id o) k) (orders w))
    | None => None
    end).

(** [order.refunds.get(status__in=statuses)] *)
Definition refunds_get (o : Order) (statuses : list REFUND) : M Refund :=
  fun w =>
    match List.filter (fun r => Nat.eqb (refund_order r) (order_id o)
                                && existsb (REFUND_eqb (status r)) statuses) (refunds w) with
    | [] => (Raise DoesNotExist, w)
    | [r] => (Ret r, w)
    | _ => (Raise MultipleObjectsReturned, w)
    end.

(** Modelled from the spec: [Source.refund] is not among the sources.  The
    spec has the handler apply the credit to the source, whose
    [amount_refunded] is the running total of refunds. *)
Definition Source_refund (s : Source) (amt : Z) (ref : PyVal) : M unit :=
  modify (with_sources (map (fun s' =>
    if bool_decide (source_id s' = source_id s) then
      {| source_id := source_id s'; source_order := source_order s';
         source_type := source_type s'; currency := currency s';
         amount_allocated := amount_allocated s'; amount_debited := amount_debited s';
         amount_refunded := amount_refunded s' + amt; reference := reference s' |}
    else s'))).

Definition Refund_with_status (st : REFUND) (r : Refund) : Refund :=
  {| refund_id := refund_id r; refund_order := refund_order r; status := st;
     total_credit_excl_tax := total_credit_excl_tax r |}.

(** Modelled from the spec: [Refund.set_status] is not among the sources.
    The spec has the handler mark the refund with the new status. *)
Definition Refund_set_status (r : Refund) (st : REFUND) : M unit :=
  modify (with_refunds (map (fun r' =>
    if Nat.eqb (refund_id r') (refund_id r) then Refund_with_status st r' else r'))).

(** Modelled from the spec: [Refund.complete] is not among the sources.  The
    spec has it complete the refund, revoking fulfillment when asked to. *)
Definition Refund_complete (r : Refund) (revoke_fulfillment : bool) : M unit :=
  (if revoke_fulfillment
   then modify (with_revoked (fun l => (l ++ [refund_id r])%list))
   else ret tt) ;;
  Refund_set_status r COMPLETE.

Definition PaymentEventTypeName_eqb (a b : PaymentEventTypeName) : bool :=
  match a, b with
  | PAID, PAID | REFUNDED, REFUNDED => true
  | _, _ => false
  end.

(** [PaymentEvent.objects.create(...)] *)
Definition PaymentEvent_create (e : PaymentEvent) : M unit :=
  modify (with_payment_events (fun l => (l ++ [e])%list)).

(** * The encrypted-card adapter *)

Module Adyen.

Definition NAME : string := "adyen".

Definition ACK : string := "[cancelOrRefund-received]".

(** What a handler returns: the pair [(source, event)], or [None]. *)
Definition HandlerReturn : Type := option (Source * PaymentEvent).

Definition _handle_authorisation (psp_reference : PyVal) (response : dict)
    (basket : option Basket) : M HandlerReturn :=
  rc <- lift_res (dict_getitem response "resultCode") ;;
  result_code <- lift_res (py_lower rc) ;;
  if negb (String.eqb result_code "authorised") then raise TransactionDeclined
  else
    modify (with_source_types (get_or_create String.eqb NAME)) ;;
    currency <- lift_res (getattr_of basket basket_currency) ;;
    total <- lift_res (getattr_of basket total_incl_tax) ;;
    let source := {| source_id := None; source_order := None;
                     source_type := NAME; currency := currency;
                     amount_allocated := total; amount_debited := total;
                     amount_refunded := 0; reference := psp_reference |} in
    modify (with_payment_event_types (get_or_create PaymentEventTypeName_eqb PAID)) ;;
    let event := {| event_type := PAID; event_order := None; amount := total;
                    event_reference := psp_reference; processor_name := NAME |} in
    ret (Some (source, event)).

Definition _handle_cancel_or_refund (psp_reference : PyVal) (response : dict)
    (basket : option Basket) : M HandlerReturn :=
  order_set <- lift_res (getattr_of basket order_set_first) ;;
  order <- order_set ;;
  order_sources <- lift_res (getattr_of order sources_first) ;;
  source <- order_sources ;;
  order_refunds <- lift_res (getattr_of order refunds_get) ;;
  refund <- order_refunds [PENDING_WITH_REVOCATION; PENDING_WITHOUT_REVOCATION] ;;
  let amount := total_credit_excl_tax refund in
  if truthy (dict_get response "success") then
    source_refund <- lift_res (getattr_of source Source_refund) ;;
    source_refund amount psp_reference ;;
    let revoke_fulfillment := REFUND_eqb (status refund) PENDING_WITH_REVOCATION in
    Refund_set_status refund PAYMENT_REFUNDED ;;
    Refund_complete refund revoke_fulfillment ;;
    modify (with_payment_event_types (get_or_create PaymentEventTypeName_eqb REFUNDED)) ;;
    PaymentEvent_create {| event_type := REFUNDED; event_order := option_map order_id order;
                           amount := amount; event_reference := psp_reference;
                           processor_name := NAME |} ;;
    ret None
  else
    order_number <- lift_res (getattr_of order number) ;;
    raise (GatewayError (AdyenCreditFailedForOrder order_number)).

(** [getattr(self, name)] for the names the dispatcher builds: the methods
    of the class whose name starts with [_handle_]. *)
Definition getattr_handler (name : string)
  : Res (PyVal -> dict -> option Basket -> M HandlerReturn) :=
  if String.eqb name "_handle_authorisation" then Ret _handle_authorisation
  else if String.eqb name "_handle_cancel_or_refund" then Ret _handle_cancel_or_refund
  else Raise AttributeError.

(** Whether the dispatcher finds a handler for an event code. *)
Definition has_handler (event_code : PyVal) : bool :=
  match py_lower event_code with
  | Ret event =>
      match getattr_handler ("_handle_" +:+ event) with
      | Ret _ => true
      | Raise _ => false
      end
  | Raise _ => false
  end.

Definition handle_processor_response (response : dict) (basket : option Basket)
  : M HandlerReturn :=
  try_except
    (event_code <- lift_res (dict_getitem response "eventCode") ;;
     psp_reference <- lift_res (dict_getitem response "pspReference") ;;
     event <- lift_res (py_lower event_code) ;;
     handler <- lift_res (getattr_handler ("_handle_" +:+ event)) ;;
     handler psp_reference response basket)
    (fun e =>
       match e with
       | KeyError => raise MissingAdyenEventCodeException
       | AttributeError => raise UnsupportedAdyenEventException
       | _ => raise e
       end).

(** *** Credit issuance *)

(** [AdyenConfiguration] *)
Record Configuration := {
  payment_api_url : string;
  web_service_username : string;
  web_service_password : string;
  merchant_account_code : string
}.

(** A call of [requests.post]: [urljoin(base, path)], credentials, JSON body. *)
Record Request := {
  request_base : string;
  request_path : string;
  request_auth : string * string;
  request_json : dict
}.

(** What [requests.post] returns; [response_json] is [None] when the body
    is not JSON, and [response.json()] then raises [ValueError]. *)
Record Response := {
  status_code : Z;
  response_json : option PyVal
}.

Definition Response_json (r : Response) : Res PyVal :=
  match response_json r with
  | Some v => Ret v
  | None => Raise ValueError
  end.

(** [requests.codes.ok] *)
Definition codes_ok : Z := 200.

Section Credit.

(** The configuration of the processor, and the gateway behind
    [requests.post]: it answers, or the call raises. *)
Variable configuration : Configuration.
Variable requests_post : Request -> Res Response.

(** The request that [issue_credit] posts. *)
Definition cancel_or_refund_request (source : Source) (order_number : string) : Request :=
  {| request_base := payment_api_url configuration;
     request_path := "cancelOrRefund";
     request_auth := (web_service_username configuration,
                      web_service_password configuration);
     request_json :=
       <["reference" := PyStr order_number]>
       (<["originalReference" := reference source]>
       (<["merchantAccount" := PyStr (merchant_account_code configuration)]> ∅)) |}.

Definition issue_credit (source : Source) (amount : Z) (currency : string) : M PyVal :=
  order <- Source_order source ;;
  order_number <- lift_res (getattr_of order number) ;;
  response <- lift_res (requests_post (cancel_or_refund_request source order_number)) ;;
  adyen_response <- lift_res (Response_json response) ;;
  try_except
    (if status_code response =? codes_ok then
       body <- lift_res (Response_json response) ;;
       transaction_id <- lift_res (py_getitem adyen_response "pspReference") ;;
       basket <- lift_res (getattr_of order order_basket) ;;
       record_processor_response NAME body transaction_id basket ;;
       ack <- lift_res (py_getitem adyen_response "response") ;;
       if negb (py_eq_str ack ACK) then raise (GatewayError NoMessage) else ret tt
     else raise (GatewayError NoMessage))
    (fun e =>
       match e with
       | GatewayError _ =>
           logger EXCEPTION
             "An error occurred while attempting to issue a credit (via Adyen) for order [{}]." ;;
           raise (GatewayError (AdyenCreditError order_number))
       | _ => raise e
       end) ;;
  ret (PyBool false).

End Credit.

(** *** Shopper data *)

Definition nonempty (s : string) : bool := negb (String.eqb s "").

(** [if value: address[key] = value] *)
Definition set_if_nonempty (key value : string) (address : gmap string string)
  : gmap string string :=
  if nonempty value then <[key := value]> address else address.

Definition _get_shopper_billing_address
    (billing_address city state postal_code country : string)
  : gmap string (gmap string string) :=
  if nonempty billing_address || nonempty city || nonempty state
     || nonempty postal_code || nonempty country then
    let address : gmap string string := ∅ in
    let split :=
      if nonempty billing_address then
        match split_space_1 billing_address with
        | [house_number; street] =>
            Some (<["street" := street]> (<["houseNumberOrName" := house_number]> address))
        | _ => None                  (* ValueError *)
        end
      else Some address in
    match split with
    | None => ∅                      (* except ValueError: return {} *)
    | Some address =>
        let address := set_if_nonempty "city" city address in
        let address := set_if_nonempty "stateOrProvince" state address in
        let address := set_if_nonempty "postalCode" postal_code address in
        let address := set_if_nonempty "country" country address in
        {[ "billingAddress" := address ]}
    end
  else ∅.

Definition _get_shopper_name (first_name last_name : string)
  : gmap string (gmap string string) :=
  if nonempty first_name || nonempty last_name then
    let name : gmap string string := ∅ in
    let name := set_if_nonempty "firstName" first_name name in
    let name := set_if_nonempty "lastName" last_name name in
    {[ "shopper_name" := name ]}
  else ∅.

Definition _get_shopper_email (email : string) : gmap string string :=
  if nonempty email then {[ "shopperEmail" := email ]} else ∅.

Definition _get_shopper_ip (ip : string) : gmap string string :=
  if nonempty ip then {[ "shopperIP" := ip ]} else ∅.

(** A mapping of texts, as a value. *)
Definition text_block (block : gmap string string) : PyVal :=
  PyDict (PyStr <$> block).

(** [d.update(other)]: the keys of [other] take its values. *)
Definition py_update (d other : dict) : dict := other ∪ d.

Definition _get_shopper_data
    (first_name last_name email billing_address city state postal_code country ip : string)
  : dict :=
  let shopper_data : dict := ∅ in
  let shopper_data :=
    py_update shopper_data (text_block <$> _get_shopper_name first_name last_name) in
  let shopper_data := py_update shopper_data (PyStr <$> _get_shopper_email email) in
  let shopper_data :=
    py_update shopper_data
      (text_block <$> _get_shopper_billing_address billing_address city state postal_code
                        country) in
  let shopper_data := py_update shopper_data (PyStr <$> _get_shopper_ip ip) in
  shopper_data.

(** *** Authorisation *)

(** The keyword arguments [**shopper_data] of [authorise]; an argument that
    is not given is [''], as in [_get_shopper_data]. *)
Record ShopperData := {
  first_name : string;
  last_name : string;
  email : string;
  billing_address : string;
  city : string;
  state : string;
  postal_code : string;
  country : string;
  ip : string
}.

(** [o[k] = v] *)
Definition py_setitem (o : PyVal) (k : string) (v : PyVal) : Res dict :=
  match o with
  | PyDict d => Ret (<[k := v]> d)
  | _ => Raise TypeError
  end.

Section Authorise.

Variable configuration : Configuration.
Variable requests_post : Request -> Res Response.

(** [ecommerce.extensions.payment.utils.minor_units] is not among the
    sources: the amount in the smallest unit of the currency, or the
    exception it raises. *)
Variable minor_units : Z -> string -> Res PyVal.

(** The payload of [authorise] before the shopper data is added. *)
Definition authorise_payload (basket : Basket) (encrypted_card_data value : PyVal) : dict :=
  <["merchantAccount" := PyStr (merchant_account_code configuration)]>
  (<["reference" := PyStr (order_number basket)]>
  (<["amount" := PyDict (<["currency" := PyStr (basket_currency basket)]>
                         (<["value" := value]> ∅))]>
  (<["additionalData" := PyDict {[ "card.encrypted.json" := encrypted_card_data ]}]> ∅))).

(** The request that [authorise] posts. *)
Definition authorise_request (basket : Basket) (encrypted_card_data value : PyVal)
    (shopper_data : ShopperData) : Request :=
  {| request_base := payment_api_url configuration;
     request_path := "authorise";
     request_auth := (web_service_username configuration,
                      web_service_password configuration);
     request_json :=
       py_update (authorise_payload basket encrypted_card_data value)
         (_get_shopper_data (first_name shopper_data) (last_name shopper_data)
            (email shopper_data) (billing_address shopper_data) (city shopper_data)
            (state shopper_data) (postal_code shopper_data) (country shopper_data)
            (ip shopper_data)) |}.

(** [AdyenRequestError] is raised with the message and the response; the
    exception keeps its name here. *)
Definition authorise (basket : Basket) (encrypted_card_data : PyVal)
    (shopper_data : ShopperData) : M dict :=
  value <- lift_res (minor_units (total_incl_tax basket) (basket_currency basket)) ;;
  response <- lift_res
    (requests_post (authorise_request basket encrypted_card_data value shopper_data)) ;;
  body <- lift_res (Response_json response) ;;
  adyen_response <- lift_res (py_setitem body "eventCode" (PyStr "AUTHORISATION")) ;;
  if negb (status_code response =? codes_ok) then
    logger EXCEPTION "Request for basket {basket} to {url} returned with {status} {response}" ;;
    raise (ExternalError "AdyenRequestError")
  else ret adyen_response.

End Authorise.

End Adyen.

(** * The redirect-wallet adapter *)

Module Paypal.

Definition NAME : string := "paypal".

(** *** Resources of [paypalrestsdk] *)

Record Link := { rel : string; href : string }.

Record Sale := { sale_id : string }.

(** [sale] is what reading [related_resource.sale] does: it gives a value,
    possibly [None], or raises. *)
Record RelatedResource := { sale : Res (option Sale) }.

(** [transaction_total] is the [Decimal] that [amount.total] denotes, if
    it denotes one. *)
Record Transaction := {
  transaction_currency : string;
  transaction_total : option Z;
  related_resources : list RelatedResource
}.

(** The payer of a payment.  The SDK reads an attribute that the gateway
    did not send as [None]: that is the [None] of [payer_info], of
    [payer_info_email], and of [payment_links] and [payment_payer] below.
    [payment_transactions] is the list that [payment.transactions] holds:
    a payment is taken to come with its transactions, of which there may
    be none. *)
Record PayerInfo := { payer_info_email : option string }.

Record Payer := { payer_info : option PayerInfo }.

Record Payment := {
  payment_id : string;
  payment_success : bool;              (* [payment.success()] *)
  payment_error : PyVal;               (* [payment.error] *)
  payment_to_dict : PyVal;             (* [payment.to_dict()] *)
  payment_links : option (list Link);  (* [payment.links] *)
  payment_transactions : list Transaction;
  payment_payer : option Payer         (* [payment.payer] *)
}.

(** [for x in xs]: what the loop runs over; [None] cannot be iterated. *)
Definition py_iter {A} (xs : option (list A)) : Res (list A) :=
  match xs with
  | Some l => Ret l
  | None => Raise TypeError
  end.

(** The refund resource that [sale.refund(...)] returns. *)
Record SaleRefund := {
  sale_refund_id : string;
  sale_refund_success : bool;
  sale_refund_error : PyVal;
  sale_refund_to_dict : PyVal
}.

(** One [paypalrestsdk.Payment(data); payment.create()]: the payment object
    it leaves, and the exception if one was raised on the way. *)
Record Created := {
  created_payment : Payment;
  created_raises : option Exn
}.

Record HandledProcessorResponse := {
  transaction_id : string;
  total : Z;
  handled_currency : string;
  card_number : string;
  card_type : option string
}.

(** Whether an attempt to create a payment ends the loop: nothing was
    raised and [payment.success()] holds. *)
Definition attempt_succeeded (c : Created) : bool :=
  match created_raises c with
  | None => payment_success (created_payment c)
  | Some _ => false
  end.

(** How an iteration of a [for] loop ends. *)
Inductive Flow := Next | Break.

Definition _get_payment_sale_in (rrs : list RelatedResource) : option (option Sale) :=
  head (omap (fun rr => match sale rr with Ret s => Some s | Raise _ => None end) rrs).

Fixpoint _get_payment_sale_from (ts : list Transaction) : option Sale :=
  match ts with
  | [] => None
  | t :: rest =>
      match _get_payment_sale_in (related_resources t) with
      | Some s => s
      | None => _get_payment_sale_from rest
      end
  end.

(** The [Sale] of the first related resource, over all transactions, whose
    [sale] can be read; [None] when there is none. *)
Definition _get_payment_sale (payment : Payment) : option Sale :=
  _get_payment_sale_from (payment_transactions payment).

Section Processor.

(** [self.retry_attempts], the waffle switches, and the gateway behind the
    SDK.  The [nat] is the number of calls made before: the gateway may
    answer the same request differently each time. *)
Variable retry_attempts : Z.
Variable switch_is_active : string -> bool.
Variable Payment_create : dict -> nat -> Created.
Variable Payment_find : PyVal -> nat -> Res Payment.
Variable Payment_execute : Payment -> dict -> nat -> Res Payment.
Variable Sale_refund : Sale -> Z -> string -> nat -> Res SaleRefund.

(** The request of lines 82-119, built from the basket and the web profile,
    or the exception that building it raises. *)
Variable transaction_data : Basket -> Res dict.

Definition gateway {A} (call : nat -> A) : M A :=
  fun w => (Ret (call (gateway_calls w)), with_gateway_calls S w).

(** The body of the loop of [get_transaction_parameters], with the
    [payment] it binds. *)
Definition create_attempt (basket : Basket) (data : dict) (available_attempts i : Z)
  : M (Flow * Payment) :=
  created <- gateway (Payment_create data) ;;
  let payment := created_payment created in
  try_except
    (match created_raises created with Some e => raise e | None => ret tt end ;;
     if payment_success payment then ret (Break, payment)
     else if i <? available_attempts then
       logger WARNING "Creating PayPal payment for basket [%d] was unsuccessful. Will retry." ;;
       ret (Next, payment)
     else
       let error := payment_error payment in
       debug_id <- lift_res (py_getitem error "debug_id") ;;
       entry <- record_processor_response NAME error debug_id (Some (basket_id basket)) ;;
       logger ERROR "%s [%d], %s [%d]." ;;
       raise (GatewayError (PaypalError error)))
    (fun e =>
       if i <? available_attempts then
         logger WARNING
           "Creating PayPal payment for basket [%d] resulted in an exception. Will retry." ;;
         ret (Next, payment)
       else
         logger EXCEPTION
           "After %d retries, creating PayPal payment for basket [%d] still experienced exception." ;;
         raise e).

(** [for i in attempts: body i], threading the local [payment]. *)
Fixpoint for_attempts (body : Z -> M (Flow * Payment)) (attempts : list Z)
    (payment : option Payment) : M (option Payment) :=
  match attempts with
  | [] => ret payment
  | i :: rest =>
      r <- body i ;;
      match r with
      | (Break, p) => ret (Some p)
      | (Next, p) => for_attempts body rest (Some p)
      end
  end.

(** Reading a local variable. *)
Definition local {A} (x : option A) : Res A :=
  match x with
  | Some a => Ret a
  | None => Raise UnboundLocalError
  end.

(** The number of attempts that [get_transaction_parameters] allows. *)
Definition create_attempts : Z :=
  if switch_is_active "PAYPAL_RETRY_ATTEMPTS" then retry_attempts else 1.

Definition get_transaction_parameters (basket : Basket) : M (gmap string string) :=
  data <- lift_res (transaction_data basket) ;;
  let available_attempts := create_attempts in
  payment <- for_attempts (create_attempt basket data available_attempts)
               (py_range 1 (available_attempts + 1)) None ;;
  payment <- lift_res (local payment) ;;
  entry <- record_processor_response NAME (payment_to_dict payment)
             (PyStr (payment_id payment)) (Some (basket_id basket)) ;;
  logger INFO "Successfully created PayPal payment [%s] for basket [%d]." ;;
  links <- lift_res (py_iter (payment_links payment)) ;;
  match List.find (fun link => String.eqb (rel link) "approval_url") links with
  | Some link => ret {[ "payment_page_url" := href link ]}
  | None =>
      logger ERROR
        "Approval URL missing from PayPal payment [%s]. PayPal's response was recorded in entry [%d]." ;;
      raise (GatewayError (PaypalApprovalUrlMissing entry))
  end.

(** The body of the loop of [handle_processor_response]. *)
Definition execute_attempt (response : dict) (basket : option Basket) (data : dict)
    (available_attempts attempt_count : Z) : M (Flow * Payment) :=
  found <- gateway (Payment_find (dict_get response "paymentId")) ;;
  payment <- lift_res found ;;
  executed <- gateway (Payment_execute payment data) ;;
  payment <- lift_res executed ;;
  if payment_success payment then ret (Break, payment)
  else
    let error := payment_error payment in
    debug_id <- lift_res (py_getitem error "debug_id") ;;
    entry <- record_processor_response NAME error debug_id (option_map basket_id basket) ;;
    logger WARNING
      "Failed to execute PayPal payment on attempt [%d]. PayPal's response was recorded in entry [%d]." ;;
    if attempt_count =? available_attempts then
      logger ERROR
        "Failed to execute PayPal payment [%s]. PayPal's response was recorded in entry [%d]." ;;
      raise (GatewayError NoMessage)
    else ret (Next, payment).

(** The number of attempts that [handle_processor_response] allows. *)
Definition execute_attempts : Z :=
  if switch_is_active "PAYPAL_RETRY_ATTEMPTS" then 1 + retry_attempts else 1.

(** [{'payer_id': response.get('PayerID')}] *)
Definition payer_data (response : dict) : dict :=
  {[ "payer_id" := dict_get response "PayerID" ]}.

(** An attempt to execute the payment, at a given count of gateway calls,
    that leaves [payment] unsuccessful with an error that has [debug_id]. *)
Definition execute_unsuccessful (response : dict) (calls : nat) (payment : Payment)
    (debug_id : PyVal) : Prop :=
  exists found,
    Payment_find (dict_get response "paymentId") calls = Ret found
    /\ Payment_execute found (payer_data response) (S calls) = Ret payment
    /\ payment_success payment = false
    /\ py_getitem (payment_error payment) "debug_id" = Ret debug_id.

Definition handle_processor_response (response : dict) (basket : option Basket)
  : M HandledProcessorResponse :=
  let data : dict := payer_data response in
  let available_attempts := execute_attempts in
  payment <- for_attempts (execute_attempt response basket data available_attempts)
               (py_range 1 (available_attempts + 1)) None ;;
  payment <- lift_res (local payment) ;;
  record_processor_response NAME (payment_to_dict payment)
    (PyStr (payment_id payment)) (option_map basket_id basket) ;;
  _ <- lift_res (getattr_of basket basket_id) ;;
  logger INFO "Successfully executed PayPal payment [%s] for basket [%d]." ;;
  transaction <- lift_res (match payment_transactions payment with
                           | t :: _ => Ret t
                           | [] => Raise IndexError
                           end) ;;
  let currency := transaction_currency transaction in
  total <- lift_res (match transaction_total transaction with
                     | Some d => Ret d
                     | None => Raise (ExternalError "InvalidOperation")
                     end) ;;
  payer_info <- lift_res (getattr_of (payment_payer payment) payer_info) ;;
  email <- lift_res (getattr_of payer_info payer_info_email) ;;
  let label :=
    match email with
    | Some email =>
        if negb (String.eqb email "") then "PayPal (" +:+ email +:+ ")" else "PayPal Account"
    | None => "PayPal Account"
    end in
  ret {| transaction_id := payment_id payment; total := total;
         handled_currency := currency; card_number := label; card_type := None |}.

Definition issue_credit (order : Order) (reference_number : PyVal) (amount : Z)
    (currency : string) : M PyVal :=
  found <- try_except
    (found <- gateway (Payment_find reference_number) ;;
     payment <- lift_res found ;;
     let sale := _get_payment_sale payment in
     (if sale is None
      then logger ERROR "Unable to find a Sale associated with PayPal Payment [%s]."
      else ret tt) ;;
     refund_method <- lift_res (getattr_of sale Sale_refund) ;;
     refunded <- gateway (refund_method amount currency) ;;
     refund <- lift_res refunded ;;
     ret (sale, refund))
    (fun _ =>
       logger EXCEPTION
         "An error occurred while attempting to issue a credit (via PayPal) for order [{}]." ;;
       raise (GatewayError (PaypalCreditError (number order)))) ;;
  let sale := fst found in
  let refund := snd found in
  let basket := order_basket order in
  if sale_refund_success refund then
    let transaction_id := sale_refund_id refund in
    record_processor_response NAME (sale_refund_to_dict refund) (PyStr transaction_id) basket ;;
    ret (PyStr transaction_id)
  else
    let error := sale_refund_error refund in
    debug_id <- lift_res (py_getitem error "debug_id") ;;
    entry <- record_processor_response NAME error debug_id basket ;;
    the_sale_id <- lift_res (getattr_of sale sale_id) ;;
    raise (GatewayError (PaypalRefundFailed the_sale_id entry)).

End Processor.

End Paypal.

(** * Example inputs *)

Module Examples.

(** A world with empty tables. *)
Definition empty_world : World :=
  {| audit := []; log := []; source_types := []; payment_event_types := [];
     orders := []; sources := []; refunds := []; payment_events := [];
     revoked := []; gateway_calls := 0 |}.

Definition basket : Basket :=
  {| basket_id := 7; order_number := "EDX-100007"; basket_currency := "USD";
     total_incl_tax := 4900 |}.

(** An authorisation that the gateway accepted. *)
Definition authorised : dict :=
  <["resultCode" := PyStr "Authorised"]>
  (<["pspReference" := PyStr "8514714612773741"]>
  (<["eventCode" := PyStr "AUTHORISATION"]> ∅)).

(** An authorisation that the gateway refused. *)
Definition refused : dict :=
  <["resultCode" := PyStr "Refused"]>
  (<["pspReference" := PyStr "8514714612773742"]>
  (<["eventCode" := PyStr "AUTHORISATION"]> ∅)).

(** A notification without a [pspReference], for an event that has no handler. *)
Definition report_available : dict :=
  <["eventCode" := PyStr "REPORT_AVAILABLE"]> ∅.

(** A notification for an event that has no handler. *)
Definition chargeback : dict :=
  <["pspReference" := PyStr "8514714612773743"]>
  (<["eventCode" := PyStr "CHARGEBACK"]> ∅).

(** A notification with no event code. *)
Definition no_event_code : dict :=
  <["pspReference" := PyStr "8514714612773744"]> ∅.

(** The order of the basket, paid through one source, with a refund that
    waits for the gateway and is to revoke fulfillment. *)
Definition order : Order :=
  {| order_id := 3; number := "EDX-100007"; order_basket := Some 7%nat |}.

Definition source : Source :=
  {| source_id := Some 11%nat; source_order := Some 3%nat; source_type := "adyen";
     currency := "USD"; amount_allocated := 4900; amount_debited := 4900;
     amount_refunded := 0; reference := PyStr "8514714612773741" |}.

Definition refund : Refund :=
  {| refund_id := 5; refund_order := 3; status := PENDING_WITH_REVOCATION;
     total_credit_excl_tax := 4900 |}.

Definition world_with_refund : World :=
  {| audit := []; log := []; source_types := ["adyen"]; payment_event_types := [PAID];
     orders := [order]; sources := [source]; refunds := [refund];
     payment_events := []; revoked := []; gateway_calls := 0 |}.

(** Notifications about the refund: carried out, and failed. *)
Definition refund_succeeded : dict :=
  <["success" := PyStr "true"]>
  (<["pspReference" := PyStr "8514714612773745"]>
  (<["eventCode" := PyStr "CANCEL_OR_REFUND"]> ∅)).

Definition refund_failed : dict :=
  <["success" := PyBool false]>
  (<["pspReference" := PyStr "8514714612773745"]>
  (<["eventCode" := PyStr "CANCEL_OR_REFUND"]> ∅)).

(** The same failure with [success] as a text, as it stands in a
    notification whose fields are all texts. *)
Definition refund_failed_as_text : dict :=
  <["success" := PyStr "false"]>
  (<["pspReference" := PyStr "8514714612773745"]>
  (<["eventCode" := PyStr "CANCEL_OR_REFUND"]> ∅)).

Definition configuration : Adyen.Configuration :=
  {| Adyen.payment_api_url := "https://pal-test.adyen.com/pal/servlet/Payment/v18/";
     Adyen.web_service_username := "ws@Company.EdX";
     Adyen.web_service_password := "secret";
     Adyen.merchant_account_code := "EdXORG" |}.

(** Three gateways: one acknowledges the request, one answers OK with
    another text, one answers with a server error. *)
Definition received_body : PyVal :=
  PyDict (<["response" := PyStr "[cancelOrRefund-received]"]>
          (<["pspReference" := PyStr "8514714612773746"]> ∅)).

Definition gateway_received (_ : Adyen.Request) : Res Adyen.Response :=
  Ret {| Adyen.status_code := 200; Adyen.response_json := Some received_body |}.

Definition unexpected_body : PyVal :=
  PyDict (<["response" := PyStr "[refused]"]>
          (<["pspReference" := PyStr "8514714612773747"]> ∅)).

Definition gateway_unexpected (_ : Adyen.Request) : Res Adyen.Response :=
  Ret {| Adyen.status_code := 200; Adyen.response_json := Some unexpected_body |}.

Definition server_error_body : PyVal :=
  PyDict (<["message" := PyStr "Internal error"]>
          (<["pspReference" := PyStr "8514714612773748"]>
          (<["status" := PyInt 500]> ∅))).

Definition gateway_server_error (_ : Adyen.Request) : Res Adyen.Response :=
  Ret {| Adyen.status_code := 500; Adyen.response_json := Some server_error_body |}.

(** Payments as the PayPal SDK leaves them: one that was not created, and
    one that was, with its links. *)
Definition payment_rejected : Paypal.Payment :=
  {| Paypal.payment_id := "";
     Paypal.payment_success := false;
     Paypal.payment_error :=
       PyDict (<["debug_id" := PyStr "5c1a3f0b7e2d4"]>
               (<["name" := PyStr "INTERNAL_SERVICE_ERROR"]> ∅));
     Paypal.payment_to_dict := PyDict ∅;
     Paypal.payment_links := Some [];
     Paypal.payment_transactions := [];
     Paypal.payment_payer := None |}.

Definition payment_created : Paypal.Payment :=
  {| Paypal.payment_id := "PAY-1B56960729604235TKQQIYVY";
     Paypal.payment_success := true;
     Paypal.payment_error := PyNone;
     Paypal.payment_to_dict :=
       PyDict (<["state" := PyStr "created"]>
               (<["id" := PyStr "PAY-1B56960729604235TKQQIYVY"]> ∅));
     Paypal.payment_links := Some
       [ {| Paypal.rel := "self";
            Paypal.href := "https://api.sandbox.paypal.com/v1/payments/payment/PAY-1B56960729604235TKQQIYVY" |};
         {| Paypal.rel := "approval_url";
            Paypal.href := "https://www.sandbox.paypal.com/cgi-bin/webscr?cmd=_express-checkout&token=EC-60385559L1062554J" |};
         {| Paypal.rel := "execute";
            Paypal.href := "https://api.sandbox.paypal.com/v1/payments/payment/PAY-1B56960729604235TKQQIYVY/execute" |} ];
     Paypal.payment_transactions := [];
     Paypal.payment_payer := None |}.

(** A gateway that creates the payment at the third call. *)
Definition create_third_time (_ : dict) (calls : nat) : Paypal.Created :=
  {| Paypal.created_payment := if Nat.ltb calls 2 then payment_rejected else payment_created;
     Paypal.created_raises := None |}.

(** A gateway that never creates the payment. *)
Definition create_never (_ : dict) (_ : nat) : Paypal.Created :=
  {| Paypal.created_payment := payment_rejected; Paypal.created_raises := None |}.

Definition switch_on (_ : string) : bool := true.

Definition transaction_data (b : Basket) : Res dict :=
  Ret (<["intent" := PyStr "sale"]> ∅).

(** An executed payment with its sale, and the gateway's answers to a
    lookup and to a refund of that sale. *)
Definition sale : Paypal.Sale := {| Paypal.sale_id := "4RR959492F879224U" |}.

Definition payment_executed : Paypal.Payment :=
  {| Paypal.payment_id := "PAY-1B56960729604235TKQQIYVY";
     Paypal.payment_success := true;
     Paypal.payment_error := PyNone;
     Paypal.payment_to_dict :=
       PyDict (<["state" := PyStr "approved"]>
               (<["id" := PyStr "PAY-1B56960729604235TKQQIYVY"]> ∅));
     Paypal.payment_links := Some [];
     Paypal.payment_transactions :=
       [ {| Paypal.transaction_currency := "USD";
            Paypal.transaction_total := Some 4900;
            Paypal.related_resources :=
              [ {| Paypal.sale := Raise AttributeError |};
                {| Paypal.sale := Ret (Some sale) |} ] |} ];
     Paypal.payment_payer :=
       Some {| Paypal.payer_info :=
                 Some {| Paypal.payer_info_email := Some "buyer@example.com" |} |} |}.

Definition payment_not_executed : Paypal.Payment :=
  {| Paypal.payment_id := "PAY-1B56960729604235TKQQIYVY";
     Paypal.payment_success := false;
     Paypal.payment_error :=
       PyDict (<["debug_id" := PyStr "9e2a6c7f1d3b8"]>
               (<["name" := PyStr "PAYMENT_NOT_APPROVED_FOR_EXECUTION"]> ∅));
     Paypal.payment_to_dict := PyDict ∅;
     Paypal.payment_links := Some [];
     Paypal.payment_transactions := [];
     Paypal.payment_payer := None |}.

Definition find_payment (_ : PyVal) (_ : nat) : Res Paypal.Payment := Ret payment_executed.

Definition find_nothing (_ : PyVal) (_ : nat) : Res Paypal.Payment :=
  Raise (ExternalError "ResourceNotFound").

Definition execute_fails (_ : Paypal.Payment) (_ : dict) (_ : nat) : Res Paypal.Payment :=
  Ret payment_not_executed.

Definition refund_completed : Paypal.SaleRefund :=
  {| Paypal.sale_refund_id := "0P209507D6694645N";
     Paypal.sale_refund_success := true;
     Paypal.sale_refund_error := PyNone;
     Paypal.sale_refund_to_dict :=
       PyDict (<["state" := PyStr "completed"]>
               (<["id" := PyStr "0P209507D6694645N"]> ∅)) |}.

Definition refund_rejected : Paypal.SaleRefund :=
  {| Paypal.sale_refund_id := "";
     Paypal.sale_refund_success := false;
     Paypal.sale_refund_error :=
       PyDict (<["debug_id" := PyStr "b7d3e1f09a2c4"]>
               (<["name" := PyStr "TRANSACTION_REFUSED"]> ∅));
     Paypal.sale_refund_to_dict := PyDict ∅ |}.

Definition refund_completes (_ : Paypal.Sale) (_ : Z) (_ : string) (_ : nat)
  : Res Paypal.SaleRefund := Ret refund_completed.

Definition refund_is_rejected (_ : Paypal.Sale) (_ : Z) (_ : string) (_ : nat)
  : Res Paypal.SaleRefund := Ret refund_rejected.

(** What the shopper comes back with from PayPal. *)
Definition returned : dict :=
  <["PayerID" := PyStr "7E7MGXCWTTKK2"]>
  (<["paymentId" := PyStr "PAY-1B56960729604235TKQQIYVY"]> ∅).

(** What the payment form collected, and the gateway's answers to an
    authorisation: accepted, and rejected as a bad request. *)
Definition shopper : Adyen.ShopperData :=
  {| Adyen.first_name := "Ada"; Adyen.last_name := "Lovelace";
     Adyen.email := "ada@example.com"; Adyen.billing_address := "12 St James Square";
     Adyen.city := "London"; Adyen.state := ""; Adyen.postal_code := "SW1Y 4JH";
     Adyen.country := "GB"; Adyen.ip := "203.0.113.7" |}.

Definition minor_units (amount : Z) (_ : string) : Res PyVal := Ret (PyInt amount).

Definition authorise_accepted_body : dict :=
  <["eventCode" := PyStr "REPORT_AVAILABLE"]>
  (<["resultCode" := PyStr "Authorised"]>
  (<["pspReference" := PyStr "8514714612773749"]> ∅)).

Definition gateway_authorises (_ : Adyen.Request) : Res Adyen.Response :=
  Ret {| Adyen.status_code := 200;
         Adyen.response_json := Some (PyDict authorise_accepted_body) |}.

Definition authorise_rejected_body : dict :=
  <["message" := PyStr "Invalid card data"]>
  (<["errorCode" := PyStr "174"]>
  (<["status" := PyInt 422]> ∅)).

Definition gateway_rejects (_ : Adyen.Request) : Res Adyen.Response :=
  Ret {| Adyen.status_code := 422;
         Adyen.response_json := Some (PyDict authorise_rejected_body) |}.

(** Authorisations without a result code, and with one that is no text. *)
Definition no_result_code : dict :=
  <["pspReference" := PyStr "8514714612773750"]>
  (<["eventCode" := PyStr "AUTHORISATION"]> ∅).

Definition null_result_code : dict :=
  <["resultCode" := PyNone]> no_result_code.

(** The order with its refund completed, and the order with a pending
    refund but no source. *)
Definition world_refund_complete : World :=
  {| audit := []; log := []; source_types := ["adyen"]; payment_event_types := [PAID];
     orders := [order]; sources := [source];
     refunds := [Refund_with_status COMPLETE refund];
     payment_events := []; revoked := []; gateway_calls := 0 |}.

Definition world_without_source : World :=
  {| audit := []; log := []; source_types := ["adyen"]; payment_event_types := [PAID];
     orders := [order]; sources := []; refunds := [refund];
     payment_events := []; revoked := []; gateway_calls := 0 |}.

(** Gateways that answer a credit request with a page that is not JSON, with
    an empty object, and with a pspReference alone. *)
Definition gateway_not_json (_ : Adyen.Request) : Res Adyen.Response :=
  Ret {| Adyen.status_code := 502; Adyen.response_json := None |}.

Definition gateway_empty_object (_ : Adyen.Request) : Res Adyen.Response :=
  Ret {| Adyen.status_code := 200; Adyen.response_json := Some (PyDict ∅) |}.

Definition reference_only_body : dict :=
  <["pspReference" := PyStr "8514714612773751"]> ∅.

Definition gateway_reference_only (_ : Adyen.Request) : Res Adyen.Response :=
  Ret {| Adyen.status_code := 200; Adyen.response_json := Some (PyDict reference_only_body) |}.

(** A payment that was created but comes without an approval link, and a
    gateway that cannot be reached. *)
Definition payment_without_approval : Paypal.Payment :=
  {| Paypal.payment_id := "PAY-6RV70583SB702805EKEYSZ6Y";
     Paypal.payment_success := true;
     Paypal.payment_error := PyNone;
     Paypal.payment_to_dict :=
       PyDict (<["state" := PyStr "created"]>
               (<["id" := PyStr "PAY-6RV70583SB702805EKEYSZ6Y"]> ∅));
     Paypal.payment_links := Some
       [ {| Paypal.rel := "self";
            Paypal.href := "https://api.sandbox.paypal.com/v1/payments/payment/PAY-6RV70583SB702805EKEYSZ6Y" |} ];
     Paypal.payment_transactions := [];
     Paypal.payment_payer := None |}.

Definition create_without_approval (_ : dict) (_ : nat) : Paypal.Created :=
  {| Paypal.created_payment := payment_without_approval; Paypal.created_raises := None |}.

Definition create_unreachable (_ : dict) (_ : nat) : Paypal.Created :=
  {| Paypal.created_payment := payment_rejected;
     Paypal.created_raises := Some (ExternalError "ConnectionError") |}.

(** A gateway that executes the payment at the second attempt: an attempt
    is a lookup and an execution, so that is its fourth call. *)
Definition execute_second_time (_ : Paypal.Payment) (_ : dict) (calls : nat)
  : Res Paypal.Payment :=
  Ret (if Nat.ltb calls 2 then payment_not_executed else payment_executed).



End Examples.

(** * Properties *)

(** Unfolds the monad, so that a method runs by computation. *)
Ltac run_unfold :=
  unfold try_except, bind, ret, raise, lift_res, gets, modify, logger,
    record_processor_response, audit_row, dict_getitem, dict_get, py_getitem, getattr_of in *.

(** ** The dispatcher of the encrypted-card adapter *)

Section AdyenDispatch.

Variables (response : dict) (w : World).

Lemma dispatch_to_handler (basket : option Basket) (event_code : string)
    (psp_reference : PyVal) handler :
  response !! "eventCode" = Some (PyStr event_code) ->
  response !! "pspReference" = Some psp_reference ->
  Adyen.getattr_handler ("_handle_" +:+ lower event_code) = Ret handler ->
  Adyen.handle_processor_response response basket w =
  match handler psp_reference response basket w with
  | (Ret a, w') => (Ret a, w')
  | (Raise KeyError, w') => (Raise MissingAdyenEventCodeException, w')
  | (Raise AttributeError, w') => (Raise UnsupportedAdyenEventException, w')
  | (Raise e, w') => (Raise e, w')
  end.
Proof.
  intros Hev Hpsp Hh.
  unfold Adyen.handle_processor_response. run_unfold.
  rewrite Hev, Hpsp. simpl. rewrite Hh.
  destruct (handler psp_reference response basket w) as [[a|e] w']; [reflexivity|].
  destruct e; reflexivity.
Qed.

Lemma handler_authorisation (event_code : string) :
  lower event_code = "authorisation" ->
  Adyen.getattr_handler ("_handle_" +:+ lower event_code) = Ret Adyen._handle_authorisation.
Proof. intros ->. reflexivity. Qed.

Lemma handler_cancel_or_refund (event_code : string) :
  lower event_code = "cancel_or_refund" ->
  Adyen.getattr_handler ("_handle_" +:+ lower event_code) = Ret Adyen._handle_cancel_or_refund.
Proof. intros ->. reflexivity. Qed.

(** C1: an authorisation whose result code is "authorised" in any case
    gives back an unsaved source, allocated and debited at the total of the
    basket and referring to the pspReference, and a PAID event with the same
    amount and reference. *)
Theorem authorised_returns_source_and_event (basket : Basket)
    (event_code result_code : string) (psp_reference : PyVal) :
  response !! "eventCode" = Some (PyStr event_code) ->
  lower event_code = "authorisation" ->
  response !! "pspReference" = Some psp_reference ->
  response !! "resultCode" = Some (PyStr result_code) ->
  lower result_code = "authorised" ->
  exists source event w',
    Adyen.handle_processor_response response (Some basket) w = (Ret (Some (source, event)), w')
    /\ amount_allocated source = total_incl_tax basket
    /\ amount_debited source = total_incl_tax basket
    /\ reference source = psp_reference
    /\ event_type event = PAID
    /\ amount event = total_incl_tax basket
    /\ event_reference event = psp_reference
    /\ sources w' = sources w
    /\ payment_events w' = payment_events w.
Proof.
  intros Hev Hlow Hpsp Hrc Hauth.
  rewrite (dispatch_to_handler (Some basket) event_code psp_reference
             Adyen._handle_authorisation Hev Hpsp (handler_authorisation _ Hlow)).
  unfold Adyen._handle_authorisation. run_unfold.
  rewrite Hrc. simpl. rewrite Hauth. simpl.
  do 3 eexists. split; [reflexivity|]. simpl. repeat split; reflexivity.
Qed.

(** C5, amended: an authorisation that has a pspReference and whose result
    code is a text other than "authorised" raises TransactionDeclined, and
    the world is left as it was: no source, no event, no row of any
    table. *)
Theorem declined_raises_and_leaves_world (basket : option Basket)
    (event_code result_code : string) (psp_reference : PyVal) :
  response !! "eventCode" = Some (PyStr event_code) ->
  lower event_code = "authorisation" ->
  response !! "pspReference" = Some psp_reference ->
  response !! "resultCode" = Some (PyStr result_code) ->
  lower result_code <> "authorised" ->
  Adyen.handle_processor_response response basket w = (Raise TransactionDeclined, w).
Proof.
  intros Hev Hlow Hpsp Hrc Hne.
  rewrite (dispatch_to_handler basket event_code psp_reference
             Adyen._handle_authorisation Hev Hpsp (handler_authorisation _ Hlow)).
  unfold Adyen._handle_authorisation. run_unfold.
  rewrite Hrc. simpl.
  destruct (String.eqb (lower result_code) "authorised") eqn:E.
  - apply String.eqb_eq in E. contradiction.
  - reflexivity.
Qed.

Lemma missing_event_code (basket : option Basket) :
  response !! "eventCode" = None ->
  Adyen.handle_processor_response response basket w =
  (Raise MissingAdyenEventCodeException, w).
Proof.
  intros Hev. unfold Adyen.handle_processor_response. run_unfold.
  rewrite Hev. reflexivity.
Qed.

Lemma missing_psp_reference (basket : option Basket) (event_code : PyVal) :
  response !! "eventCode" = Some event_code ->
  response !! "pspReference" = None ->
  Adyen.handle_processor_response response basket w =
  (Raise MissingAdyenEventCodeException, w).
Proof.
  intros Hev Hpsp. unfold Adyen.handle_processor_response. run_unfold.
  rewrite Hev, Hpsp. reflexivity.
Qed.

Lemma unsupported_event_code (basket : option Basket) (event_code psp_reference : PyVal) :
  response !! "eventCode" = Some event_code ->
  response !! "pspReference" = Some psp_reference ->
  Adyen.has_handler event_code = false ->
  Adyen.handle_processor_response response basket w =
  (Raise UnsupportedAdyenEventException, w).
Proof.
  intros Hev Hpsp Hno. unfold Adyen.handle_processor_response. run_unfold.
  rewrite Hev, Hpsp. simpl.
  unfold Adyen.has_handler in Hno.
  destruct (py_lower event_code) as [event|e] eqn:El.
  - destruct (Adyen.getattr_handler ("_handle_" +:+ event)) as [h|e] eqn:Eh.
    + discriminate.
    + unfold Adyen.getattr_handler in Eh.
      repeat match type of Eh with
      | (if ?b then _ else _) = _ => destruct b; [discriminate|]
      end.
      injection Eh as <-. reflexivity.
  - destruct event_code; simpl in El; try discriminate; injection El as <-; reflexivity.
Qed.

(** C6, amended: a response without the eventCode key raises
    MissingAdyenEventCodeException; a response that has the eventCode and
    the pspReference keys, and whose event code, lower-cased, names no
    handler, raises UnsupportedAdyenEventException.  The world is left as it
    was in both cases. *)
Theorem event_code_missing_or_unsupported (basket : option Basket) :
  (response !! "eventCode" = None ->
   Adyen.handle_processor_response response basket w =
   (Raise MissingAdyenEventCodeException, w))
  /\ (forall event_code psp_reference,
        response !! "eventCode" = Some event_code ->
        response !! "pspReference" = Some psp_reference ->
        Adyen.has_handler event_code = false ->
        Adyen.handle_processor_response response basket w =
        (Raise UnsupportedAdyenEventException, w)).
Proof.
  split.
  - apply missing_event_code.
  - intros. eapply unsupported_event_code; eassumption.
Qed.

(** What the handler does with a cancel-or-refund notification for a basket
    whose order has a first source and one pending refund, by the truth
    value of the [success] field, which is how the handler reads it.  When
    the field is true, the handler credits the source with the refund's
    amount, sets the refund to PAYMENT_REFUNDED, completes it, revoking
    fulfillment exactly when the refund was PENDING_WITH_REVOCATION, and
    creates one REFUNDED event with that amount and the pspReference.  When
    it is false, GatewayError is raised and the world is left as it was. *)
Theorem cancel_or_refund_notification (basket : Basket) (event_code : string)
    (psp_reference : PyVal) (order : Order) (source : Source) (refund : Refund) :
  response !! "eventCode" = Some (PyStr event_code) ->
  lower event_code = "cancel_or_refund" ->
  response !! "pspReference" = Some psp_reference ->
  order_set_first basket w = (Ret (Some order), w) ->
  sources_first order w = (Ret (Some source), w) ->
  refunds_get order [PENDING_WITH_REVOCATION; PENDING_WITHOUT_REVOCATION] w = (Ret refund, w) ->
  let amount := total_credit_excl_tax refund in
  let revoke := REFUND_eqb (status refund) PENDING_WITH_REVOCATION in
  let event := {| event_type := REFUNDED; event_order := Some (order_id order);
                  amount := amount; event_reference := psp_reference;
                  processor_name := Adyen.NAME |} in
  (truthy (dict_get response "success") = true ->
   Adyen.handle_processor_response response (Some basket) w =
   (Source_refund source amount psp_reference ;;
    Refund_set_status refund PAYMENT_REFUNDED ;;
    Refund_complete refund revoke ;;
    modify (with_payment_event_types (get_or_create PaymentEventTypeName_eqb REFUNDED)) ;;
    PaymentEvent_create event ;;
    ret None) w
   /\ payment_events (snd (Adyen.handle_processor_response response (Some basket) w)) =
      (payment_events w ++ [event])%list
   /\ revoked (snd (Adyen.handle_processor_response response (Some basket) w)) =
      (if revoke then revoked w ++ [refund_id refund] else revoked w)%list)
  /\ (truthy (dict_get response "success") = false ->
      Adyen.handle_processor_response response (Some basket) w =
      (Raise (GatewayError (AdyenCreditFailedForOrder (number order))), w)).
Proof.
  intros Hev Hlow Hpsp Hord Hsrc Hrefund amount revoke event.
  rewrite (dispatch_to_handler (Some basket) event_code psp_reference
             Adyen._handle_cancel_or_refund Hev Hpsp (handler_cancel_or_refund _ Hlow)).
  assert (Hrun : Adyen._handle_cancel_or_refund psp_reference response (Some basket) w =
                 if truthy (dict_get response "success") then
                   (Source_refund source amount psp_reference ;;
                    Refund_set_status refund PAYMENT_REFUNDED ;;
                    Refund_complete refund revoke ;;
                    modify (with_payment_event_types
                              (get_or_create PaymentEventTypeName_eqb REFUNDED)) ;;
                    PaymentEvent_create event ;;
                    ret None) w
                 else (Raise (GatewayError (AdyenCreditFailedForOrder (number order))), w)).
  { unfold Adyen._handle_cancel_or_refund.
    unfold bind at 1, lift_res at 1, getattr_of at 1.
    unfold bind at 1. rewrite Hord.
    unfold bind at 1, lift_res at 1, getattr_of at 1.
    unfold bind at 1. rewrite Hsrc.
    unfold bind at 1, lift_res at 1, getattr_of at 1.
    unfold bind at 1. rewrite Hrefund.
    destruct (truthy (dict_get response "success")); reflexivity. }
  rewrite Hrun. clear Hrun Hord Hsrc Hrefund.
  split.
  - intros Hok. rewrite Hok.
    subst amount revoke event.
    unfold Refund_complete, Refund_set_status, Source_refund, PaymentEvent_create.
    run_unfold. simpl.
    destruct (REFUND_eqb (status refund) PENDING_WITH_REVOCATION); simpl;
      repeat split; reflexivity.
  - intros Hno. rewrite Hno. run_unfold. reflexivity.
Qed.

End AdyenDispatch.

Lemma authorised_returns_source_and_event_witness :
  exists source event w',
    Adyen.handle_processor_response Examples.authorised (Some Examples.basket)
      Examples.empty_world = (Ret (Some (source, event)), w')
    /\ amount_allocated source = 4900
    /\ amount_debited source = 4900
    /\ reference source = PyStr "8514714612773741"
    /\ event_type event = PAID
    /\ amount event = 4900
    /\ event_reference event = PyStr "8514714612773741"
    /\ sources w' = []
    /\ payment_events w' = [].
Proof.
  apply (authorised_returns_source_and_event Examples.authorised Examples.empty_world
           Examples.basket "AUTHORISATION" "Authorised" (PyStr "8514714612773741"));
    reflexivity.
Defined.

Lemma declined_raises_and_leaves_world_witness :
  Adyen.handle_processor_response Examples.refused (Some Examples.basket)
    Examples.empty_world = (Raise TransactionDeclined, Examples.empty_world).
Proof.
  apply (declined_raises_and_leaves_world Examples.refused Examples.empty_world
           (Some Examples.basket) "AUTHORISATION" "Refused" (PyStr "8514714612773742"));
    try reflexivity.
  vm_compute. discriminate.
Defined.

(** An authorisation whose result code is null: it is other than
    "authorised", and the call raises UnsupportedAdyenEventException, not
    TransactionDeclined. *)
Lemma null_result_code_is_not_declined :
  Examples.null_result_code !! "eventCode" = Some (PyStr "AUTHORISATION")
  /\ Examples.null_result_code !! "resultCode" = Some PyNone
  /\ Adyen.handle_processor_response Examples.null_result_code (Some Examples.basket)
       Examples.empty_world = (Raise UnsupportedAdyenEventException, Examples.empty_world)
  /\ fst (Adyen.handle_processor_response Examples.null_result_code (Some Examples.basket)
            Examples.empty_world) <> Raise TransactionDeclined.
Proof.
  repeat split; try reflexivity.
  vm_compute. discriminate.
Qed.

(** An event code is present and names no handler, and the call raises
    MissingAdyenEventCodeException, not UnsupportedAdyenEventException. *)
Lemma unsupported_event_without_psp_reference :
  Examples.report_available !! "eventCode" = Some (PyStr "REPORT_AVAILABLE")
  /\ Adyen.has_handler (PyStr "REPORT_AVAILABLE") = false
  /\ Adyen.handle_processor_response Examples.report_available (Some Examples.basket)
       Examples.empty_world = (Raise MissingAdyenEventCodeException, Examples.empty_world)
  /\ Adyen.handle_processor_response Examples.report_available (Some Examples.basket)
       Examples.empty_world <> (Raise UnsupportedAdyenEventException, Examples.empty_world).
Proof.
  repeat split; try reflexivity.
  vm_compute. discriminate.
Qed.

Lemma event_code_missing_or_unsupported_witness :
  Adyen.handle_processor_response Examples.no_event_code (Some Examples.basket)
    Examples.empty_world = (Raise MissingAdyenEventCodeException, Examples.empty_world)
  /\ Adyen.handle_processor_response Examples.chargeback (Some Examples.basket)
       Examples.empty_world = (Raise UnsupportedAdyenEventException, Examples.empty_world).
Proof.
  split.
  - apply (proj1 (event_code_missing_or_unsupported Examples.no_event_code
                    Examples.empty_world (Some Examples.basket))).
    reflexivity.
  - apply (proj2 (event_code_missing_or_unsupported Examples.chargeback
                    Examples.empty_world (Some Examples.basket))
             (PyStr "CHARGEBACK") (PyStr "8514714612773743"));
      reflexivity.
Defined.

Lemma cancel_or_refund_notification_witness :
  Adyen.handle_processor_response Examples.refund_succeeded (Some Examples.basket)
    Examples.world_with_refund =
  (Ret None,
   {| audit := []; log := []; source_types := ["adyen"];
      payment_event_types := [PAID; REFUNDED];
      orders := [Examples.order];
      sources := [ {| source_id := Some 11%nat; source_order := Some 3%nat; source_type := "adyen";
                      currency := "USD"; amount_allocated := 4900; amount_debited := 4900;
                      amount_refunded := 4900; reference := PyStr "8514714612773741" |} ];
      refunds := [ Refund_with_status COMPLETE Examples.refund ];
      payment_events := [ {| event_type := REFUNDED; event_order := Some 3%nat; amount := 4900;
                             event_reference := PyStr "8514714612773745";
                             processor_name := "adyen" |} ];
      revoked := [5%nat]; gateway_calls := 0 |})
  /\ Adyen.handle_processor_response Examples.refund_failed (Some Examples.basket)
       Examples.world_with_refund =
     (Raise (GatewayError (AdyenCreditFailedForOrder "EDX-100007")), Examples.world_with_refund).
Proof.
  split.
  - pose proof (cancel_or_refund_notification Examples.refund_succeeded
                  Examples.world_with_refund Examples.basket "CANCEL_OR_REFUND"
                  (PyStr "8514714612773745") Examples.order Examples.source Examples.refund
                  eq_refl eq_refl eq_refl eq_refl eq_refl eq_refl) as [Hok _].
    destruct (Hok eq_refl) as [-> _]. reflexivity.
  - pose proof (cancel_or_refund_notification Examples.refund_failed
                  Examples.world_with_refund Examples.basket "CANCEL_OR_REFUND"
                  (PyStr "8514714612773745") Examples.order Examples.source Examples.refund
                  eq_refl eq_refl eq_refl eq_refl eq_refl eq_refl) as [_ Hno].
    exact (Hno eq_refl).
Defined.

(** C7: a cancel-or-refund notification by which the gateway reports a
    failure as the text "false".  The handler reads the field by its truth
    value, and a text that is not empty is true: the source is credited, the
    refund is completed with its fulfillment revoked, and a REFUNDED event
    is created, where GatewayError was to be raised and the refund to stay
    pending. *)
Theorem refund_failure_sent_as_text_is_credited :
  dict_get Examples.refund_failed_as_text "success" = PyStr "false"
  /\ truthy (PyStr "false") = true
  /\ Adyen.handle_processor_response Examples.refund_failed_as_text (Some Examples.basket)
       Examples.world_with_refund =
     (Ret None,
      {| audit := []; log := []; source_types := ["adyen"];
         payment_event_types := [PAID; REFUNDED];
         orders := [Examples.order];
         sources := [ {| source_id := Some 11%nat; source_order := Some 3%nat;
                         source_type := "adyen"; currency := "USD";
                         amount_allocated := 4900; amount_debited := 4900;
                         amount_refunded := 4900;
                         reference := PyStr "8514714612773741" |} ];
         refunds := [ Refund_with_status COMPLETE Examples.refund ];
         payment_events := [ {| event_type := REFUNDED; event_order := Some 3%nat;
                                amount := 4900;
                                event_reference := PyStr "8514714612773745";
                                processor_name := "adyen" |} ];
         revoked := [5%nat]; gateway_calls := 0 |})
  /\ Adyen.handle_processor_response Examples.refund_failed_as_text (Some Examples.basket)
       Examples.world_with_refund <>
     (Raise (GatewayError (AdyenCreditFailedForOrder "EDX-100007")),
      Examples.world_with_refund).
Proof.
  repeat split; try reflexivity.
  vm_compute. discriminate.
Qed.

(** ** The billing address of the shopper *)

Lemma split_space_1_no_space (s : string) :
  contains_space s = false -> split_space_1 s = [s].
Proof.
  induction s as [|c s IH]; simpl; [reflexivity|].
  destruct (Ascii.eqb c " "); simpl; [discriminate|].
  intros H. rewrite (IH H). reflexivity.
Qed.

(** An empty billing address has no space in it and cannot be split, yet
    the city is kept. *)
Lemma empty_billing_address_keeps_city :
  contains_space "" = false
  /\ split_space_1 "" = [""]
  /\ Adyen._get_shopper_billing_address "" "Paris" "" "" "" =
     {[ "billingAddress" := {[ "city" := "Paris" ]} ]}
  /\ Adyen._get_shopper_billing_address "" "Paris" "" "" "" <> ∅.
Proof.
  repeat split; try reflexivity.
  intros H. apply (f_equal (fun m => m !! "billingAddress")) in H.
  vm_compute in H. discriminate.
Qed.

(** C10, amended: for a billing address that is not empty and has no space
    in it, the builder returns the empty mapping, whatever the city, state,
    postal code and country are. *)
Theorem billing_address_without_space
    (billing_address city state postal_code country : string) :
  billing_address <> "" ->
  contains_space billing_address = false ->
  Adyen._get_shopper_billing_address billing_address city state postal_code country = ∅.
Proof.
  intros Hne Hsp. unfold Adyen._get_shopper_billing_address.
  assert (Hb : Adyen.nonempty billing_address = true).
  { unfold Adyen.nonempty. apply negb_true_iff. apply String.eqb_neq. exact Hne. }
  rewrite Hb. simpl. rewrite (split_space_1_no_space _ Hsp). reflexivity.
Qed.

Lemma billing_address_without_space_witness :
  Adyen._get_shopper_billing_address "123" "Paris" "IdF" "75001" "FR" = ∅.
Proof.
  apply billing_address_without_space; [discriminate | reflexivity].
Defined.

(** ** Credit issuance by the encrypted-card adapter *)

Section AdyenCredit.

Variables (configuration : Adyen.Configuration)
          (requests_post : Adyen.Request -> Res Adyen.Response)
          (source : Source) (amount : Z) (currency : string) (w : World)
          (order : Order) (response : Adyen.Response) (body : PyVal).

Hypothesis order_of_source : Source_order source w = (Ret (Some order), w).
Hypothesis gateway_answers :
  requests_post (Adyen.cancel_or_refund_request configuration source (number order))
  = Ret response.
Hypothesis answer_is_json : Adyen.response_json response = Some body.

Lemma issue_credit_not_ok :
  Adyen.status_code response <> Adyen.codes_ok ->
  exists w',
    Adyen.issue_credit configuration requests_post source amount currency w =
    (Raise (GatewayError (AdyenCreditError (number order))), w')
    /\ audit w' = audit w.
Proof.
  intros Hst. unfold Adyen.issue_credit.
  unfold bind at 1. rewrite order_of_source.
  unfold bind at 1, lift_res at 1, getattr_of at 1.
  unfold bind at 1, lift_res at 1. rewrite gateway_answers.
  unfold bind at 1, lift_res at 1, Adyen.Response_json at 1. rewrite answer_is_json.
  apply Z.eqb_neq in Hst. rewrite Hst.
  run_unfold. simpl. eexists. split; reflexivity.
Qed.

Lemma issue_credit_ok_recorded (d : dict) (transaction_id ack : PyVal) :
  Adyen.status_code response = Adyen.codes_ok ->
  body = PyDict d ->
  d !! "pspReference" = Some transaction_id ->
  d !! "response" = Some ack ->
  exists w',
    Adyen.issue_credit configuration requests_post source amount currency w =
    (if py_eq_str ack Adyen.ACK then Ret (PyBool false)
     else Raise (GatewayError (AdyenCreditError (number order))), w')
    /\ audit w' = (audit w ++ [audit_row Adyen.NAME body transaction_id (order_basket order)])%list.
Proof.
  intros Hst Hd Hpsp Hack. unfold Adyen.issue_credit.
  unfold bind at 1. rewrite order_of_source.
  unfold bind at 1, lift_res at 1, getattr_of at 1.
  unfold bind at 1, lift_res at 1. rewrite gateway_answers.
  unfold bind at 1, lift_res at 1, Adyen.Response_json at 1. rewrite answer_is_json.
  apply Z.eqb_eq in Hst. rewrite Hst.
  unfold Adyen.Response_json. rewrite answer_is_json. subst body.
  run_unfold. rewrite Hpsp, Hack. simpl.
  destruct (py_eq_str ack Adyen.ACK); simpl; eexists; split; reflexivity.
Qed.

(** C8, amended: for a source that has an order, when the gateway answers
    the request with a body that is JSON.  With status OK and a body that
    has a pspReference and a [response] field other than the
    acknowledgement, the answer is recorded to the audit log and
    GatewayError is raised; with another status, GatewayError is raised
    and nothing is recorded. *)
Theorem issue_credit_unacknowledged :
  (forall (d : dict) (transaction_id ack : PyVal),
     Adyen.status_code response = Adyen.codes_ok ->
     body = PyDict d ->
     d !! "pspReference" = Some transaction_id ->
     d !! "response" = Some ack ->
     py_eq_str ack Adyen.ACK = false ->
     exists w',
       Adyen.issue_credit configuration requests_post source amount currency w =
       (Raise (GatewayError (AdyenCreditError (number order))), w')
       /\ audit w' = (audit w ++ [audit_row Adyen.NAME body transaction_id (order_basket order)])%list)
  /\ (Adyen.status_code response <> Adyen.codes_ok ->
      exists w',
        Adyen.issue_credit configuration requests_post source amount currency w =
        (Raise (GatewayError (AdyenCreditError (number order))), w')
        /\ audit w' = audit w).
Proof.
  split.
  - intros d transaction_id ack Hst Hd Hpsp Hack Hne.
    destruct (issue_credit_ok_recorded d transaction_id ack Hst Hd Hpsp Hack)
      as (w' & Hrun & Haudit).
    rewrite Hne in Hrun. exists w'. split; assumption.
  - apply issue_credit_not_ok.
Qed.

End AdyenCredit.

(** The gateway answers with status 500: GatewayError is raised and the
    audit log stays empty. *)
Lemma issue_credit_server_error_not_recorded :
  let run := Adyen.issue_credit Examples.configuration Examples.gateway_server_error
               Examples.source 4900 "USD" Examples.world_with_refund in
  fst run = Raise (GatewayError (AdyenCreditError "EDX-100007"))
  /\ audit (snd run) = []
  /\ audit (snd run) <>
     [ {| ppr_processor_name := "adyen";
          ppr_transaction_id := PyStr "8514714612773748";
          ppr_basket := Some 7%nat;
          ppr_response := Examples.server_error_body |} ].
Proof.
  repeat split; try reflexivity.
  vm_compute. discriminate.
Qed.

Lemma issue_credit_unacknowledged_witness :
  (exists w',
     Adyen.issue_credit Examples.configuration Examples.gateway_unexpected
       Examples.source 4900 "USD" Examples.world_with_refund =
     (Raise (GatewayError (AdyenCreditError "EDX-100007")), w')
     /\ audit w' =
        [ {| ppr_processor_name := "adyen";
             ppr_transaction_id := PyStr "8514714612773747";
             ppr_basket := Some 7%nat;
             ppr_response := Examples.unexpected_body |} ])
  /\ (exists w',
        Adyen.issue_credit Examples.configuration Examples.gateway_server_error
          Examples.source 4900 "USD" Examples.world_with_refund =
        (Raise (GatewayError (AdyenCreditError "EDX-100007")), w')
        /\ audit w' = []).
Proof.
  split.
  - apply (proj1 (issue_credit_unacknowledged Examples.configuration
                    Examples.gateway_unexpected Examples.source 4900 "USD"
                    Examples.world_with_refund Examples.order _ Examples.unexpected_body
                    eq_refl eq_refl eq_refl)
             _ (PyStr "8514714612773747") (PyStr "[refused]")
             eq_refl eq_refl eq_refl eq_refl eq_refl).
  - apply (proj2 (issue_credit_unacknowledged Examples.configuration
                    Examples.gateway_server_error Examples.source 4900 "USD"
                    Examples.world_with_refund Examples.order _ Examples.server_error_body
                    eq_refl eq_refl eq_refl)).
    discriminate.
Defined.

(** ** Creating a payment with the redirect-wallet adapter *)

Section PaypalCreate.

Variables (retry_attempts : Z) (switch_is_active : string -> bool)
          (Payment_create : dict -> nat -> Paypal.Created)
          (transaction_data : Basket -> Res dict)
          (basket : Basket) (data : dict).

(** An attempt before the last one that does not succeed logs a warning and
    goes on to the next; it writes nothing to the audit log. *)
Lemma create_attempt_retries (available_attempts i : Z) (w : World) :
  i < available_attempts ->
  Paypal.attempt_succeeded (Payment_create data (gateway_calls w)) = false ->
  exists msg,
    Paypal.create_attempt Payment_create basket data available_attempts i w =
    (Ret (Paypal.Next, Paypal.created_payment (Payment_create data (gateway_calls w))),
     with_log (fun l => (l ++ [(WARNING, msg)])%list) (with_gateway_calls S w)).
Proof.
  intros Hi Hfail. apply Z.ltb_lt in Hi.
  unfold Paypal.create_attempt, Paypal.gateway, Paypal.attempt_succeeded in *.
  run_unfold.
  destruct (Paypal.created_raises (Payment_create data (gateway_calls w))) as [e|].
  - rewrite Hi. eexists. reflexivity.
  - rewrite Hfail, Hi. eexists. reflexivity.
Qed.

(** An attempt that succeeds ends the loop; it writes nothing by itself. *)
Lemma create_attempt_breaks (available_attempts i : Z) (w : World) :
  Paypal.attempt_succeeded (Payment_create data (gateway_calls w)) = true ->
  Paypal.create_attempt Payment_create basket data available_attempts i w =
  (Ret (Paypal.Break, Paypal.created_payment (Payment_create data (gateway_calls w))),
   with_gateway_calls S w).
Proof.
  intros Hok.
  unfold Paypal.create_attempt, Paypal.gateway, Paypal.attempt_succeeded in *.
  run_unfold.
  destruct (Paypal.created_raises (Payment_create data (gateway_calls w))) as [e|];
    [discriminate|].
  rewrite Hok. reflexivity.
Qed.

(** C9: with the switch active and zero retry attempts configured, no
    attempt is made: the gateway is not called, nothing is written, and
    reading [payment] after the loop raises UnboundLocalError, which is
    not a GatewayError. *)
Theorem zero_retry_attempts_unbound_local (w : World) :
  switch_is_active "PAYPAL_RETRY_ATTEMPTS" = true ->
  retry_attempts = 0 ->
  transaction_data basket = Ret data ->
  Paypal.get_transaction_parameters retry_attempts switch_is_active Payment_create
    transaction_data basket w = (Raise UnboundLocalError, w)
  /\ is_GatewayError UnboundLocalError = false.
Proof.
  intros Hsw Hn Hdata. split; [|reflexivity].
  unfold Paypal.get_transaction_parameters, Paypal.create_attempts. run_unfold.
  rewrite Hdata, Hsw, Hn. reflexivity.
Qed.

(** C3, amended: with the switch active and three attempts configured, when
    the first two attempts do not succeed and the third does, exactly one
    audit record is written, for the payment of the third attempt, and the
    parameters hold the approval URL of that payment's links.  The two
    attempts that did not succeed are logged as warnings. *)
Theorem third_attempt_succeeds (w : World) (links : list Paypal.Link) (link : Paypal.Link) :
  switch_is_active "PAYPAL_RETRY_ATTEMPTS" = true ->
  retry_attempts = 3 ->
  transaction_data basket = Ret data ->
  let calls := gateway_calls w in
  let payment := Paypal.created_payment (Payment_create data (S (S calls))) in
  Paypal.attempt_succeeded (Payment_create data calls) = false ->
  Paypal.attempt_succeeded (Payment_create data (S calls)) = false ->
  Paypal.attempt_succeeded (Payment_create data (S (S calls))) = true ->
  Paypal.payment_links payment = Some links ->
  List.find (fun l => String.eqb (Paypal.rel l) "approval_url") links = Some link ->
  exists w' msg1 msg2 msg3,
    Paypal.get_transaction_parameters retry_attempts switch_is_active Payment_create
      transaction_data basket w = (Ret {[ "payment_page_url" := Paypal.href link ]}, w')
    /\ audit w' =
       (audit w ++ [audit_row Paypal.NAME (Paypal.payment_to_dict payment)
                      (PyStr (Paypal.payment_id payment)) (Some (basket_id basket))])%list
    /\ log w' = (log w ++ [(WARNING, msg1); (WARNING, msg2); (INFO, msg3)])%list
    /\ gateway_calls w' = S (S (S calls)).
Proof.
  intros Hsw Hn Hdata calls payment H1 H2 H3 Hlinks Hlink.
  unfold Paypal.get_transaction_parameters, Paypal.create_attempts.
  unfold bind at 1, lift_res at 1. rewrite Hdata, Hsw, Hn.
  change (py_range 1 (3 + 1)) with [1; 2; 3].
  destruct (create_attempt_retries 3 1 w ltac:(lia) H1) as [msg1 E1].
  set (w1 := with_log _ (with_gateway_calls S w)) in E1.
  destruct (create_attempt_retries 3 2 w1 ltac:(lia) H2) as [msg2 E2].
  set (w2 := with_log _ (with_gateway_calls S w1)) in E2.
  pose proof (create_attempt_breaks 3 3 w2 H3) as E3.
  unfold bind at 1. simpl Paypal.for_attempts.
  unfold bind at 1. rewrite E1.
  unfold bind at 1. rewrite E2.
  unfold bind at 1. rewrite E3.
  run_unfold. simpl.
  fold calls. fold payment. rewrite Hlinks. simpl. rewrite Hlink.
  exists (with_log (fun l => (l ++ [(INFO, "Successfully created PayPal payment [%s] for basket [%d].")])%list)
            (with_audit (fun l => (l ++ [audit_row Paypal.NAME (Paypal.payment_to_dict payment)
                      (PyStr (Paypal.payment_id payment)) (Some (basket_id basket))])%list)
               (with_gateway_calls S w2))), msg1, msg2,
    "Successfully created PayPal payment [%s] for basket [%d].".
  split; [reflexivity|]. simpl.
  repeat split; try reflexivity.
  rewrite <- !app_assoc. reflexivity.
Qed.

End PaypalCreate.

Lemma zero_retry_attempts_unbound_local_witness :
  Paypal.get_transaction_parameters 0 Examples.switch_on Examples.create_third_time
    Examples.transaction_data Examples.basket Examples.empty_world
  = (Raise UnboundLocalError, Examples.empty_world)
  /\ is_GatewayError UnboundLocalError = false.
Proof.
  apply (zero_retry_attempts_unbound_local 0 Examples.switch_on Examples.create_third_time
           Examples.transaction_data Examples.basket (<["intent" := PyStr "sale"]> ∅)
           Examples.empty_world);
    reflexivity.
Defined.

(** Three attempts, of which the first two are unsuccessful: one audit
    record is written, not three. *)
Lemma three_attempts_write_one_record :
  let run := Paypal.get_transaction_parameters 3 Examples.switch_on
               Examples.create_third_time Examples.transaction_data Examples.basket
               Examples.empty_world in
  Paypal.payment_success (Paypal.created_payment (Examples.create_third_time ∅ 0)) = false
  /\ Paypal.payment_success (Paypal.created_payment (Examples.create_third_time ∅ 1)) = false
  /\ Paypal.payment_success (Paypal.created_payment (Examples.create_third_time ∅ 2)) = true
  /\ fst run =
     Ret {[ "payment_page_url" :=
            "https://www.sandbox.paypal.com/cgi-bin/webscr?cmd=_express-checkout&token=EC-60385559L1062554J" ]}
  /\ gateway_calls (snd run) = 3%nat
  /\ List.length (audit (snd run)) = 1%nat
  /\ List.length (audit (snd run)) <> 3%nat.
Proof.
  repeat split; try reflexivity.
  vm_compute. discriminate.
Qed.

Lemma third_attempt_succeeds_witness :
  exists w' msg1 msg2 msg3,
    Paypal.get_transaction_parameters 3 Examples.switch_on Examples.create_third_time
      Examples.transaction_data Examples.basket Examples.empty_world =
    (Ret {[ "payment_page_url" :=
            "https://www.sandbox.paypal.com/cgi-bin/webscr?cmd=_express-checkout&token=EC-60385559L1062554J" ]},
     w')
    /\ audit w' =
       [audit_row "paypal" (Paypal.payment_to_dict Examples.payment_created)
          (PyStr "PAY-1B56960729604235TKQQIYVY") (Some 7%nat)]
    /\ log w' = [(WARNING, msg1); (WARNING, msg2); (INFO, msg3)]
    /\ gateway_calls w' = 3%nat.
Proof.
  apply (third_attempt_succeeds 3 Examples.switch_on Examples.create_third_time
           Examples.transaction_data Examples.basket (<["intent" := PyStr "sale"]> ∅)
           Examples.empty_world
           (default [] (Paypal.payment_links Examples.payment_created))
           {| Paypal.rel := "approval_url";
              Paypal.href := "https://www.sandbox.paypal.com/cgi-bin/webscr?cmd=_express-checkout&token=EC-60385559L1062554J" |});
    reflexivity.
Defined.

(** *** When no attempt succeeds *)

Section PaypalCreateFails.

Variables (retry_attempts : Z) (switch_is_active : string -> bool)
          (Payment_create : dict -> nat -> Paypal.Created)
          (transaction_data : Basket -> Res dict)
          (basket : Basket) (data : dict).

(** [calls] gateway calls were made before the first attempt, each attempt
    makes one, and the last attempt leaves an error that has [debug_id]. *)
Variables (calls : nat) (debug_id : PyVal).

Let attempts : nat := Z.to_nat (Paypal.create_attempts retry_attempts switch_is_active).

Let last : Paypal.Created := Payment_create data (calls + (attempts - 1)).

Hypothesis some_attempt : (1 <= attempts)%nat.

Hypothesis no_attempt_succeeds :
  forall k : nat,
    (k < attempts)%nat ->
    Paypal.attempt_succeeded (Payment_create data (calls + k)) = false.

Hypothesis last_attempt_answered : Paypal.created_raises last = None.

Hypothesis last_error_has_debug_id :
  py_getitem (Paypal.payment_error (Paypal.created_payment last)) "debug_id" = Ret debug_id.

(** The last attempt, when the gateway answers it with an error: the error
    is recorded and raised as GatewayError. *)
Lemma create_attempt_gives_up (w : World) :
  gateway_calls w = (calls + (attempts - 1))%nat ->
  exists w',
    Paypal.create_attempt Payment_create basket data (Z.of_nat attempts)
      (Z.of_nat attempts) w =
    (Raise (GatewayError (PaypalError (Paypal.payment_error (Paypal.created_payment last)))),
     w')
    /\ audit w' =
       (audit w ++ [audit_row Paypal.NAME (Paypal.payment_error (Paypal.created_payment last))
                      debug_id (Some (basket_id basket))])%list.
Proof.
  intros Hcalls.
  pose proof (no_attempt_succeeds (attempts - 1) ltac:(lia)) as Hfail.
  fold last in Hfail. unfold Paypal.attempt_succeeded in Hfail.
  rewrite last_attempt_answered in Hfail.
  unfold Paypal.create_attempt, Paypal.gateway.
  unfold record_processor_response, try_except, bind, lift_res, ret, raise, logger, modify.
  rewrite Hcalls. fold last.
  rewrite last_attempt_answered, Hfail, Z.ltb_irrefl, last_error_has_debug_id.
  eexists. split; reflexivity.
Qed.

(** The loop over the last [count] attempts: only the last one writes to
    the audit log, and it raises. *)
Lemma create_loop_unsuccessful (count : nat) :
  forall (first : nat) (w : World) (bound : option Paypal.Payment),
    (first + count)%nat = attempts ->
    gateway_calls w = (calls + first)%nat ->
    exists w',
      Paypal.for_attempts
        (Paypal.create_attempt Payment_create basket data (Z.of_nat attempts))
        (map (fun k => 1 + Z.of_nat k) (seq first count)) bound w =
      (match count with
       | O => Ret bound
       | S _ => Raise (GatewayError
                         (PaypalError (Paypal.payment_error (Paypal.created_payment last))))
       end, w')
      /\ audit w' =
         (audit w ++
          match count with
          | O => []
          | S _ => [audit_row Paypal.NAME (Paypal.payment_error (Paypal.created_payment last))
                      debug_id (Some (basket_id basket))]
          end)%list.
Proof.
  induction count as [|count IH]; intros first w bound Hlast Hcalls.
  - simpl. exists w. split; [reflexivity|]. rewrite app_nil_r. reflexivity.
  - simpl seq. simpl map. simpl Paypal.for_attempts.
    destruct count as [|count].
    + replace (1 + Z.of_nat first) with (Z.of_nat attempts) by lia.
      destruct (create_attempt_gives_up w) as (w' & Hrun & Haudit); [lia|].
      unfold bind at 1. rewrite Hrun. exists w'. split; [reflexivity | exact Haudit].
    + pose proof (no_attempt_succeeds first ltac:(lia)) as Hfail.
      rewrite <- Hcalls in Hfail.
      destruct (create_attempt_retries Payment_create basket data (Z.of_nat attempts)
                  (1 + Z.of_nat first) w ltac:(lia) Hfail) as [msg Hrun].
      unfold bind at 1. rewrite Hrun.
      destruct (IH (S first) (with_log (fun l => (l ++ [(WARNING, msg)])%list)
                                (with_gateway_calls S w))
                  (Some (Paypal.created_payment (Payment_create data (gateway_calls w)))))
        as (w' & Hloop & Haudit).
      { lia. }
      { simpl. lia. }
      exists w'. split; [exact Hloop | exact Haudit].
Qed.

(** When no attempt to create the payment succeeds and the gateway answers
    the last one with an error, that error alone is recorded, and it is
    raised as GatewayError. *)
Lemma create_never_successful (w : World) :
  transaction_data basket = Ret data ->
  gateway_calls w = calls ->
  exists w',
    Paypal.get_transaction_parameters retry_attempts switch_is_active Payment_create
      transaction_data basket w =
    (Raise (GatewayError (PaypalError (Paypal.payment_error (Paypal.created_payment last)))),
     w')
    /\ audit w' =
       (audit w ++ [audit_row Paypal.NAME (Paypal.payment_error (Paypal.created_payment last))
                      debug_id (Some (basket_id basket))])%list.
Proof.
  intros Hdata Hcalls. unfold Paypal.get_transaction_parameters.
  unfold bind at 1, lift_res at 1. rewrite Hdata.
  destruct (create_loop_unsuccessful attempts 0 w None)
    as (w' & Hloop & Haudit); [reflexivity | lia |].
  unfold py_range.
  replace (Paypal.create_attempts retry_attempts switch_is_active + 1 - 1)
    with (Paypal.create_attempts retry_attempts switch_is_active) by lia.
  fold attempts.
  replace (Z.of_nat attempts) with (Paypal.create_attempts retry_attempts switch_is_active)
    in Hloop by (subst attempts; lia).
  unfold bind at 1. rewrite Hloop.
  destruct attempts eqn:E; [lia|].
  exists w'. split; [reflexivity | exact Haudit].
Qed.

End PaypalCreateFails.

(** ** Credit issuance by the redirect-wallet adapter *)

Section PaypalCredit.

Variables (Payment_find : PyVal -> nat -> Res Paypal.Payment)
          (Sale_refund : Paypal.Sale -> Z -> string -> nat -> Res Paypal.SaleRefund)
          (order : Order) (reference_number : PyVal) (amount : Z) (currency : string)
          (w : World).

(** When the lookup raises, no sale is found or the refund call raises,
    GatewayError is raised; nothing is written to the audit log. *)
Lemma paypal_credit_not_made :
  (exists e, Payment_find reference_number (gateway_calls w) = Raise e)
  \/ (exists payment,
        Payment_find reference_number (gateway_calls w) = Ret payment
        /\ (Paypal._get_payment_sale payment = None
            \/ exists sale e,
                 Paypal._get_payment_sale payment = Some sale
                 /\ Sale_refund sale amount currency (S (gateway_calls w)) = Raise e)) ->
  exists w',
    Paypal.issue_credit Payment_find Sale_refund order reference_number amount currency w =
    (Raise (GatewayError (PaypalCreditError (number order))), w')
    /\ audit w' = audit w.
Proof.
  unfold Paypal.issue_credit, Paypal.gateway. run_unfold.
  intros [[e Hf] | (payment & Hf & [Hs | (sale & e & Hs & Hr)])]; rewrite Hf; simpl.
  - eexists. split; reflexivity.
  - rewrite Hs. simpl. eexists. split; reflexivity.
  - rewrite Hs. simpl. rewrite Hr. simpl. eexists. split; reflexivity.
Qed.

(** When the gateway answers the refund call, the answer is recorded; the
    call returns the id of the refund when it succeeded, and raises
    GatewayError, naming the audit entry, when it did not. *)
Lemma paypal_credit_answered (payment : Paypal.Payment) (sale : Paypal.Sale)
    (refund : Paypal.SaleRefund) :
  Payment_find reference_number (gateway_calls w) = Ret payment ->
  Paypal._get_payment_sale payment = Some sale ->
  Sale_refund sale amount currency (S (gateway_calls w)) = Ret refund ->
  (Paypal.sale_refund_success refund = true ->
   exists w',
     Paypal.issue_credit Payment_find Sale_refund order reference_number amount currency w =
     (Ret (PyStr (Paypal.sale_refund_id refund)), w')
     /\ audit w' =
        (audit w ++ [audit_row Paypal.NAME (Paypal.sale_refund_to_dict refund)
                       (PyStr (Paypal.sale_refund_id refund)) (order_basket order)])%list)
  /\ (forall debug_id,
        Paypal.sale_refund_success refund = false ->
        py_getitem (Paypal.sale_refund_error refund) "debug_id" = Ret debug_id ->
        exists w',
          Paypal.issue_credit Payment_find Sale_refund order reference_number amount currency w =
          (Raise (GatewayError (PaypalRefundFailed (Paypal.sale_id sale)
                                  (S (List.length (audit w))))), w')
          /\ audit w' =
             (audit w ++ [audit_row Paypal.NAME (Paypal.sale_refund_error refund)
                            debug_id (order_basket order)])%list).
Proof.
  intros Hf Hs Hr.
  unfold Paypal.issue_credit, Paypal.gateway.
  unfold record_processor_response, audit_row, try_except, bind, lift_res, getattr_of,
    ret, raise, logger, modify.
  simpl. rewrite Hf, Hs. simpl. rewrite Hr. simpl.
  split.
  - intros ->. eexists. split; reflexivity.
  - intros debug_id -> Hd. rewrite Hd. eexists. split; reflexivity.
Qed.

End PaypalCredit.

(** ** Executing a payment with the redirect-wallet adapter *)

Section PaypalExecute.

Variables (retry_attempts : Z) (switch_is_active : string -> bool)
          (Payment_find : PyVal -> nat -> Res Paypal.Payment)
          (Payment_execute : Paypal.Payment -> dict -> nat -> Res Paypal.Payment)
          (response : dict) (basket : option Basket).

(** An unsuccessful attempt writes the error to the audit log, and then
    either raises, when it is the last one, or goes on. *)
Lemma execute_attempt_unsuccessful (available_attempts attempt_count : Z) (w : World)
    (payment : Paypal.Payment) (debug_id : PyVal) :
  Paypal.execute_unsuccessful Payment_find Payment_execute response (gateway_calls w)
    payment debug_id ->
  exists w',
    Paypal.execute_attempt Payment_find Payment_execute response basket
      (Paypal.payer_data response) available_attempts attempt_count w =
    (if attempt_count =? available_attempts then Raise (GatewayError NoMessage)
     else Ret (Paypal.Next, payment), w')
    /\ audit w' =
       (audit w ++ [audit_row Paypal.NAME (Paypal.payment_error payment) debug_id
                      (option_map basket_id basket)])%list
    /\ gateway_calls w' = S (S (gateway_calls w)).
Proof.
  intros (found & Hf & He & Hs & Hd).
  unfold Paypal.execute_attempt, Paypal.gateway.
  unfold record_processor_response, bind, lift_res, ret, raise, logger, modify.
  simpl. rewrite Hf. simpl. rewrite He, Hs, Hd.
  destruct (attempt_count =? available_attempts); eexists; repeat split; reflexivity.
Qed.

(** The payments that the attempts leave and the debug ids of their
    errors, by attempt, counting from 0; [calls] gateway calls were made
    before the first attempt, and each attempt makes two. *)
Variables (payments : nat -> Paypal.Payment) (debug_ids : nat -> PyVal) (calls : nat).

Let attempts : nat := Z.to_nat (Paypal.execute_attempts retry_attempts switch_is_active).

Hypothesis every_attempt_unsuccessful :
  forall k : nat,
    (k < attempts)%nat ->
    Paypal.execute_unsuccessful Payment_find Payment_execute response (calls + 2 * k)
      (payments k) (debug_ids k).

(** The loop over the last [count] attempts: every attempt writes its row,
    and the last one raises. *)
Lemma execute_loop_unsuccessful (count : nat) :
  forall (first : nat) (w : World) (bound : option Paypal.Payment),
    (first + count)%nat = attempts ->
    gateway_calls w = (calls + 2 * first)%nat ->
    exists w',
      Paypal.for_attempts
        (Paypal.execute_attempt Payment_find Payment_execute response basket
           (Paypal.payer_data response) (Z.of_nat attempts))
        (map (fun k => 1 + Z.of_nat k) (seq first count)) bound w =
      (match count with O => Ret bound | S _ => Raise (GatewayError NoMessage) end, w')
      /\ audit w' =
         (audit w ++
          map (fun k => audit_row Paypal.NAME (Paypal.payment_error (payments k))
                          (debug_ids k) (option_map basket_id basket))
            (seq first count))%list.
Proof.
  induction count as [|count IH]; intros first w bound Hlast Hcalls.
  - simpl. exists w. split; [reflexivity|]. rewrite app_nil_r. reflexivity.
  - simpl seq. simpl map. simpl Paypal.for_attempts.
    pose proof (every_attempt_unsuccessful first ltac:(lia)) as Hun.
    rewrite <- Hcalls in Hun.
    destruct (execute_attempt_unsuccessful (Z.of_nat attempts)
                (1 + Z.of_nat first) w _ _ Hun) as (w1 & Hrun & Haudit & Hcalls1).
    unfold bind at 1. rewrite Hrun.
    destruct count as [|count].
    + replace (1 + Z.of_nat first =? Z.of_nat attempts) with true
        by (symmetry; apply Z.eqb_eq; lia).
      exists w1. split; [reflexivity|]. exact Haudit.
    + replace (1 + Z.of_nat first =? Z.of_nat attempts) with false
        by (symmetry; apply Z.eqb_neq; lia).
      destruct (IH (S first) w1 (Some (payments first))) as (w' & Hloop & Haudit').
      { lia. }
      { rewrite Hcalls1, Hcalls. lia. }
      exists w'. split; [exact Hloop|].
      rewrite Haudit', Haudit. rewrite <- app_assoc. reflexivity.
Qed.

(** When every attempt to execute the payment is unsuccessful, each one
    writes its error to the audit log, and GatewayError is raised. *)
Lemma execute_never_successful (w : World) :
  1 <= Paypal.execute_attempts retry_attempts switch_is_active ->
  gateway_calls w = calls ->
  exists w',
    Paypal.handle_processor_response retry_attempts switch_is_active Payment_find
      Payment_execute response basket w = (Raise (GatewayError NoMessage), w')
    /\ audit w' =
       (audit w ++
        map (fun k => audit_row Paypal.NAME (Paypal.payment_error (payments k))
                        (debug_ids k) (option_map basket_id basket))
          (seq 0 (Z.to_nat (Paypal.execute_attempts retry_attempts switch_is_active))))%list.
Proof.
  intros Hn Hcalls. unfold Paypal.handle_processor_response.
  destruct (execute_loop_unsuccessful attempts 0 w None)
    as (w' & Hloop & Haudit); [reflexivity | lia |].
  unfold py_range.
  replace (Paypal.execute_attempts retry_attempts switch_is_active + 1 - 1)
    with (Paypal.execute_attempts retry_attempts switch_is_active) by lia.
  fold attempts.
  replace (Z.of_nat attempts) with (Paypal.execute_attempts retry_attempts switch_is_active)
    in Hloop by (subst attempts; lia).
  unfold bind at 1. rewrite Hloop.
  destruct attempts eqn:E; [subst attempts; lia|].
  exists w'. split; [reflexivity|]. exact Haudit.
Qed.

End PaypalExecute.

(** ** What reaches the audit log *)

Lemma _handle_authorisation_keeps_audit (psp_reference : PyVal) (response : dict)
    (basket : option Basket) (w : World) :
  audit (snd (Adyen._handle_authorisation psp_reference response basket w)) = audit w.
Proof.
  unfold Adyen._handle_authorisation. run_unfold.
  repeat case_match; simplify_eq; reflexivity.
Qed.

Lemma _handle_cancel_or_refund_keeps_audit (psp_reference : PyVal) (response : dict)
    (basket : option Basket) (w : World) :
  audit (snd (Adyen._handle_cancel_or_refund psp_reference response basket w)) = audit w.
Proof.
  unfold Adyen._handle_cancel_or_refund, order_set_first, sources_first, refunds_get,
    Source_refund, Refund_complete, Refund_set_status, PaymentEvent_create.
  run_unfold.
  repeat case_match; simplify_eq; reflexivity.
Qed.

(** The encrypted-card adapter's [handle_processor_response] writes nothing
    to the audit log, whether it returns or raises. *)
Lemma adyen_handle_processor_response_keeps_audit (response : dict)
    (basket : option Basket) (w : World) :
  audit (snd (Adyen.handle_processor_response response basket w)) = audit w.
Proof.
  unfold Adyen.handle_processor_response, try_except, bind at 1 2 3 4, lift_res, dict_getitem.
  destruct (response !! "eventCode") as [event_code|]; [|reflexivity].
  destruct (response !! "pspReference") as [psp_reference|]; [|reflexivity].
  destruct (py_lower event_code) as [event|e]; [|destruct e; reflexivity].
  unfold Adyen.getattr_handler.
  destruct (String.eqb _ "_handle_authorisation").
  - pose proof (_handle_authorisation_keeps_audit psp_reference response basket w) as H.
    destruct (Adyen._handle_authorisation psp_reference response basket w) as [[r|e] w'];
      [exact H | destruct e; exact H].
  - destruct (String.eqb _ "_handle_cancel_or_refund").
    + pose proof (_handle_cancel_or_refund_keeps_audit psp_reference response basket w) as H.
      destruct (Adyen._handle_cancel_or_refund psp_reference response basket w)
        as [[r|e] w']; [exact H | destruct e; exact H].
    + reflexivity.
Qed.

(** ** Credit issuance and failures, over both adapters *)

(** The gateway acknowledges the request and the answer is recorded under
    its pspReference, but the call returns [False], not that reference. *)
Lemma adyen_issue_credit_returns_false :
  let run := Adyen.issue_credit Examples.configuration Examples.gateway_received
               Examples.source 4900 "USD" Examples.world_with_refund in
  fst run = Ret (PyBool false)
  /\ audit (snd run) =
     [audit_row "adyen" Examples.received_body (PyStr "8514714612773746") (Some 7%nat)]
  /\ fst run <> Ret (PyStr "8514714612773746").
Proof.
  repeat split; try reflexivity.
  vm_compute. discriminate.
Qed.

(** C4, amended: a successful [issue_credit] of the redirect-wallet
    adapter returns the id of the refund it made, and a successful
    [issue_credit] of the encrypted-card adapter returns [False].  A failed
    call raises GatewayError: for the redirect wallet when the lookup
    raises, no sale is found, the refund call raises, or the refund is
    unsuccessful with an error that has a debug id; for the encrypted
    card, given a source that has an order and an answer whose body is
    JSON, when the status is other than OK, or is OK with a pspReference
    and a [response] field other than the acknowledgement. *)
Theorem issue_credit_result :
  (forall Payment_find Sale_refund order reference_number amount currency w,
     (forall payment sale refund,
        Payment_find reference_number (gateway_calls w) = Ret payment ->
        Paypal._get_payment_sale payment = Some sale ->
        Sale_refund sale amount currency (S (gateway_calls w)) = Ret refund ->
        (Paypal.sale_refund_success refund = true ->
         exists w',
           Paypal.issue_credit Payment_find Sale_refund order reference_number amount
             currency w = (Ret (PyStr (Paypal.sale_refund_id refund)), w'))
        /\ (forall debug_id,
              Paypal.sale_refund_success refund = false ->
              py_getitem (Paypal.sale_refund_error refund) "debug_id" = Ret debug_id ->
              exists w' msg,
                Paypal.issue_credit Payment_find Sale_refund order reference_number amount
                  currency w = (Raise (GatewayError msg), w')))
     /\ ((exists e, Payment_find reference_number (gateway_calls w) = Raise e)
         \/ (exists payment,
               Payment_find reference_number (gateway_calls w) = Ret payment
               /\ (Paypal._get_payment_sale payment = None
                   \/ exists sale e,
                        Paypal._get_payment_sale payment = Some sale
                        /\ Sale_refund sale amount currency (S (gateway_calls w)) = Raise e)) ->
         exists w' msg,
           Paypal.issue_credit Payment_find Sale_refund order reference_number amount
             currency w = (Raise (GatewayError msg), w')))
  /\ (forall configuration requests_post source amount currency w order response body,
        Source_order source w = (Ret (Some order), w) ->
        requests_post (Adyen.cancel_or_refund_request configuration source (number order))
        = Ret response ->
        Adyen.response_json response = Some body ->
        (forall d transaction_id ack,
           Adyen.status_code response = Adyen.codes_ok ->
           body = PyDict d ->
           d !! "pspReference" = Some transaction_id ->
           d !! "response" = Some ack ->
           exists w',
             Adyen.issue_credit configuration requests_post source amount currency w =
             (if py_eq_str ack Adyen.ACK then Ret (PyBool false)
              else Raise (GatewayError (AdyenCreditError (number order))), w'))
        /\ (Adyen.status_code response <> Adyen.codes_ok ->
            exists w',
              Adyen.issue_credit configuration requests_post source amount currency w =
              (Raise (GatewayError (AdyenCreditError (number order))), w'))).
Proof.
  split.
  - intros Payment_find Sale_refund order reference_number amount currency w. split.
    + intros payment sale refund Hf Hs Hr.
      destruct (paypal_credit_answered Payment_find Sale_refund order reference_number
                  amount currency w payment sale refund Hf Hs Hr) as [Hok Hno].
      split.
      * intros Hsucc. destruct (Hok Hsucc) as (w' & Hrun & _). eauto.
      * intros debug_id Hsucc Hd. destruct (Hno debug_id Hsucc Hd) as (w' & Hrun & _). eauto.
    + intros H.
      destruct (paypal_credit_not_made Payment_find Sale_refund order reference_number
                  amount currency w H) as (w' & Hrun & _).
      eauto.
  - intros configuration requests_post source amount currency w order response body
      Hord Hpost Hjson. split.
    + intros d transaction_id ack Hst Hd Hpsp Hack.
      destruct (issue_credit_ok_recorded configuration requests_post source amount currency
                  w order response body Hord Hpost Hjson d transaction_id ack Hst Hd Hpsp Hack)
        as (w' & Hrun & _).
      eauto.
    + intros Hst.
      destruct (issue_credit_not_ok configuration requests_post source amount currency
                  w order response body Hord Hpost Hjson Hst) as (w' & Hrun & _).
      eauto.
Qed.

Lemma issue_credit_result_witness :
  (exists w',
     Paypal.issue_credit Examples.find_payment Examples.refund_completes Examples.order
       (PyStr "PAY-1B56960729604235TKQQIYVY") 4900 "USD" Examples.world_with_refund =
     (Ret (PyStr "0P209507D6694645N"), w'))
  /\ (exists w' msg,
        Paypal.issue_credit Examples.find_payment Examples.refund_is_rejected Examples.order
          (PyStr "PAY-1B56960729604235TKQQIYVY") 4900 "USD" Examples.world_with_refund =
        (Raise (GatewayError msg), w'))
  /\ (exists w' msg,
        Paypal.issue_credit Examples.find_nothing Examples.refund_completes Examples.order
          (PyStr "PAY-1B56960729604235TKQQIYVY") 4900 "USD" Examples.world_with_refund =
        (Raise (GatewayError msg), w'))
  /\ (exists w',
        Adyen.issue_credit Examples.configuration Examples.gateway_received
          Examples.source 4900 "USD" Examples.world_with_refund = (Ret (PyBool false), w'))
  /\ (exists w',
        Adyen.issue_credit Examples.configuration Examples.gateway_server_error
          Examples.source 4900 "USD" Examples.world_with_refund =
        (Raise (GatewayError (AdyenCreditError "EDX-100007")), w')).
Proof.
  destruct issue_credit_result as [Hpaypal Hadyen].
  split; [|split; [|split; [|split]]].
  - destruct (Hpaypal Examples.find_payment Examples.refund_completes Examples.order
                (PyStr "PAY-1B56960729604235TKQQIYVY") 4900 "USD" Examples.world_with_refund)
      as [Hanswered _].
    exact (proj1 (Hanswered Examples.payment_executed Examples.sale Examples.refund_completed
                    eq_refl eq_refl eq_refl) eq_refl).
  - destruct (Hpaypal Examples.find_payment Examples.refund_is_rejected Examples.order
                (PyStr "PAY-1B56960729604235TKQQIYVY") 4900 "USD" Examples.world_with_refund)
      as [Hanswered _].
    exact (proj2 (Hanswered Examples.payment_executed Examples.sale Examples.refund_rejected
                    eq_refl eq_refl eq_refl) (PyStr "b7d3e1f09a2c4") eq_refl eq_refl).
  - destruct (Hpaypal Examples.find_nothing Examples.refund_completes Examples.order
                (PyStr "PAY-1B56960729604235TKQQIYVY") 4900 "USD" Examples.world_with_refund)
      as [_ Hnot].
    apply Hnot. left. eexists. reflexivity.
  - destruct (Hadyen Examples.configuration Examples.gateway_received Examples.source 4900
                "USD" Examples.world_with_refund Examples.order _ Examples.received_body
                eq_refl eq_refl eq_refl) as [Hok _].
    exact (Hok _ (PyStr "8514714612773746") (PyStr "[cancelOrRefund-received]")
             eq_refl eq_refl eq_refl eq_refl).
  - destruct (Hadyen Examples.configuration Examples.gateway_server_error Examples.source 4900
                "USD" Examples.world_with_refund Examples.order _ Examples.server_error_body
                eq_refl eq_refl eq_refl) as [_ Hno].
    apply Hno. discriminate.
Defined.

(** A refused authorisation: TransactionDeclined is raised, and the audit
    log is as empty as before. *)
Lemma declined_response_not_recorded :
  let run := Adyen.handle_processor_response Examples.refused (Some Examples.basket)
               Examples.empty_world in
  fst run = Raise TransactionDeclined
  /\ audit Examples.empty_world = []
  /\ audit (snd run) = [].
Proof. repeat split; reflexivity. Qed.

(** C2, amended: which failures reach the audit log.
    - The encrypted-card [handle_processor_response] writes nothing to the
      audit log, on any call path.
    - The encrypted-card [issue_credit], for a source that has an order and
      an answer whose body is JSON, records an answer that has status OK
      and a pspReference before it raises GatewayError for a [response]
      field other than the acknowledgement, and raises GatewayError
      without recording for any other status.
    - The redirect-wallet [handle_processor_response], when every attempt
      is answered with an unsuccessful payment whose error has a debug id,
      has recorded one row for each attempt before it raises GatewayError.
    - The redirect-wallet [get_transaction_parameters], when no attempt
      succeeds and the last one is answered with an error that has a debug
      id, records that error, and only that one, before raising it as
      GatewayError.
    - The redirect-wallet [issue_credit] records the error of an
      unsuccessful refund, when it has a debug id, before raising
      GatewayError. *)
Theorem failures_and_the_audit_log :
  (forall response basket w,
     audit (snd (Adyen.handle_processor_response response basket w)) = audit w)
  /\ (forall configuration requests_post source amount currency w order response body,
        Source_order source w = (Ret (Some order), w) ->
        requests_post (Adyen.cancel_or_refund_request configuration source (number order))
        = Ret response ->
        Adyen.response_json response = Some body ->
        (forall d transaction_id ack,
           Adyen.status_code response = Adyen.codes_ok ->
           body = PyDict d ->
           d !! "pspReference" = Some transaction_id ->
           d !! "response" = Some ack ->
           py_eq_str ack Adyen.ACK = false ->
           exists w',
             Adyen.issue_credit configuration requests_post source amount currency w =
             (Raise (GatewayError (AdyenCreditError (number order))), w')
             /\ audit w' =
                (audit w ++ [audit_row Adyen.NAME body transaction_id (order_basket order)])%list)
        /\ (Adyen.status_code response <> Adyen.codes_ok ->
            exists w',
              Adyen.issue_credit configuration requests_post source amount currency w =
              (Raise (GatewayError (AdyenCreditError (number order))), w')
              /\ audit w' = audit w))
  /\ (forall retry_attempts switch_is_active Payment_find Payment_execute response basket
             payments debug_ids w,
        1 <= Paypal.execute_attempts retry_attempts switch_is_active ->
        (forall k : nat,
           (k < Z.to_nat (Paypal.execute_attempts retry_attempts switch_is_active))%nat ->
           Paypal.execute_unsuccessful Payment_find Payment_execute response
             (gateway_calls w + 2 * k)%nat (payments k) (debug_ids k)) ->
        exists w',
          Paypal.handle_processor_response retry_attempts switch_is_active Payment_find
            Payment_execute response basket w = (Raise (GatewayError NoMessage), w')
          /\ audit w' =
             (audit w ++
              map (fun k => audit_row Paypal.NAME (Paypal.payment_error (payments k))
                              (debug_ids k) (option_map basket_id basket))
                (seq 0 (Z.to_nat (Paypal.execute_attempts retry_attempts switch_is_active))))%list)
  /\ (forall retry_attempts switch_is_active Payment_create transaction_data basket data
             debug_id w,
        let attempts := Z.to_nat (Paypal.create_attempts retry_attempts switch_is_active) in
        let last := Payment_create data (gateway_calls w + (attempts - 1))%nat in
        transaction_data basket = Ret data ->
        (1 <= attempts)%nat ->
        (forall k : nat,
           (k < attempts)%nat ->
           Paypal.attempt_succeeded (Payment_create data (gateway_calls w + k)%nat) = false) ->
        Paypal.created_raises last = None ->
        py_getitem (Paypal.payment_error (Paypal.created_payment last)) "debug_id"
        = Ret debug_id ->
        exists w',
          Paypal.get_transaction_parameters retry_attempts switch_is_active Payment_create
            transaction_data basket w =
          (Raise (GatewayError
                    (PaypalError (Paypal.payment_error (Paypal.created_payment last)))), w')
          /\ audit w' =
             (audit w ++
              [audit_row Paypal.NAME (Paypal.payment_error (Paypal.created_payment last))
                 debug_id (Some (basket_id basket))])%list)
  /\ (forall Payment_find Sale_refund order reference_number amount currency w
             payment sale refund debug_id,
        Payment_find reference_number (gateway_calls w) = Ret payment ->
        Paypal._get_payment_sale payment = Some sale ->
        Sale_refund sale amount currency (S (gateway_calls w)) = Ret refund ->
        Paypal.sale_refund_success refund = false ->
        py_getitem (Paypal.sale_refund_error refund) "debug_id" = Ret debug_id ->
        exists w',
          Paypal.issue_credit Payment_find Sale_refund order reference_number amount
            currency w =
          (Raise (GatewayError (PaypalRefundFailed (Paypal.sale_id sale)
                                  (S (List.length (audit w))))), w')
          /\ audit w' =
             (audit w ++ [audit_row Paypal.NAME (Paypal.sale_refund_error refund)
                            debug_id (order_basket order)])%list).
Proof.
  split; [|split; [|split; [|split]]].
  - apply adyen_handle_processor_response_keeps_audit.
  - intros configuration requests_post source amount currency w order response body
      Hord Hpost Hjson. split.
    + intros d transaction_id ack Hst Hd Hpsp Hack Hne.
      destruct (issue_credit_ok_recorded configuration requests_post source amount currency
                  w order response body Hord Hpost Hjson d transaction_id ack Hst Hd Hpsp Hack)
        as (w' & Hrun & Haudit).
      rewrite Hne in Hrun. eauto.
    + apply (issue_credit_not_ok configuration requests_post source amount currency
               w order response body Hord Hpost Hjson).
  - intros retry_attempts switch_is_active Payment_find Payment_execute response basket
      payments debug_ids w Hn Hall.
    apply (execute_never_successful retry_attempts switch_is_active Payment_find
             Payment_execute response basket payments debug_ids (gateway_calls w) Hall w Hn
             eq_refl).
  - intros retry_attempts switch_is_active Payment_create transaction_data basket data
      debug_id w attempts last Hdata Hsome Hall Hans Hdebug.
    apply (create_never_successful retry_attempts switch_is_active Payment_create
             transaction_data basket data (gateway_calls w) debug_id Hsome Hall Hans Hdebug
             w Hdata eq_refl).
  - intros Payment_find Sale_refund order reference_number amount currency w
      payment sale refund debug_id Hf Hs Hr Hsucc Hd.
    destruct (paypal_credit_answered Payment_find Sale_refund order reference_number
                amount currency w payment sale refund Hf Hs Hr) as [_ Hno].
    exact (Hno debug_id Hsucc Hd).
Qed.

Lemma failures_and_the_audit_log_witness :
  audit (snd (Adyen.handle_processor_response Examples.refused (Some Examples.basket)
                Examples.empty_world)) = []
  /\ (exists w',
        Adyen.issue_credit Examples.configuration Examples.gateway_unexpected
          Examples.source 4900 "USD" Examples.world_with_refund =
        (Raise (GatewayError (AdyenCreditError "EDX-100007")), w')
        /\ audit w' =
           [audit_row "adyen" Examples.unexpected_body (PyStr "8514714612773747")
              (Some 7%nat)])
  /\ (exists w',
        Adyen.issue_credit Examples.configuration Examples.gateway_server_error
          Examples.source 4900 "USD" Examples.world_with_refund =
        (Raise (GatewayError (AdyenCreditError "EDX-100007")), w')
        /\ audit w' = [])
  /\ (exists w',
        Paypal.handle_processor_response 1 Examples.switch_on Examples.find_payment
          Examples.execute_fails Examples.returned (Some Examples.basket)
          Examples.empty_world = (Raise (GatewayError NoMessage), w')
        /\ audit w' =
           [audit_row "paypal" (Paypal.payment_error Examples.payment_not_executed)
              (PyStr "9e2a6c7f1d3b8") (Some 7%nat);
            audit_row "paypal" (Paypal.payment_error Examples.payment_not_executed)
              (PyStr "9e2a6c7f1d3b8") (Some 7%nat)])
  /\ (exists w',
        Paypal.get_transaction_parameters 2 Examples.switch_on Examples.create_never
          Examples.transaction_data Examples.basket Examples.empty_world =
        (Raise (GatewayError (PaypalError (Paypal.payment_error Examples.payment_rejected))),
         w')
        /\ audit w' =
           [audit_row "paypal" (Paypal.payment_error Examples.payment_rejected)
              (PyStr "5c1a3f0b7e2d4") (Some 7%nat)])
  /\ (exists w',
        Paypal.issue_credit Examples.find_payment Examples.refund_is_rejected Examples.order
          (PyStr "PAY-1B56960729604235TKQQIYVY") 4900 "USD" Examples.empty_world =
        (Raise (GatewayError (PaypalRefundFailed "4RR959492F879224U" 1)), w')
        /\ audit w' =
           [audit_row "paypal" (Paypal.sale_refund_error Examples.refund_rejected)
              (PyStr "b7d3e1f09a2c4") (Some 7%nat)]).
Proof.
  destruct failures_and_the_audit_log as (Hhandle & Hcredit & Hexecute & Hcreate & Hrefund).
  split; [|split; [|split; [|split; [|split]]]].
  - apply (Hhandle Examples.refused (Some Examples.basket) Examples.empty_world).
  - destruct (Hcredit Examples.configuration Examples.gateway_unexpected Examples.source 4900
                "USD" Examples.world_with_refund Examples.order _ Examples.unexpected_body
                eq_refl eq_refl eq_refl) as [Hok _].
    exact (Hok _ (PyStr "8514714612773747") (PyStr "[refused]")
             eq_refl eq_refl eq_refl eq_refl eq_refl).
  - destruct (Hcredit Examples.configuration Examples.gateway_server_error Examples.source
                4900 "USD" Examples.world_with_refund Examples.order _
                Examples.server_error_body eq_refl eq_refl eq_refl) as [_ Hno].
    apply Hno. discriminate.
  - apply (Hexecute 1 Examples.switch_on Examples.find_payment Examples.execute_fails
             Examples.returned (Some Examples.basket)
             (fun _ => Examples.payment_not_executed) (fun _ => PyStr "9e2a6c7f1d3b8")
             Examples.empty_world).
    + vm_compute. discriminate.
    + intros k _. exists Examples.payment_executed. repeat split; reflexivity.
  - apply (Hcreate 2 Examples.switch_on Examples.create_never Examples.transaction_data
             Examples.basket (<["intent" := PyStr "sale"]> ∅) (PyStr "5c1a3f0b7e2d4")
             Examples.empty_world).
    + reflexivity.
    + vm_compute. lia.
    + intros k _. reflexivity.
    + reflexivity.
    + reflexivity.
  - apply (Hrefund Examples.find_payment Examples.refund_is_rejected Examples.order
             (PyStr "PAY-1B56960729604235TKQQIYVY") 4900 "USD" Examples.empty_world
             Examples.payment_executed Examples.sale Examples.refund_rejected
             (PyStr "b7d3e1f09a2c4"));
      reflexivity.
Defined.

(** * Further properties *)

(** ** The shopper data of an authorisation *)

Lemma split_space_1_with_space (s : string) :
  contains_space s = true ->
  exists h t,
    split_space_1 s = [h; t] /\ s = h +:+ " " +:+ t /\ contains_space h = false.
Proof.
  induction s as [|c s IH]; simpl; [discriminate|].
  destruct (Ascii.eqb c " ") eqn:Ec; simpl.
  - intros _. apply Ascii.eqb_eq in Ec. subst c.
    exists "", s. repeat split; reflexivity.
  - intros H. destruct (IH H) as (h & t & Hs & Heq & Hh).
    rewrite Hs. exists (String c h), t. simpl. rewrite Ec, Hh.
    repeat split; try reflexivity. rewrite Heq at 1. reflexivity.
Qed.

Lemma nonempty_false (s : string) : Adyen.nonempty s = false <-> s = "".
Proof.
  unfold Adyen.nonempty. rewrite negb_false_iff. apply String.eqb_eq.
Qed.

Lemma nonempty_true (s : string) : Adyen.nonempty s = true <-> s <> "".
Proof.
  unfold Adyen.nonempty. rewrite negb_true_iff. apply String.eqb_neq.
Qed.

Lemma set_if_nonempty_lookup (key value k : string) (address : gmap string string) :
  Adyen.set_if_nonempty key value address !! k =
  if decide (key = k)
  then (if Adyen.nonempty value then Some value else address !! k)
  else address !! k.
Proof.
  unfold Adyen.set_if_nonempty.
  destruct (Adyen.nonempty value); destruct (decide (key = k)) as [->|Hne];
    try reflexivity.
  - apply lookup_insert_eq.
  - apply lookup_insert_ne. exact Hne.
Qed.

Lemma billing_block_present_with_space
    (billing_address city state postal_code country : string) :
  contains_space billing_address = true ->
  is_Some (Adyen._get_shopper_billing_address billing_address city state postal_code country
           !! "billingAddress").
Proof.
  intros Hsp.
  destruct (split_space_1_with_space _ Hsp) as (h & t & Hs & _ & _).
  assert (Hne : Adyen.nonempty billing_address = true).
  { apply nonempty_true. intros ->. discriminate. }
  unfold Adyen._get_shopper_billing_address. rewrite Hne, Hs. simpl.
  rewrite lookup_singleton_eq. eauto.
Qed.

(** X1: a billing address with a space in it is cut at its first space: the
    block has the text before it as house number and the text after it as
    street. *)
Theorem billing_address_cut_at_first_space
    (billing_address city state postal_code country : string) :
  contains_space billing_address = true ->
  exists house_number street address,
    billing_address = house_number +:+ " " +:+ street
    /\ contains_space house_number = false
    /\ Adyen._get_shopper_billing_address billing_address city state postal_code country
       !! "billingAddress" = Some address
    /\ address !! "houseNumberOrName" = Some house_number
    /\ address !! "street" = Some street.
Proof.
  intros Hsp.
  destruct (split_space_1_with_space _ Hsp) as (h & t & Hs & Heq & Hh).
  assert (Hne : Adyen.nonempty billing_address = true).
  { apply nonempty_true. intros ->. discriminate. }
  unfold Adyen._get_shopper_billing_address. rewrite Hne, Hs. simpl.
  eexists h, t, _. split; [exact Heq|]. split; [exact Hh|].
  split; [apply lookup_singleton_eq|].
  rewrite !set_if_nonempty_lookup. simpl. split; reflexivity.
Qed.

Lemma billing_address_cut_at_first_space_witness :
  exists house_number street address,
    "221B Baker Street" = house_number +:+ " " +:+ street
    /\ contains_space house_number = false
    /\ Adyen._get_shopper_billing_address "221B Baker Street" "London" "" "NW1" "GB"
       !! "billingAddress" = Some address
    /\ address !! "houseNumberOrName" = Some house_number
    /\ address !! "street" = Some street.
Proof.
  apply billing_address_cut_at_first_space. reflexivity.
Defined.

(** What a billing block is made of, when there is one. *)
Lemma billing_block_inversion
    (billing_address city state postal_code country : string)
    (address : gmap string string) :
  Adyen._get_shopper_billing_address billing_address city state postal_code country
  !! "billingAddress" = Some address ->
  (Adyen.nonempty billing_address || Adyen.nonempty city || Adyen.nonempty state
   || Adyen.nonempty postal_code || Adyen.nonempty country = true)
  /\ exists base : gmap string string,
       address =
       Adyen.set_if_nonempty "country" country
         (Adyen.set_if_nonempty "postalCode" postal_code
            (Adyen.set_if_nonempty "stateOrProvince" state
               (Adyen.set_if_nonempty "city" city base)))
       /\ ((billing_address = "" /\ base = ∅)
           \/ (exists house_number street,
                 billing_address <> ""
                 /\ split_space_1 billing_address = [house_number; street]
                 /\ base = <["street" := street]>
                            (<["houseNumberOrName" := house_number]> ∅))).
Proof.
  unfold Adyen._get_shopper_billing_address.
  destruct (Adyen.nonempty billing_address || Adyen.nonempty city || Adyen.nonempty state
            || Adyen.nonempty postal_code || Adyen.nonempty country) eqn:Hany;
    [|rewrite lookup_empty; discriminate].
  destruct (Adyen.nonempty billing_address) eqn:Hb.
  - destruct (split_space_1 billing_address) as [|h [|t [|x l]]] eqn:Hs;
      try (rewrite lookup_empty; discriminate).
    rewrite lookup_singleton_eq. intros [= <-]. split; [reflexivity|].
    eexists. split; [reflexivity|]. right. exists h, t.
    apply nonempty_true in Hb. auto.
  - rewrite lookup_singleton_eq. intros [= <-]. split; [reflexivity|].
    eexists. split; [reflexivity|]. left. apply nonempty_false in Hb. auto.
Qed.

Lemma billing_address_without_space_aux
    (billing_address city state postal_code country : string) :
  billing_address <> "" ->
  contains_space billing_address = false ->
  Adyen._get_shopper_billing_address billing_address city state postal_code country = ∅.
Proof.
  intros Hne Hsp. unfold Adyen._get_shopper_billing_address.
  apply nonempty_true in Hne. rewrite Hne. simpl.
  rewrite (split_space_1_no_space _ Hsp). reflexivity.
Qed.

(** X2: the billing block is left out in two cases only: all five fields are
    empty, or the billing address is not empty and has no space in it. *)
Theorem billing_block_absent_iff
    (billing_address city state postal_code country : string) :
  Adyen._get_shopper_billing_address billing_address city state postal_code country = ∅
  <-> (billing_address = "" /\ city = "" /\ state = "" /\ postal_code = "" /\ country = "")
      \/ (billing_address <> "" /\ contains_space billing_address = false).
Proof.
  split.
  - intros Hempty.
    destruct (Adyen.nonempty billing_address) eqn:Hb.
    + right. split; [apply nonempty_true; exact Hb|].
      destruct (contains_space billing_address) eqn:Hsp; [|reflexivity].
      destruct (billing_block_present_with_space billing_address city state postal_code
                  country Hsp) as [a Hl].
      rewrite Hempty, lookup_empty in Hl. discriminate.
    + left. unfold Adyen._get_shopper_billing_address in Hempty. rewrite Hb in Hempty.
      simpl in Hempty.
      destruct (Adyen.nonempty city || Adyen.nonempty state || Adyen.nonempty postal_code
                || Adyen.nonempty country) eqn:Hany.
      * apply (f_equal (fun m => m !! "billingAddress")) in Hempty.
        rewrite lookup_singleton_eq, lookup_empty in Hempty. discriminate.
      * rewrite !orb_false_iff in Hany. destruct Hany as [[[Hc Hs] Hp] Hk].
        rewrite !nonempty_false in *. auto.
  - intros [(-> & -> & -> & -> & ->) | [Hne Hsp]].
    + reflexivity.
    + apply billing_address_without_space_aux; assumption.
Qed.

Lemma billing_block_absent_iff_witness :
  Adyen._get_shopper_billing_address "" "" "" "" "" = ∅
  /\ Adyen._get_shopper_billing_address "123" "Paris" "" "" "FR" = ∅.
Proof.
  split.
  - apply (proj2 (billing_block_absent_iff "" "" "" "" "")). left. repeat split.
  - apply (proj2 (billing_block_absent_iff "123" "Paris" "" "" "FR")). right.
    split; [discriminate | reflexivity].
Defined.

(** X3: in a billing block, the city, state, postal code and country are
    there exactly when they are not empty, under the keys [city],
    [stateOrProvince], [postalCode] and [country], and the street is there
    exactly when the billing address is not empty. *)
Theorem billing_block_has_the_given_fields
    (billing_address city state postal_code country : string)
    (address : gmap string string) :
  Adyen._get_shopper_billing_address billing_address city state postal_code country
  !! "billingAddress" = Some address ->
  address !! "city" = (if Adyen.nonempty city then Some city else None)
  /\ address !! "stateOrProvince" = (if Adyen.nonempty state then Some state else None)
  /\ address !! "postalCode" = (if Adyen.nonempty postal_code then Some postal_code else None)
  /\ address !! "country" = (if Adyen.nonempty country then Some country else None)
  /\ (is_Some (address !! "street") <-> billing_address <> "").
Proof.
  intros H. destruct (billing_block_inversion _ _ _ _ _ _ H) as (_ & base & -> & Hbase).
  rewrite !set_if_nonempty_lookup. simpl.
  destruct Hbase as [[-> ->] | (h & t & Hne & _ & ->)].
  - rewrite !lookup_empty. repeat split; try reflexivity.
    + intros [x Hx]. discriminate.
    + intros Hn. contradiction.
  - rewrite lookup_insert_eq.
    rewrite !(lookup_insert_ne _ "street") by discriminate.
    rewrite !(lookup_insert_ne _ "houseNumberOrName") by discriminate.
    rewrite !lookup_empty. repeat split; try reflexivity; eauto.
Qed.

Lemma billing_block_has_the_given_fields_witness :
  exists address,
    Adyen._get_shopper_billing_address "" "Paris" "" "" "FR" !! "billingAddress"
    = Some address
    /\ address !! "city" = Some "Paris"
    /\ address !! "stateOrProvince" = None
    /\ address !! "postalCode" = None
    /\ address !! "country" = Some "FR"
    /\ (is_Some (address !! "street") <-> "" <> "").
Proof.
  eexists. split; [reflexivity|].
  apply (billing_block_has_the_given_fields "" "Paris" "" "" "FR"). reflexivity.
Defined.

Lemma name_block_inversion (first_name last_name : string) (name : gmap string string) :
  Adyen._get_shopper_name first_name last_name !! "shopper_name" = Some name ->
  (Adyen.nonempty first_name || Adyen.nonempty last_name = true)
  /\ name = Adyen.set_if_nonempty "lastName" last_name
              (Adyen.set_if_nonempty "firstName" first_name ∅).
Proof.
  unfold Adyen._get_shopper_name.
  destruct (Adyen.nonempty first_name || Adyen.nonempty last_name);
    [|rewrite lookup_empty; discriminate].
  rewrite lookup_singleton_eq. intros [= <-]. split; reflexivity.
Qed.

(** X4: no builder puts an empty block in the request: a name block has a
    first or a last name, and a billing block has at least one field. *)
Theorem blocks_are_never_empty :
  (forall first_name last_name name,
     Adyen._get_shopper_name first_name last_name !! "shopper_name" = Some name ->
     name <> ∅)
  /\ (forall billing_address city state postal_code country address,
        Adyen._get_shopper_billing_address billing_address city state postal_code country
        !! "billingAddress" = Some address ->
        address <> ∅).
Proof.
  split.
  - intros first_name last_name name H.
    destruct (name_block_inversion _ _ _ H) as [Hany ->].
    intros Hempty.
    assert (H1 := f_equal (fun m : gmap string string => m !! "firstName") Hempty).
    assert (H2 := f_equal (fun m : gmap string string => m !! "lastName") Hempty).
    simpl in H1, H2. rewrite !set_if_nonempty_lookup in H1, H2. simpl in H1, H2.
    rewrite lookup_empty in H1, H2.
    destruct (Adyen.nonempty first_name); [discriminate|].
    destruct (Adyen.nonempty last_name); discriminate.
  - intros billing_address city state postal_code country address H.
    destruct (billing_block_inversion _ _ _ _ _ _ H) as (Hany & base & -> & Hbase).
    intros Hempty.
    assert (Hlook : forall key,
              Adyen.set_if_nonempty "country" country
                (Adyen.set_if_nonempty "postalCode" postal_code
                   (Adyen.set_if_nonempty "stateOrProvince" state
                      (Adyen.set_if_nonempty "city" city base))) !! key = None).
    { intros key. rewrite Hempty. apply lookup_empty. }
    pose proof (Hlook "city") as Hc. pose proof (Hlook "stateOrProvince") as Hs.
    pose proof (Hlook "postalCode") as Hp. pose proof (Hlook "country") as Hk.
    pose proof (Hlook "street") as Hst.
    rewrite !set_if_nonempty_lookup in Hc, Hs, Hp, Hk, Hst.
    simpl in Hc, Hs, Hp, Hk, Hst.
    destruct (Adyen.nonempty country); [discriminate|].
    destruct (Adyen.nonempty postal_code); [discriminate|].
    destruct (Adyen.nonempty state); [discriminate|].
    destruct (Adyen.nonempty city); [discriminate|].
    destruct Hbase as [[-> _] | (h & t & _ & _ & ->)].
    + discriminate.
    + rewrite lookup_insert_eq in Hst. discriminate.
Qed.

Lemma blocks_are_never_empty_witness :
  (exists name,
     Adyen._get_shopper_name "" "Lovelace" !! "shopper_name" = Some name /\ name <> ∅)
  /\ (exists address,
        Adyen._get_shopper_billing_address "" "Paris" "" "" "" !! "billingAddress"
        = Some address
        /\ address <> ∅).
Proof.
  destruct blocks_are_never_empty as [Hname Hbilling].
  split.
  - eexists. split; [reflexivity|]. apply (Hname "" "Lovelace"). reflexivity.
  - eexists. split; [reflexivity|]. apply (Hbilling "" "Paris" "" "" ""). reflexivity.
Defined.

Lemma shopper_data_lookup
    (first_name last_name email billing_address city state postal_code country ip k : string) :
  Adyen._get_shopper_data first_name last_name email billing_address city state postal_code
    country ip !! k =
  if decide (k = "shopperIP") then
    (if Adyen.nonempty ip then Some (PyStr ip) else None)
  else if decide (k = "billingAddress") then
    Adyen.text_block <$>
      (Adyen._get_shopper_billing_address billing_address city state postal_code country
       !! "billingAddress")
  else if decide (k = "shopperEmail") then
    (if Adyen.nonempty email then Some (PyStr email) else None)
  else if decide (k = "shopper_name") then
    Adyen.text_block <$> (Adyen._get_shopper_name first_name last_name !! "shopper_name")
  else None.
Proof.
  unfold Adyen._get_shopper_data, Adyen.py_update.
  assert (Hip : forall j, j <> "shopperIP" -> Adyen._get_shopper_ip ip !! j = None).
  { intros j Hj. unfold Adyen._get_shopper_ip. destruct (Adyen.nonempty ip).
    - apply lookup_singleton_ne. congruence.
    - apply lookup_empty. }
  assert (Hem : forall j, j <> "shopperEmail" -> Adyen._get_shopper_email email !! j = None).
  { intros j Hj. unfold Adyen._get_shopper_email. destruct (Adyen.nonempty email).
    - apply lookup_singleton_ne. congruence.
    - apply lookup_empty. }
  assert (Hbi : forall j, j <> "billingAddress" ->
                  Adyen._get_shopper_billing_address billing_address city state postal_code
                    country !! j = None).
  { intros j Hj. unfold Adyen._get_shopper_billing_address.
    repeat case_match; try apply lookup_empty; apply lookup_singleton_ne; congruence. }
  assert (Hna : forall j, j <> "shopper_name" ->
                  Adyen._get_shopper_name first_name last_name !! j = None).
  { intros j Hj. unfold Adyen._get_shopper_name.
    repeat case_match; try apply lookup_empty; apply lookup_singleton_ne; congruence. }
  rewrite !lookup_union, !lookup_fmap, lookup_empty.
  destruct (decide (k = "shopperIP")) as [->|H1].
  { rewrite Hbi, Hem, Hna by discriminate. simpl.
    unfold Adyen._get_shopper_ip. destruct (Adyen.nonempty ip).
    - rewrite lookup_singleton_eq. reflexivity.
    - rewrite lookup_empty. reflexivity. }
  rewrite (Hip k H1). simpl.
  destruct (decide (k = "billingAddress")) as [->|H2].
  { rewrite Hem, Hna by discriminate. simpl.
    destruct (Adyen._get_shopper_billing_address _ _ _ _ _ !! "billingAddress");
      reflexivity. }
  rewrite (Hbi k H2). simpl.
  destruct (decide (k = "shopperEmail")) as [->|H3].
  { rewrite Hna by discriminate. simpl.
    unfold Adyen._get_shopper_email. destruct (Adyen.nonempty email).
    - rewrite lookup_singleton_eq. reflexivity.
    - rewrite lookup_empty. reflexivity. }
  rewrite (Hem k H3). simpl.
  destruct (decide (k = "shopper_name")) as [->|H4].
  { destruct (Adyen._get_shopper_name _ _ !! "shopper_name"); reflexivity. }
  rewrite (Hna k H4). reflexivity.
Qed.

(** X5: the shopper data has the email under [shopperEmail] and the address
    of the shopper under [shopperIP] exactly when they are not empty, the
    name and billing blocks under [shopper_name] and [billingAddress]
    exactly when their builders give one, and no other key. *)
Theorem shopper_data_keys
    (first_name last_name email billing_address city state postal_code country ip : string) :
  let shopper_data :=
    Adyen._get_shopper_data first_name last_name email billing_address city state
      postal_code country ip in
  shopper_data !! "shopperEmail" = (if Adyen.nonempty email then Some (PyStr email) else None)
  /\ shopper_data !! "shopperIP" = (if Adyen.nonempty ip then Some (PyStr ip) else None)
  /\ shopper_data !! "shopper_name" =
     Adyen.text_block <$> (Adyen._get_shopper_name first_name last_name !! "shopper_name")
  /\ shopper_data !! "billingAddress" =
     Adyen.text_block <$>
       (Adyen._get_shopper_billing_address billing_address city state postal_code country
        !! "billingAddress")
  /\ (forall k,
        k <> "shopperEmail" -> k <> "shopperIP" -> k <> "shopper_name" ->
        k <> "billingAddress" -> shopper_data !! k = None).
Proof.
  intros shopper_data. subst shopper_data.
  repeat split; try (rewrite shopper_data_lookup; reflexivity).
  intros k H1 H2 H3 H4. rewrite shopper_data_lookup.
  repeat (case_decide; [congruence|]). reflexivity.
Qed.

(** X6: shopper data with every field empty is the empty mapping, and with
    an email alone it is that email under [shopperEmail] and nothing else. *)
Theorem shopper_data_empty_or_email_only (email : string) :
  Adyen._get_shopper_data "" "" "" "" "" "" "" "" "" = ∅
  /\ (email <> "" ->
      Adyen._get_shopper_data "" "" email "" "" "" "" "" "" =
      {[ "shopperEmail" := PyStr email ]}).
Proof.
  split; [reflexivity|].
  intros Hne. apply map_eq. intros k. rewrite shopper_data_lookup.
  apply nonempty_true in Hne. rewrite Hne. simpl.
  destruct (decide (k = "shopperEmail")) as [->|H3].
  - rewrite lookup_singleton_eq. reflexivity.
  - rewrite lookup_singleton_ne by congruence.
    repeat (case_decide; [subst; reflexivity|]). reflexivity.
Qed.

Lemma shopper_data_empty_or_email_only_witness :
  Adyen._get_shopper_data "" "" "" "" "" "" "" "" "" = ∅
  /\ Adyen._get_shopper_data "" "" "ada@example.com" "" "" "" "" "" "" =
     {[ "shopperEmail" := PyStr "ada@example.com" ]}.
Proof.
  split.
  - apply (proj1 (shopper_data_empty_or_email_only "ada@example.com")).
  - apply (proj2 (shopper_data_empty_or_email_only "ada@example.com")). discriminate.
Defined.

(** ** Authorising a payment *)

Section AdyenAuthorise.

Variables (configuration : Adyen.Configuration)
          (requests_post : Adyen.Request -> Res Adyen.Response)
          (minor_units : Z -> string -> Res PyVal)
          (basket : Basket) (encrypted_card_data : PyVal)
          (shopper_data : Adyen.ShopperData) (w : World).

Lemma authorise_payload_kept (value : PyVal) (k : string) :
  k = "additionalData" \/ k = "amount" \/ k = "reference" \/ k = "merchantAccount" ->
  Adyen.request_json
    (Adyen.authorise_request configuration basket encrypted_card_data value shopper_data)
  !! k =
  Adyen.authorise_payload configuration basket encrypted_card_data value !! k.
Proof.
  intros Hk. unfold Adyen.authorise_request, Adyen.py_update. simpl.
  rewrite lookup_union, shopper_data_lookup.
  destruct Hk as [-> | [-> | [-> | ->]]];
    repeat (case_decide; [discriminate|]).
  all: match goal with |- None ∪ ?x = _ => destruct x; reflexivity end.
Qed.

(** X7: the shopper data never replaces a payment field of the request:
    whatever the shopper gave, the request carries the encrypted card, the
    amount in minor units with the currency of the basket, the order number
    as reference and the merchant account. *)
Theorem authorise_request_payment_fields (value : PyVal) :
  let json :=
    Adyen.request_json
      (Adyen.authorise_request configuration basket encrypted_card_data value shopper_data) in
  json !! "additionalData" =
    Some (PyDict {[ "card.encrypted.json" := encrypted_card_data ]})
  /\ json !! "amount" =
     Some (PyDict (<["currency" := PyStr (basket_currency basket)]>
                   (<["value" := value]> ∅)))
  /\ json !! "reference" = Some (PyStr (order_number basket))
  /\ json !! "merchantAccount" = Some (PyStr (Adyen.merchant_account_code configuration)).
Proof.
  intros json. subst json.
  rewrite !authorise_payload_kept by tauto.
  unfold Adyen.authorise_payload. repeat split.
Qed.

Lemma authorise_answered (value : PyVal) (response : Adyen.Response) (d : dict) :
  minor_units (total_incl_tax basket) (basket_currency basket) = Ret value ->
  requests_post
    (Adyen.authorise_request configuration basket encrypted_card_data value shopper_data)
  = Ret response ->
  Adyen.response_json response = Some (PyDict d) ->
  Adyen.authorise configuration requests_post minor_units basket encrypted_card_data
    shopper_data w =
  if Adyen.status_code response =? Adyen.codes_ok
  then (Ret (<["eventCode" := PyStr "AUTHORISATION"]> d), w)
  else (Raise (ExternalError "AdyenRequestError"),
        with_log (fun l =>
          (l ++ [(EXCEPTION,
                  "Request for basket {basket} to {url} returned with {status} {response}")])%list)
          w).
Proof.
  intros Hmu Hpost Hjson. unfold Adyen.authorise, Adyen.Response_json. run_unfold.
  rewrite Hmu, Hpost, Hjson. simpl.
  destruct (Adyen.status_code response =? Adyen.codes_ok); reflexivity.
Qed.

(** X8: when the gateway answers an authorisation with a status other than
    OK, AdyenRequestError is raised and the answer is logged; nothing is
    written to the audit log or to a table. *)
Theorem authorise_not_ok (value : PyVal) (response : Adyen.Response) (d : dict) :
  minor_units (total_incl_tax basket) (basket_currency basket) = Ret value ->
  requests_post
    (Adyen.authorise_request configuration basket encrypted_card_data value shopper_data)
  = Ret response ->
  Adyen.response_json response = Some (PyDict d) ->
  Adyen.status_code response <> Adyen.codes_ok ->
  exists w',
    Adyen.authorise configuration requests_post minor_units basket encrypted_card_data
      shopper_data w = (Raise (ExternalError "AdyenRequestError"), w')
    /\ log w' =
       (log w ++ [(EXCEPTION,
                   "Request for basket {basket} to {url} returned with {status} {response}")])%list
    /\ audit w' = audit w
    /\ sources w' = sources w
    /\ payment_events w' = payment_events w.
Proof.
  intros Hmu Hpost Hjson Hst.
  rewrite (authorise_answered value response d Hmu Hpost Hjson).
  apply Z.eqb_neq in Hst. rewrite Hst.
  eexists. split; [reflexivity|]. repeat split; reflexivity.
Qed.

(** X9: an answer of [authorise] always dispatches to the authorisation
    handler, whatever event code the gateway put in it: with status OK, a
    pspReference and a text result code, authorising and then handling the
    answer gives the source and the PAID event at the total of the basket
    when the result code is "authorised" in any case, and raises
    TransactionDeclined otherwise. *)
Theorem authorise_then_handle (value psp_reference : PyVal) (response : Adyen.Response)
    (d : dict) (result_code : string) :
  minor_units (total_incl_tax basket) (basket_currency basket) = Ret value ->
  requests_post
    (Adyen.authorise_request configuration basket encrypted_card_data value shopper_data)
  = Ret response ->
  Adyen.response_json response = Some (PyDict d) ->
  Adyen.status_code response = Adyen.codes_ok ->
  d !! "pspReference" = Some psp_reference ->
  d !! "resultCode" = Some (PyStr result_code) ->
  exists w',
    (adyen_response <- Adyen.authorise configuration requests_post minor_units basket
                         encrypted_card_data shopper_data ;;
     Adyen.handle_processor_response adyen_response (Some basket)) w =
    (if String.eqb (lower result_code) "authorised"
     then Ret (Some ({| source_id := None; source_order := None;
                        source_type := Adyen.NAME; currency := basket_currency basket;
                        amount_allocated := total_incl_tax basket;
                        amount_debited := total_incl_tax basket;
                        amount_refunded := 0; reference := psp_reference |},
                     {| event_type := PAID; event_order := None;
                        amount := total_incl_tax basket;
                        event_reference := psp_reference;
                        processor_name := Adyen.NAME |}))
     else Raise TransactionDeclined, w')
    /\ audit w' = audit w
    /\ sources w' = sources w
    /\ payment_events w' = payment_events w.
Proof.
  intros Hmu Hpost Hjson Hst Hpsp Hrc.
  unfold bind at 1.
  rewrite (authorise_answered value response d Hmu Hpost Hjson).
  apply Z.eqb_eq in Hst. rewrite Hst.
  rewrite (dispatch_to_handler (<["eventCode" := PyStr "AUTHORISATION"]> d) w (Some basket)
             "AUTHORISATION" psp_reference Adyen._handle_authorisation).
  - unfold Adyen._handle_authorisation. run_unfold.
    rewrite lookup_insert_ne by discriminate. rewrite Hrc. simpl.
    destruct (String.eqb (lower result_code) "authorised"); simpl;
      eexists; repeat split; reflexivity.
  - apply lookup_insert_eq.
  - rewrite lookup_insert_ne by discriminate. exact Hpsp.
  - reflexivity.
Qed.

End AdyenAuthorise.

Lemma authorise_not_ok_witness :
  exists w',
    Adyen.authorise Examples.configuration Examples.gateway_rejects Examples.minor_units
      Examples.basket (PyStr "adyenjs_0_1_18$encrypted") Examples.shopper
      Examples.empty_world = (Raise (ExternalError "AdyenRequestError"), w')
    /\ log w' =
       [(EXCEPTION, "Request for basket {basket} to {url} returned with {status} {response}")]
    /\ audit w' = []
    /\ sources w' = []
    /\ payment_events w' = [].
Proof.
  apply (authorise_not_ok Examples.configuration Examples.gateway_rejects
           Examples.minor_units Examples.basket (PyStr "adyenjs_0_1_18$encrypted")
           Examples.shopper Examples.empty_world (PyInt 4900) _
           Examples.authorise_rejected_body eq_refl eq_refl eq_refl).
  discriminate.
Defined.

Lemma authorise_then_handle_witness :
  exists w',
    (adyen_response <- Adyen.authorise Examples.configuration Examples.gateway_authorises
                         Examples.minor_units Examples.basket
                         (PyStr "adyenjs_0_1_18$encrypted") Examples.shopper ;;
     Adyen.handle_processor_response adyen_response (Some Examples.basket))
      Examples.empty_world =
    (Ret (Some ({| source_id := None; source_order := None; source_type := "adyen";
                   currency := "USD"; amount_allocated := 4900; amount_debited := 4900;
                   amount_refunded := 0; reference := PyStr "8514714612773749" |},
                {| event_type := PAID; event_order := None; amount := 4900;
                   event_reference := PyStr "8514714612773749";
                   processor_name := "adyen" |})), w')
    /\ audit w' = []
    /\ sources w' = []
    /\ payment_events w' = [].
Proof.
  apply (authorise_then_handle Examples.configuration Examples.gateway_authorises
           Examples.minor_units Examples.basket (PyStr "adyenjs_0_1_18$encrypted")
           Examples.shopper Examples.empty_world (PyInt 4900) (PyStr "8514714612773749") _
           Examples.authorise_accepted_body "Authorised"
           eq_refl eq_refl eq_refl eq_refl eq_refl eq_refl).
Defined.

(** ** More on the dispatcher of the encrypted-card adapter *)

Lemma _handle_authorisation_raises (psp_reference : PyVal) (response : dict)
    (basket : option Basket) (w w' : World) (e : Exn) :
  Adyen._handle_authorisation psp_reference response basket w = (Raise e, w') ->
  e = KeyError \/ e = AttributeError \/ e = TransactionDeclined.
Proof.
  unfold Adyen._handle_authorisation, py_lower. run_unfold.
  repeat case_match; intros; simplify_eq; auto.
Qed.

Lemma _handle_cancel_or_refund_raises (psp_reference : PyVal) (response : dict)
    (basket : option Basket) (w w' : World) (e : Exn) :
  Adyen._handle_cancel_or_refund psp_reference response basket w = (Raise e, w') ->
  e = AttributeError \/ e = DoesNotExist \/ e = MultipleObjectsReturned
  \/ exists order_number, e = GatewayError (AdyenCreditFailedForOrder order_number).
Proof.
  unfold Adyen._handle_cancel_or_refund, order_set_first, sources_first, refunds_get,
    Source_refund, Refund_complete, Refund_set_status, PaymentEvent_create.
  run_unfold.
  repeat case_match; intros; simplify_eq; eauto 6.
Qed.

(** X10: KeyError and AttributeError never leave [handle_processor_response]:
    what it raises is MissingAdyenEventCodeException,
    UnsupportedAdyenEventException, TransactionDeclined, a GatewayError for a
    failed credit, or the DoesNotExist or MultipleObjectsReturned of the
    refund query. *)
Theorem handle_processor_response_raises (response : dict) (basket : option Basket)
    (w w' : World) (e : Exn) :
  Adyen.handle_processor_response response basket w = (Raise e, w') ->
  e = MissingAdyenEventCodeException
  \/ e = UnsupportedAdyenEventException
  \/ e = TransactionDeclined
  \/ e = DoesNotExist
  \/ e = MultipleObjectsReturned
  \/ exists order_number, e = GatewayError (AdyenCreditFailedForOrder order_number).
Proof.
  unfold Adyen.handle_processor_response, try_except, bind at 1 2 3 4, lift_res, dict_getitem,
    raise.
  destruct (response !! "eventCode") as [event_code|]; [|intros [= <- _]; auto].
  destruct (response !! "pspReference") as [psp_reference|]; [|intros [= <- _]; auto].
  destruct (py_lower event_code) as [event|e0] eqn:El.
  2:{ destruct event_code; simpl in El; simplify_eq; intros [= <- _]; auto. }
  unfold Adyen.getattr_handler.
  destruct (String.eqb _ "_handle_authorisation").
  - destruct (Adyen._handle_authorisation psp_reference response basket w)
      as [[r|e0] w0] eqn:Eh; [discriminate|].
    destruct (_handle_authorisation_raises _ _ _ _ _ _ Eh) as [-> | [-> | ->]];
      intros [= <- _]; auto.
  - destruct (String.eqb _ "_handle_cancel_or_refund").
    + destruct (Adyen._handle_cancel_or_refund psp_reference response basket w)
        as [[r|e0] w0] eqn:Eh; [discriminate|].
      destruct (_handle_cancel_or_refund_raises _ _ _ _ _ _ Eh)
        as [-> | [-> | [-> | [n ->]]]]; intros [= <- _]; eauto 8.
    + intros [= <- _]. auto.
Qed.

Lemma handle_processor_response_raises_witness :
  TransactionDeclined = MissingAdyenEventCodeException
  \/ TransactionDeclined = UnsupportedAdyenEventException
  \/ TransactionDeclined = TransactionDeclined
  \/ TransactionDeclined = DoesNotExist
  \/ TransactionDeclined = MultipleObjectsReturned
  \/ exists order_number,
       TransactionDeclined = GatewayError (AdyenCreditFailedForOrder order_number).
Proof.
  apply (handle_processor_response_raises Examples.refused (Some Examples.basket)
           Examples.empty_world Examples.empty_world TransactionDeclined).
  reflexivity.
Defined.

Lemma handlers_ignore_event_code (psp_reference event_code : PyVal) (response : dict)
    (basket : option Basket) (w : World) :
  Adyen._handle_authorisation psp_reference (<["eventCode" := event_code]> response) basket w
  = Adyen._handle_authorisation psp_reference response basket w
  /\ Adyen._handle_cancel_or_refund psp_reference (<["eventCode" := event_code]> response)
       basket w
     = Adyen._handle_cancel_or_refund psp_reference response basket w.
Proof.
  unfold Adyen._handle_authorisation, Adyen._handle_cancel_or_refund, dict_getitem, dict_get.
  rewrite !lookup_insert_ne by discriminate. split; reflexivity.
Qed.

(** X11: the case of the event code does not matter: two notifications that
    differ only in the letter case of their event code are handled alike. *)
Theorem dispatch_ignores_case (response : dict) (basket : option Basket) (w : World)
    (event_code event_code' : string) :
  lower event_code = lower event_code' ->
  Adyen.handle_processor_response (<["eventCode" := PyStr event_code]> response) basket w
  = Adyen.handle_processor_response (<["eventCode" := PyStr event_code']> response) basket w.
Proof.
  intros Hlow.
  unfold Adyen.handle_processor_response, try_except, bind, lift_res, dict_getitem.
  rewrite !lookup_insert_eq. rewrite !lookup_insert_ne by discriminate.
  destruct (response !! "pspReference") as [psp_reference|]; [|reflexivity].
  simpl. rewrite Hlow. unfold Adyen.getattr_handler.
  destruct (String.eqb _ "_handle_authorisation").
  - rewrite !(proj1 (handlers_ignore_event_code _ _ _ _ _)). reflexivity.
  - destruct (String.eqb _ "_handle_cancel_or_refund"); [|reflexivity].
    rewrite !(proj2 (handlers_ignore_event_code _ _ _ _ _)). reflexivity.
Qed.

Lemma dispatch_ignores_case_witness :
  Adyen.handle_processor_response
    (<["eventCode" := PyStr "Authorisation"]> Examples.authorised) (Some Examples.basket)
    Examples.empty_world
  = Adyen.handle_processor_response
      (<["eventCode" := PyStr "AUTHORISATION"]> Examples.authorised) (Some Examples.basket)
      Examples.empty_world.
Proof.
  apply dispatch_ignores_case. reflexivity.
Defined.

Section AdyenEdges.

Variables (response : dict) (w : World) (event_code : string) (psp_reference : PyVal).

Hypothesis has_event_code : response !! "eventCode" = Some (PyStr event_code).
Hypothesis has_psp_reference : response !! "pspReference" = Some psp_reference.

(** X12: without a basket, which is the default of the argument, a
    notification that has a handler is answered with
    UnsupportedAdyenEventException: an authorised authorisation after the
    source type was looked up, a cancel-or-refund at once.  No source, event
    or audit row is written. *)
Theorem no_basket_reported_as_unsupported :
  (forall result_code,
     lower event_code = "authorisation" ->
     response !! "resultCode" = Some (PyStr result_code) ->
     lower result_code = "authorised" ->
     exists w',
       Adyen.handle_processor_response response None w =
       (Raise UnsupportedAdyenEventException, w')
       /\ source_types w' = get_or_create String.eqb Adyen.NAME (source_types w)
       /\ sources w' = sources w
       /\ payment_events w' = payment_events w
       /\ audit w' = audit w)
  /\ (lower event_code = "cancel_or_refund" ->
      Adyen.handle_processor_response response None w =
      (Raise UnsupportedAdyenEventException, w)).
Proof.
  split.
  - intros result_code Hlow Hrc Hauth.
    rewrite (dispatch_to_handler response w None event_code psp_reference
               Adyen._handle_authorisation has_event_code has_psp_reference
               (handler_authorisation _ Hlow)).
    unfold Adyen._handle_authorisation. run_unfold.
    rewrite Hrc. simpl. rewrite Hauth. simpl.
    eexists. split; [reflexivity|]. repeat split; reflexivity.
  - intros Hlow.
    rewrite (dispatch_to_handler response w None event_code psp_reference
               Adyen._handle_cancel_or_refund has_event_code has_psp_reference
               (handler_cancel_or_refund _ Hlow)).
    reflexivity.
Qed.

(** X13: an authorisation without a result code is answered with
    MissingAdyenEventCodeException, although it has an event code, and one
    whose result code is not a text with UnsupportedAdyenEventException,
    although its event has a handler.  The world is left as it was. *)
Theorem authorisation_result_code_missing_or_not_text (basket : option Basket) :
  lower event_code = "authorisation" ->
  (response !! "resultCode" = None ->
   Adyen.handle_processor_response response basket w =
   (Raise MissingAdyenEventCodeException, w))
  /\ (forall v,
        response !! "resultCode" = Some v ->
        (forall s, v <> PyStr s) ->
        Adyen.handle_processor_response response basket w =
        (Raise UnsupportedAdyenEventException, w)).
Proof.
  intros Hlow.
  rewrite (dispatch_to_handler response w basket event_code psp_reference
             Adyen._handle_authorisation has_event_code has_psp_reference
             (handler_authorisation _ Hlow)).
  unfold Adyen._handle_authorisation. run_unfold. split.
  - intros ->. reflexivity.
  - intros v -> Hv. destruct v; try reflexivity. exfalso. exact (Hv s eq_refl).
Qed.

Lemma filter_nil_Forall {A} (P : A -> bool) (l : list A) :
  Forall (fun x => P x = false) l -> List.filter P l = [].
Proof.
  induction 1 as [|x l Hx _ IH]; simpl; [reflexivity|]. rewrite Hx. exact IH.
Qed.

(** X14: what a cancel-or-refund notification does when the order is not
    ready for it.  A basket without an order, or a successful notification
    for an order without a source, raises UnsupportedAdyenEventException; an
    order with no refund that is pending raises DoesNotExist.  The world is
    left as it was in each case. *)
Theorem cancel_or_refund_not_ready (basket : Basket) :
  lower event_code = "cancel_or_refund" ->
  (order_set_first basket w = (Ret None, w) ->
   Adyen.handle_processor_response response (Some basket) w =
   (Raise UnsupportedAdyenEventException, w))
  /\ (forall order,
        order_set_first basket w = (Ret (Some order), w) ->
        Forall (fun r => refund_order r = order_id order ->
                         status r <> PENDING_WITH_REVOCATION
                         /\ status r <> PENDING_WITHOUT_REVOCATION) (refunds w) ->
        Adyen.handle_processor_response response (Some basket) w = (Raise DoesNotExist, w))
  /\ (forall order refund,
        order_set_first basket w = (Ret (Some order), w) ->
        sources_first order w = (Ret None, w) ->
        refunds_get order [PENDING_WITH_REVOCATION; PENDING_WITHOUT_REVOCATION] w
        = (Ret refund, w) ->
        truthy (dict_get response "success") = true ->
        Adyen.handle_processor_response response (Some basket) w =
        (Raise UnsupportedAdyenEventException, w)).
Proof.
  intros Hlow.
  rewrite (dispatch_to_handler response w (Some basket) event_code psp_reference
             Adyen._handle_cancel_or_refund has_event_code has_psp_reference
             (handler_cancel_or_refund _ Hlow)).
  unfold Adyen._handle_cancel_or_refund.
  split; [|split].
  - intros Hord.
    unfold bind at 1, lift_res at 1, getattr_of at 1. unfold bind at 1.
    rewrite Hord. reflexivity.
  - intros order Hord Hnone.
    unfold bind at 1, lift_res at 1, getattr_of at 1. unfold bind at 1.
    rewrite Hord.
    unfold bind at 1, lift_res at 1, getattr_of at 1. unfold bind at 1.
    unfold sources_first at 1, gets at 1.
    unfold bind at 1, lift_res at 1, getattr_of at 1. unfold bind at 1.
    unfold refunds_get.
    rewrite filter_nil_Forall; [reflexivity|].
    eapply Forall_impl; [exact Hnone|]. intros r Hr. simpl in Hr.
    destruct (Nat.eqb (refund_order r) (order_id order)) eqn:Eo; [|reflexivity].
    apply Nat.eqb_eq in Eo. destruct (Hr Eo) as [H1 H2].
    simpl. destruct (status r); try reflexivity; congruence.
  - intros order refund Hord Hsrc Hrefund Hok.
    unfold bind at 1, lift_res at 1, getattr_of at 1. unfold bind at 1.
    rewrite Hord.
    unfold bind at 1, lift_res at 1, getattr_of at 1. unfold bind at 1. rewrite Hsrc.
    unfold bind at 1, lift_res at 1, getattr_of at 1. unfold bind at 1. rewrite Hrefund.
    rewrite Hok. reflexivity.
Qed.

End AdyenEdges.

Lemma no_basket_reported_as_unsupported_witness :
  (exists w',
     Adyen.handle_processor_response Examples.authorised None Examples.empty_world =
     (Raise UnsupportedAdyenEventException, w')
     /\ source_types w' = ["adyen"]
     /\ sources w' = []
     /\ payment_events w' = []
     /\ audit w' = [])
  /\ Adyen.handle_processor_response Examples.refund_succeeded None
       Examples.world_with_refund =
     (Raise UnsupportedAdyenEventException, Examples.world_with_refund).
Proof.
  split.
  - apply (proj1 (no_basket_reported_as_unsupported Examples.authorised Examples.empty_world
                    "AUTHORISATION" (PyStr "8514714612773741") eq_refl eq_refl)
             "Authorised");
      reflexivity.
  - apply (proj2 (no_basket_reported_as_unsupported Examples.refund_succeeded
                    Examples.world_with_refund "CANCEL_OR_REFUND"
                    (PyStr "8514714612773745") eq_refl eq_refl)).
    reflexivity.
Defined.

Lemma authorisation_result_code_missing_or_not_text_witness :
  Adyen.handle_processor_response Examples.no_result_code (Some Examples.basket)
    Examples.empty_world = (Raise MissingAdyenEventCodeException, Examples.empty_world)
  /\ Adyen.handle_processor_response Examples.null_result_code (Some Examples.basket)
       Examples.empty_world = (Raise UnsupportedAdyenEventException, Examples.empty_world).
Proof.
  split.
  - apply (proj1 (authorisation_result_code_missing_or_not_text Examples.no_result_code
                    Examples.empty_world "AUTHORISATION" (PyStr "8514714612773750")
                    eq_refl eq_refl (Some Examples.basket) eq_refl)).
    reflexivity.
  - apply (proj2 (authorisation_result_code_missing_or_not_text Examples.null_result_code
                    Examples.empty_world "AUTHORISATION" (PyStr "8514714612773750")
                    eq_refl eq_refl (Some Examples.basket) eq_refl) PyNone).
    + reflexivity.
    + discriminate.
Defined.

Lemma cancel_or_refund_not_ready_witness :
  Adyen.handle_processor_response Examples.refund_succeeded (Some Examples.basket)
    Examples.empty_world = (Raise UnsupportedAdyenEventException, Examples.empty_world)
  /\ Adyen.handle_processor_response Examples.refund_succeeded (Some Examples.basket)
       Examples.world_refund_complete = (Raise DoesNotExist, Examples.world_refund_complete)
  /\ Adyen.handle_processor_response Examples.refund_succeeded (Some Examples.basket)
       Examples.world_without_source =
     (Raise UnsupportedAdyenEventException, Examples.world_without_source).
Proof.
  split; [|split].
  - apply (proj1 (cancel_or_refund_not_ready Examples.refund_succeeded Examples.empty_world
                    "CANCEL_OR_REFUND" (PyStr "8514714612773745") eq_refl eq_refl
                    Examples.basket eq_refl)).
    reflexivity.
  - apply (proj1 (proj2 (cancel_or_refund_not_ready Examples.refund_succeeded
                           Examples.world_refund_complete "CANCEL_OR_REFUND"
                           (PyStr "8514714612773745") eq_refl eq_refl
                           Examples.basket eq_refl)) Examples.order).
    + reflexivity.
    + repeat constructor; simpl; discriminate.
  - apply (proj2 (proj2 (cancel_or_refund_not_ready Examples.refund_succeeded
                           Examples.world_without_source "CANCEL_OR_REFUND"
                           (PyStr "8514714612773745") eq_refl eq_refl
                           Examples.basket eq_refl)) Examples.order Examples.refund);
      reflexivity.
Defined.

(** ** Notifications that are delivered twice *)

Lemma get_or_create_idempotent {A} (eqb : A -> A -> bool) (x : A) (l : list A) :
  eqb x x = true ->
  get_or_create eqb x (get_or_create eqb x l) = get_or_create eqb x l.
Proof.
  intros Hrefl. unfold get_or_create.
  destruct (existsb (eqb x) l) eqn:E.
  - rewrite E. reflexivity.
  - rewrite existsb_app. simpl. rewrite Hrefl, orb_true_r. reflexivity.
Qed.

(** X15: the adapter does not tell a repeated authorisation from a new one:
    handling the same authorisation again gives the same answer, so an
    authorised one yields a second source and event for the caller, and the
    second handling changes nothing in the world. *)
Theorem authorisation_delivered_twice (response : dict) (basket : option Basket)
    (w : World) (event_code : string) (psp_reference : PyVal) :
  response !! "eventCode" = Some (PyStr event_code) ->
  lower event_code = "authorisation" ->
  response !! "pspReference" = Some psp_reference ->
  let first := Adyen.handle_processor_response response basket w in
  Adyen.handle_processor_response response basket (snd first) = (fst first, snd first).
Proof.
  intros Hev Hlow Hpsp first. subst first.
  rewrite !(dispatch_to_handler response _ basket event_code psp_reference
              Adyen._handle_authorisation Hev Hpsp (handler_authorisation _ Hlow)).
  unfold Adyen._handle_authorisation, py_lower. run_unfold.
  destruct (response !! "resultCode") as [[| | |result_code| |]|]; simpl; try reflexivity.
  destruct (String.eqb (lower result_code) "authorised"); simpl; [|reflexivity].
  destruct basket as [basket|]; simpl.
  - unfold with_payment_event_types, with_source_types. simpl.
    rewrite !get_or_create_idempotent; [reflexivity | reflexivity | apply String.eqb_refl].
  - unfold with_source_types. simpl.
    rewrite get_or_create_idempotent; [reflexivity | apply String.eqb_refl].
Qed.

Lemma authorisation_delivered_twice_witness :
  let first := Adyen.handle_processor_response Examples.authorised (Some Examples.basket)
                 Examples.empty_world in
  Adyen.handle_processor_response Examples.authorised (Some Examples.basket) (snd first)
  = (fst first, snd first).
Proof.
  apply (authorisation_delivered_twice Examples.authorised (Some Examples.basket)
           Examples.empty_world "AUTHORISATION" (PyStr "8514714612773741"));
    reflexivity.
Defined.

Lemma refunds_get_one (order : Order) (statuses : list REFUND) (refund : Refund) (w : World) :
  refunds_get order statuses w = (Ret refund, w) ->
  List.filter (fun r => Nat.eqb (refund_order r) (order_id order)
                        && existsb (REFUND_eqb (status r)) statuses) (refunds w)
  = [refund].
Proof.
  unfold refunds_get.
  destruct (List.filter _ (refunds w)) as [|r [|r' l]]; intros H; simplify_eq.
  reflexivity.
Qed.

(** X16: a successful cancel-or-refund notification that is delivered again
    does not credit the source a second time: the refund is no longer
    pending, the query for it raises DoesNotExist, and the world stays as
    the first delivery left it.  (The status that a completed refund has is
    the one of [Refund.complete] as modelled from the spec.) *)
Theorem cancel_or_refund_delivered_twice (response : dict) (w : World) (basket : Basket)
    (event_code : string) (psp_reference : PyVal) (order : Order) (source : Source)
    (refund : Refund) :
  response !! "eventCode" = Some (PyStr event_code) ->
  lower event_code = "cancel_or_refund" ->
  response !! "pspReference" = Some psp_reference ->
  order_set_first basket w = (Ret (Some order), w) ->
  sources_first order w = (Ret (Some source), w) ->
  refunds_get order [PENDING_WITH_REVOCATION; PENDING_WITHOUT_REVOCATION] w = (Ret refund, w) ->
  truthy (dict_get response "success") = true ->
  let first := Adyen.handle_processor_response response (Some basket) w in
  fst first = Ret None
  /\ Adyen.handle_processor_response response (Some basket) (snd first)
     = (Raise DoesNotExist, snd first).
Proof.
  intros Hev Hlow Hpsp Hord Hsrc Hrefund Hok first. subst first.
  pose proof (refunds_get_one _ _ _ _ Hrefund) as Hone.
  rewrite !(dispatch_to_handler response _ (Some basket) event_code psp_reference
              Adyen._handle_cancel_or_refund Hev Hpsp (handler_cancel_or_refund _ Hlow)).
  assert (Hrun : Adyen._handle_cancel_or_refund psp_reference response (Some basket) w =
                 (Source_refund source (total_credit_excl_tax refund) psp_reference ;;
                  Refund_set_status refund PAYMENT_REFUNDED ;;
                  Refund_complete refund
                    (REFUND_eqb (status refund) PENDING_WITH_REVOCATION) ;;
                  modify (with_payment_event_types
                            (get_or_create PaymentEventTypeName_eqb REFUNDED)) ;;
                  PaymentEvent_create
                    {| event_type := REFUNDED; event_order := Some (order_id order);
                       amount := total_credit_excl_tax refund;
                       event_reference := psp_reference; processor_name := Adyen.NAME |} ;;
                  ret None) w).
  { unfold Adyen._handle_cancel_or_refund.
    unfold bind at 1, lift_res at 1, getattr_of at 1. unfold bind at 1. rewrite Hord.
    unfold bind at 1, lift_res at 1, getattr_of at 1. unfold bind at 1. rewrite Hsrc.
    unfold bind at 1, lift_res at 1, getattr_of at 1. unfold bind at 1. rewrite Hrefund.
    rewrite Hok. reflexivity. }
  rewrite Hrun. clear Hrun.
  unfold Refund_complete, Refund_set_status, Source_refund, PaymentEvent_create.
  unfold bind, modify, ret.
  assert (Hord' : head (List.filter
                          (fun o => bool_decide (order_basket o = Some (basket_id basket)))
                          (orders w)) = Some order).
  { unfold order_set_first, gets in Hord. congruence. }
  destruct (REFUND_eqb (status refund) PENDING_WITH_REVOCATION); simpl;
    (split; [reflexivity|]);
    unfold Adyen._handle_cancel_or_refund, order_set_first, sources_first, refunds_get,
      bind, lift_res, getattr_of, gets; simpl; rewrite Hord';
    rewrite filter_nil_Forall; try reflexivity.
  all: apply List.Forall_forall; intros r Hr; simpl in Hr;
    apply in_map_iff in Hr; destruct Hr as (r1 & <- & Hr);
    apply in_map_iff in Hr; destruct Hr as (r0 & <- & Hr).
  all: destruct (Nat.eqb (refund_id r0) (refund_id refund)) eqn:Eid; simpl;
    [ rewrite Eid; simpl; apply andb_false_r
    | rewrite Eid;
      destruct (Nat.eqb (refund_order r0) (order_id order)
                && existsb (REFUND_eqb (status r0))
                     [PENDING_WITH_REVOCATION; PENDING_WITHOUT_REVOCATION]) eqn:EP;
      [|exact EP];
      exfalso;
      assert (Hin : In r0 [refund]) by (rewrite <- Hone; apply filter_In; auto);
      destruct Hin as [<- | []]; rewrite Nat.eqb_refl in Eid; discriminate ].
Qed.

Lemma cancel_or_refund_delivered_twice_witness :
  let first := Adyen.handle_processor_response Examples.refund_succeeded
                 (Some Examples.basket) Examples.world_with_refund in
  fst first = Ret None
  /\ Adyen.handle_processor_response Examples.refund_succeeded (Some Examples.basket)
       (snd first) = (Raise DoesNotExist, snd first).
Proof.
  apply (cancel_or_refund_delivered_twice Examples.refund_succeeded
           Examples.world_with_refund Examples.basket "CANCEL_OR_REFUND"
           (PyStr "8514714612773745") Examples.order Examples.source Examples.refund);
    reflexivity.
Defined.

(** ** More on credit issuance by the encrypted-card adapter *)

Section AdyenCreditMore.

Variables (configuration : Adyen.Configuration)
          (requests_post : Adyen.Request -> Res Adyen.Response)
          (source : Source) (amount : Z) (currency : string) (w : World).

Lemma py_eq_str_true (v : PyVal) (s : string) : py_eq_str v s = true -> v = PyStr s.
Proof.
  destruct v; simpl; try discriminate. intros H. apply String.eqb_eq in H. congruence.
Qed.

(** X17: [issue_credit] returns only when the gateway acknowledged the
    request: the answer had status OK and the acknowledgement as its
    [response] field, and it was recorded under its pspReference.  What it
    returns is [False]. *)
Theorem adyen_issue_credit_returns (v : PyVal) (w' : World) :
  Adyen.issue_credit configuration requests_post source amount currency w = (Ret v, w') ->
  v = PyBool false
  /\ exists order response d transaction_id,
       Source_order source w = (Ret (Some order), w)
       /\ requests_post (Adyen.cancel_or_refund_request configuration source (number order))
          = Ret response
       /\ Adyen.status_code response = Adyen.codes_ok
       /\ Adyen.response_json response = Some (PyDict d)
       /\ d !! "pspReference" = Some transaction_id
       /\ d !! "response" = Some (PyStr Adyen.ACK)
       /\ audit w' =
          (audit w ++ [audit_row Adyen.NAME (PyDict d) transaction_id (order_basket order)])%list.
Proof.
  unfold Adyen.issue_credit, Source_order, Adyen.Response_json.
  unfold record_processor_response, try_except, bind, lift_res, getattr_of, gets, ret, raise,
    logger, modify, py_getitem.
  set (found := match source_order source with
                | Some k => head (List.filter (fun o => Nat.eqb (order_id o) k) (orders w))
                | None => None
                end).
  destruct found as [order|]; [|discriminate].
  destruct (requests_post _) as [response|] eqn:Hpost; [|discriminate].
  destruct (Adyen.response_json response) as [body|] eqn:Hjson; [|discriminate].
  destruct (Adyen.status_code response =? Adyen.codes_ok) eqn:Hst; [|discriminate].
  destruct body as [| | | | |d]; try discriminate.
  destruct (d !! "pspReference") as [transaction_id|] eqn:Hpsp; [|discriminate].
  destruct (d !! "response") as [ack|] eqn:Hack; [|discriminate].
  destruct (py_eq_str ack Adyen.ACK) eqn:Heq; simpl; [|discriminate].
  intros [= <- <-]. split; [reflexivity|].
  apply py_eq_str_true in Heq. subst ack. apply Z.eqb_eq in Hst.
  exists order, response, d, transaction_id. repeat split; assumption.
Qed.

(** X18: [issue_credit] changes no source, refund or payment event, and
    writes at most one row to the audit log, whatever the gateway does. *)
Theorem adyen_issue_credit_keeps_ledger :
  let w' := snd (Adyen.issue_credit configuration requests_post source amount currency w) in
  sources w' = sources w
  /\ refunds w' = refunds w
  /\ payment_events w' = payment_events w
  /\ exists rows, audit w' = (audit w ++ rows)%list /\ (List.length rows <= 1)%nat.
Proof.
  unfold Adyen.issue_credit, Source_order, Adyen.Response_json.
  unfold record_processor_response, try_except, bind, lift_res, getattr_of, gets, ret, raise,
    logger, modify, py_getitem.
  simpl.
  repeat case_match; simplify_eq; simpl; repeat split;
    first [ exists []; rewrite app_nil_r; split; [reflexivity | simpl; lia]
          | eexists (_ :: nil); split; [reflexivity | simpl; lia] ].
Qed.

End AdyenCreditMore.

Section AdyenCreditErrors.

Variables (configuration : Adyen.Configuration)
          (requests_post : Adyen.Request -> Res Adyen.Response)
          (source : Source) (amount : Z) (currency : string) (w : World)
          (order : Order) (response : Adyen.Response).

Hypothesis order_of_source : Source_order source w = (Ret (Some order), w).
Hypothesis gateway_answers :
  requests_post (Adyen.cancel_or_refund_request configuration source (number order))
  = Ret response.

(** X19: errors of [issue_credit] that are not GatewayError.  An answer
    that is not JSON raises ValueError.  An answer with status OK that has
    no pspReference raises KeyError and nothing is recorded; one that has a
    pspReference but no [response] field raises KeyError after it was
    recorded. *)
Theorem adyen_issue_credit_other_errors :
  (Adyen.response_json response = None ->
   Adyen.issue_credit configuration requests_post source amount currency w =
   (Raise ValueError, w))
  /\ (forall d,
        Adyen.response_json response = Some (PyDict d) ->
        Adyen.status_code response = Adyen.codes_ok ->
        (d !! "pspReference" = None ->
         Adyen.issue_credit configuration requests_post source amount currency w =
         (Raise KeyError, w))
        /\ (forall transaction_id,
              d !! "pspReference" = Some transaction_id ->
              d !! "response" = None ->
              exists w',
                Adyen.issue_credit configuration requests_post source amount currency w =
                (Raise KeyError, w')
                /\ audit w' =
                   (audit w ++ [audit_row Adyen.NAME (PyDict d) transaction_id
                                  (order_basket order)])%list)).
Proof.
  split.
  - intros Hjson. unfold Adyen.issue_credit.
    unfold bind at 1. rewrite order_of_source.
    unfold bind at 1, lift_res at 1, getattr_of at 1.
    unfold bind at 1, lift_res at 1. rewrite gateway_answers.
    unfold bind at 1, lift_res at 1, Adyen.Response_json at 1.
    rewrite Hjson. reflexivity.
  - intros d Hjson Hst. apply Z.eqb_eq in Hst.
    assert (Hgo : Adyen.issue_credit configuration requests_post source amount currency w =
                  (try_except
                     (transaction_id <- lift_res (py_getitem (PyDict d) "pspReference") ;;
                      basket <- lift_res (getattr_of (Some order) order_basket) ;;
                      record_processor_response Adyen.NAME (PyDict d) transaction_id basket ;;
                      ack <- lift_res (py_getitem (PyDict d) "response") ;;
                      if negb (py_eq_str ack Adyen.ACK)
                      then raise (GatewayError NoMessage) else ret tt)
                     (fun e =>
                        match e with
                        | GatewayError _ =>
                            logger EXCEPTION
                              "An error occurred while attempting to issue a credit (via Adyen) for order [{}]." ;;
                            raise (GatewayError (AdyenCreditError (number order)))
                        | _ => raise e
                        end) ;;
                   ret (PyBool false)) w).
    { unfold Adyen.issue_credit.
      unfold bind at 1. rewrite order_of_source.
      unfold bind at 1, lift_res at 1, getattr_of at 1.
      unfold bind at 1, lift_res at 1. rewrite gateway_answers.
      unfold bind at 1, lift_res at 1, Adyen.Response_json at 1.
      rewrite Hjson, Hst.
      unfold Adyen.Response_json. rewrite Hjson.
      unfold bind at 2, lift_res at 1. reflexivity. }
    rewrite Hgo. clear Hgo. run_unfold. split.
    + intros ->. reflexivity.
    + intros transaction_id -> ->. eexists. split; reflexivity.
Qed.

End AdyenCreditErrors.

Lemma adyen_issue_credit_returns_witness :
  PyBool false = PyBool false
  /\ exists order response d transaction_id,
       Source_order Examples.source Examples.world_with_refund
       = (Ret (Some order), Examples.world_with_refund)
       /\ Examples.gateway_received
            (Adyen.cancel_or_refund_request Examples.configuration Examples.source
               (number order)) = Ret response
       /\ Adyen.status_code response = Adyen.codes_ok
       /\ Adyen.response_json response = Some (PyDict d)
       /\ d !! "pspReference" = Some transaction_id
       /\ d !! "response" = Some (PyStr Adyen.ACK)
       /\ audit (snd (Adyen.issue_credit Examples.configuration Examples.gateway_received
                        Examples.source 4900 "USD" Examples.world_with_refund)) =
          (audit Examples.world_with_refund ++
           [audit_row Adyen.NAME (PyDict d) transaction_id (order_basket order)])%list.
Proof.
  apply (adyen_issue_credit_returns Examples.configuration Examples.gateway_received
           Examples.source 4900 "USD" Examples.world_with_refund).
  reflexivity.
Defined.

Lemma adyen_issue_credit_other_errors_witness :
  Adyen.issue_credit Examples.configuration Examples.gateway_not_json Examples.source 4900
    "USD" Examples.world_with_refund = (Raise ValueError, Examples.world_with_refund)
  /\ Adyen.issue_credit Examples.configuration Examples.gateway_empty_object Examples.source
       4900 "USD" Examples.world_with_refund = (Raise KeyError, Examples.world_with_refund)
  /\ exists w',
       Adyen.issue_credit Examples.configuration Examples.gateway_reference_only
         Examples.source 4900 "USD" Examples.world_with_refund = (Raise KeyError, w')
       /\ audit w' =
          [audit_row "adyen" (PyDict Examples.reference_only_body)
             (PyStr "8514714612773751") (Some 7%nat)].
Proof.
  split; [|split].
  - apply (proj1 (adyen_issue_credit_other_errors Examples.configuration
                    Examples.gateway_not_json Examples.source 4900 "USD"
                    Examples.world_with_refund Examples.order _ eq_refl eq_refl)).
    reflexivity.
  - apply (proj1 (proj2 (adyen_issue_credit_other_errors Examples.configuration
                           Examples.gateway_empty_object Examples.source 4900 "USD"
                           Examples.world_with_refund Examples.order _ eq_refl eq_refl)
                    ∅ eq_refl eq_refl)).
    reflexivity.
  - apply (proj2 (proj2 (adyen_issue_credit_other_errors Examples.configuration
                           Examples.gateway_reference_only Examples.source 4900 "USD"
                           Examples.world_with_refund Examples.order _ eq_refl eq_refl)
                    Examples.reference_only_body eq_refl eq_refl)
             (PyStr "8514714612773751"));
      reflexivity.
Defined.

(** ** The sale of a payment *)

Lemma _get_payment_sale_in_first_readable (before after : list Paypal.RelatedResource)
    (resource : Paypal.RelatedResource) (v : option Paypal.Sale) :
  Forall (fun rr => exists e, Paypal.sale rr = Raise e) before ->
  Paypal.sale resource = Ret v ->
  Paypal._get_payment_sale_in (before ++ resource :: after) = Some v.
Proof.
  intros Hbefore Hv. unfold Paypal._get_payment_sale_in.
  induction Hbefore as [|rr before [e He] _ IH]; simpl.
  - rewrite Hv. reflexivity.
  - rewrite He. exact IH.
Qed.

Lemma _get_payment_sale_in_unreadable (resources : list Paypal.RelatedResource) :
  Forall (fun rr => exists e, Paypal.sale rr = Raise e) resources ->
  Paypal._get_payment_sale_in resources = None.
Proof.
  unfold Paypal._get_payment_sale_in.
  induction 1 as [|rr resources [e He] _ IH]; simpl; [reflexivity|].
  rewrite He. exact IH.
Qed.

(** X20: the sale of a payment is what the first related resource whose
    [sale] can be read gives, over the transactions in order; resources
    whose [sale] raises are passed over, and a [sale] that reads as [None]
    ends the search with [None]. *)
Theorem first_readable_sale_decides (payment : Paypal.Payment)
    (earlier later : list Paypal.Transaction) (transaction : Paypal.Transaction)
    (before after : list Paypal.RelatedResource) (resource : Paypal.RelatedResource)
    (v : option Paypal.Sale) :
  Paypal.payment_transactions payment = (earlier ++ transaction :: later)%list ->
  Forall (fun t => Forall (fun rr => exists e, Paypal.sale rr = Raise e)
                     (Paypal.related_resources t)) earlier ->
  Paypal.related_resources transaction = (before ++ resource :: after)%list ->
  Forall (fun rr => exists e, Paypal.sale rr = Raise e) before ->
  Paypal.sale resource = Ret v ->
  Paypal._get_payment_sale payment = v.
Proof.
  intros Hts Hearlier Hrs Hbefore Hv. unfold Paypal._get_payment_sale. rewrite Hts.
  clear Hts. induction Hearlier as [|t earlier Ht _ IH]; simpl.
  - rewrite Hrs, (_get_payment_sale_in_first_readable before after resource v Hbefore Hv).
    reflexivity.
  - rewrite (_get_payment_sale_in_unreadable _ Ht). exact IH.
Qed.

Lemma first_readable_sale_decides_witness :
  Paypal._get_payment_sale Examples.payment_executed = Some Examples.sale.
Proof.
  apply (first_readable_sale_decides Examples.payment_executed [] []
           {| Paypal.transaction_currency := "USD";
              Paypal.transaction_total := Some 4900;
              Paypal.related_resources :=
                [ {| Paypal.sale := Raise AttributeError |};
                  {| Paypal.sale := Ret (Some Examples.sale) |} ] |}
           [ {| Paypal.sale := Raise AttributeError |} ] []
           {| Paypal.sale := Ret (Some Examples.sale) |} (Some Examples.sale)).
  - reflexivity.
  - constructor.
  - reflexivity.
  - repeat constructor. exists AttributeError. reflexivity.
  - reflexivity.
Defined.

Lemma _get_payment_sale_in_sound (resources : list Paypal.RelatedResource)
    (v : option Paypal.Sale) :
  Paypal._get_payment_sale_in resources = Some v ->
  exists rr, In rr resources /\ Paypal.sale rr = Ret v.
Proof.
  unfold Paypal._get_payment_sale_in.
  induction resources as [|rr resources IH]; simpl; [discriminate|].
  destruct (Paypal.sale rr) as [s|e] eqn:Es; simpl.
  - intros [= <-]. exists rr. auto.
  - intros H. destruct (IH H) as (rr' & Hin & Hs). exists rr'. auto.
Qed.

(** X21: a sale that [_get_payment_sale] finds is the sale of a related
    resource of a transaction of the payment; and when no [sale] can be
    read, in particular when the payment has no transaction, it finds
    none. *)
Theorem payment_sale_found_or_not (payment : Paypal.Payment) :
  (forall s,
     Paypal._get_payment_sale payment = Some s ->
     exists t rr,
       In t (Paypal.payment_transactions payment)
       /\ In rr (Paypal.related_resources t)
       /\ Paypal.sale rr = Ret (Some s))
  /\ (Forall (fun t => Forall (fun rr => exists e, Paypal.sale rr = Raise e)
                         (Paypal.related_resources t))
        (Paypal.payment_transactions payment) ->
      Paypal._get_payment_sale payment = None).
Proof.
  unfold Paypal._get_payment_sale. split.
  - intros s. induction (Paypal.payment_transactions payment) as [|t ts IH]; simpl;
      [discriminate|].
    destruct (Paypal._get_payment_sale_in (Paypal.related_resources t)) as [v|] eqn:E.
    + intros ->. destruct (_get_payment_sale_in_sound _ _ E) as (rr & Hin & Hs).
      exists t, rr. auto.
    + intros H. destruct (IH H) as (t' & rr & Ht & Hrr & Hs). exists t', rr. auto.
  - induction 1 as [|t ts Ht _ IH]; simpl; [reflexivity|].
    rewrite (_get_payment_sale_in_unreadable _ Ht). exact IH.
Qed.

Lemma payment_sale_found_or_not_witness :
  (exists t rr,
     In t (Paypal.payment_transactions Examples.payment_executed)
     /\ In rr (Paypal.related_resources t)
     /\ Paypal.sale rr = Ret (Some Examples.sale))
  /\ Paypal._get_payment_sale Examples.payment_created = None.
Proof.
  split.
  - apply (proj1 (payment_sale_found_or_not Examples.payment_executed) Examples.sale).
    reflexivity.
  - apply (proj2 (payment_sale_found_or_not Examples.payment_created)). constructor.
Defined.

(** ** More on creating a payment *)

Lemma py_range_cons (lo hi : Z) :
  lo < hi -> py_range lo hi = lo :: py_range (lo + 1) hi.
Proof.
  intros H. unfold py_range.
  replace (Z.to_nat (hi - lo)) with (S (Z.to_nat (hi - (lo + 1)))) by lia.
  simpl. f_equal; [lia|].
  rewrite <- seq_shift, map_map. apply map_ext. intros k. lia.
Qed.

Lemma py_range_length (lo hi : Z) : List.length (py_range lo hi) = Z.to_nat (hi - lo).
Proof. unfold py_range. rewrite length_map, length_seq. reflexivity. Qed.

Lemma ledger_kept_refl (w : World) : ledger_kept w w.
Proof. repeat split. Qed.

Lemma ledger_kept_trans (w1 w2 w3 : World) :
  ledger_kept w1 w2 -> ledger_kept w2 w3 -> ledger_kept w1 w3.
Proof.
  unfold ledger_kept. intros (H1 & H2 & H3 & H4) (H5 & H6 & H7 & H8).
  repeat split; congruence.
Qed.

Section PaypalCreateMore.

Variables (retry_attempts : Z) (switch_is_active : string -> bool)
          (Payment_create : dict -> nat -> Paypal.Created)
          (transaction_data : Basket -> Res dict)
          (basket : Basket) (data : dict).

(** X22: a payment that was created is recorded before its links are read.
    When it has links and none of them has [rel] equal to [approval_url],
    GatewayError is raised with the id of the audit row that was just
    written; when it has no [links] at all, the attribute reads as None
    and iterating over it raises TypeError. *)
Theorem approval_url_missing (w : World) :
  transaction_data basket = Ret data ->
  1 <= Paypal.create_attempts retry_attempts switch_is_active ->
  let created := Payment_create data (gateway_calls w) in
  let payment := Paypal.created_payment created in
  Paypal.attempt_succeeded created = true ->
  (forall links : list Paypal.Link,
     Paypal.payment_links payment = Some links ->
     List.find (fun l => String.eqb (Paypal.rel l) "approval_url") links = None) ->
  exists w',
    Paypal.get_transaction_parameters retry_attempts switch_is_active Payment_create
      transaction_data basket w =
    (Raise (match Paypal.payment_links payment with
            | Some _ => GatewayError (PaypalApprovalUrlMissing (S (List.length (audit w))))
            | None => TypeError
            end), w')
    /\ audit w' =
       (audit w ++ [audit_row Paypal.NAME (Paypal.payment_to_dict payment)
                      (PyStr (Paypal.payment_id payment)) (Some (basket_id basket))])%list
    /\ gateway_calls w' = S (gateway_calls w).
Proof.
  intros Hdata Hn created payment Hok Hfind.
  unfold Paypal.get_transaction_parameters.
  unfold bind at 1, lift_res at 1. rewrite Hdata.
  rewrite py_range_cons by lia. simpl Paypal.for_attempts.
  unfold bind at 1. unfold bind at 1.
  rewrite (create_attempt_breaks Payment_create basket data _ 1 w Hok).
  fold created. fold payment.
  unfold record_processor_response, bind, lift_res, ret, raise, logger, modify,
    Paypal.local.
  simpl.
  destruct (Paypal.payment_links payment) as [links|] eqn:Hlinks; simpl.
  - rewrite (Hfind links eq_refl). eexists. repeat split; reflexivity.
  - eexists. repeat split; reflexivity.
Qed.

End PaypalCreateMore.

Section PaypalCreateBounds.

Variables (retry_attempts : Z) (switch_is_active : string -> bool)
          (Payment_create : dict -> nat -> Paypal.Created)
          (transaction_data : Basket -> Res dict)
          (basket : Basket).

(** What an attempt does to the world, whatever the gateway does. *)
Lemma create_attempt_effect (data : dict) (available_attempts i : Z) (w : World) :
  let run := Paypal.create_attempt Payment_create basket data available_attempts i w in
  gateway_calls (snd run) = S (gateway_calls w)
  /\ ledger_kept w (snd run)
  /\ match fst run with
     | Ret _ => audit (snd run) = audit w
     | Raise _ =>
         exists rows,
           audit (snd run) = (audit w ++ rows)%list /\ (List.length rows <= 1)%nat
     end.
Proof.
  unfold Paypal.create_attempt, Paypal.gateway, ledger_kept.
  unfold record_processor_response, try_except, bind, lift_res, ret, raise, logger, modify,
    py_getitem.
  simpl.
  repeat case_match; simplify_eq; simpl; repeat split;
    first [ reflexivity
          | exists []; rewrite app_nil_r; split; [reflexivity | simpl; lia]
          | eexists (_ :: nil); split; [reflexivity | simpl; lia] ].
Qed.

Lemma create_loop_effect (data : dict) (available_attempts : Z) (attempts : list Z) :
  forall (bound : option Paypal.Payment) (w : World),
    let run := Paypal.for_attempts
                 (Paypal.create_attempt Payment_create basket data available_attempts)
                 attempts bound w in
    (gateway_calls (snd run) <= gateway_calls w + List.length attempts)%nat
    /\ ledger_kept w (snd run)
    /\ match fst run with
       | Ret _ => audit (snd run) = audit w
       | Raise _ =>
           exists rows,
             audit (snd run) = (audit w ++ rows)%list /\ (List.length rows <= 1)%nat
       end.
Proof.
  induction attempts as [|i attempts IH]; intros bound w; simpl.
  - split; [lia|]. split; [apply ledger_kept_refl | reflexivity].
  - pose proof (create_attempt_effect data available_attempts i w) as (Hc & Hl & Ha).
    unfold bind.
    destruct (Paypal.create_attempt Payment_create basket data available_attempts i w)
      as [[[flow p]|e] w1]; simpl in *.
    + destruct flow.
      * specialize (IH (Some p) w1). simpl in IH. destruct IH as (Hc' & Hl' & Ha').
        split; [lia|]. split; [eapply ledger_kept_trans; eassumption|].
        destruct (fst _); [congruence|].
        destruct Ha' as (rows & Hrows & Hlen). exists rows. split; [congruence | exact Hlen].
      * simpl. split; [lia|]. split; assumption.
    + split; [lia|]. split; assumption.
Qed.

(** X23: whatever the gateway does, [get_transaction_parameters] calls it no
    more often than the number of attempts that is configured, writes at
    most one row to the audit log, and changes no source, refund or payment
    event. *)
Theorem get_transaction_parameters_bounds (w : World) :
  let run := Paypal.get_transaction_parameters retry_attempts switch_is_active
               Payment_create transaction_data basket w in
  (gateway_calls (snd run) <=
   gateway_calls w + Z.to_nat (Paypal.create_attempts retry_attempts switch_is_active))%nat
  /\ ledger_kept w (snd run)
  /\ exists rows, audit (snd run) = (audit w ++ rows)%list /\ (List.length rows <= 1)%nat.
Proof.
  cbv zeta. unfold Paypal.get_transaction_parameters.
  unfold record_processor_response, bind, lift_res, ret, raise, logger, modify, Paypal.local.
  destruct (transaction_data basket) as [data|e]; simpl.
  2:{ split; [lia|]. split; [apply ledger_kept_refl|].
      exists []. rewrite app_nil_r. split; [reflexivity | simpl; lia]. }
  set (n := Paypal.create_attempts retry_attempts switch_is_active).
  pose proof (create_loop_effect data n (py_range 1 (n + 1)) None w) as (Hc & Hl & Ha).
  rewrite py_range_length in Hc. replace (n + 1 - 1) with n in Hc by lia.
  destruct (Paypal.for_attempts _ _ None w) as [[payment|e] w1]; simpl in *.
  - destruct Hl as (H1 & H2 & H3 & H4). unfold ledger_kept.
    destruct payment as [payment|]; simpl.
    + destruct (Paypal.payment_links payment) as [links|]; simpl;
        [destruct (List.find _ links); simpl|];
        (split; [exact Hc|]); (split; [repeat split; assumption|]);
        eexists (_ :: nil); rewrite Ha; (split; [reflexivity | simpl; lia]).
    + split; [exact Hc|]. split; [repeat split; assumption|].
      exists []. rewrite app_nil_r. split; [exact Ha | simpl; lia].
  - split; [exact Hc|]. split; [exact Hl | exact Ha].
Qed.

End PaypalCreateBounds.

Lemma approval_url_missing_witness :
  exists w',
    Paypal.get_transaction_parameters 3 Examples.switch_on Examples.create_without_approval
      Examples.transaction_data Examples.basket Examples.empty_world =
    (Raise (GatewayError (PaypalApprovalUrlMissing 1)), w')
    /\ audit w' =
       [audit_row "paypal" (Paypal.payment_to_dict Examples.payment_without_approval)
          (PyStr "PAY-6RV70583SB702805EKEYSZ6Y") (Some 7%nat)]
    /\ gateway_calls w' = 1%nat.
Proof.
  apply (approval_url_missing 3 Examples.switch_on Examples.create_without_approval
           Examples.transaction_data Examples.basket (<["intent" := PyStr "sale"]> ∅)
           Examples.empty_world);
    try reflexivity.
  - vm_compute. discriminate.
  - intros links Hlinks. injection Hlinks as <-. reflexivity.
Defined.

Section PaypalCreateRaises.

Variables (retry_attempts : Z) (switch_is_active : string -> bool)
          (Payment_create : dict -> nat -> Paypal.Created)
          (transaction_data : Basket -> Res dict)
          (basket : Basket) (data : dict).

(** [calls] gateway calls were made before the first attempt, and the last
    attempt raises [e]. *)
Variables (calls : nat) (e : Exn).

Let attempts : nat := Z.to_nat (Paypal.create_attempts retry_attempts switch_is_active).

Hypothesis some_attempt : (1 <= attempts)%nat.

Hypothesis no_earlier_attempt_succeeds :
  forall k : nat,
    (k < attempts - 1)%nat ->
    Paypal.attempt_succeeded (Payment_create data (calls + k)) = false.

Hypothesis last_attempt_raises :
  Paypal.created_raises (Payment_create data (calls + (attempts - 1))) = Some e.

Lemma create_attempt_raises_again (w : World) :
  gateway_calls w = (calls + (attempts - 1))%nat ->
  exists w',
    Paypal.create_attempt Payment_create basket data (Z.of_nat attempts)
      (Z.of_nat attempts) w = (Raise e, w')
    /\ audit w' = audit w.
Proof.
  intros Hcalls.
  unfold Paypal.create_attempt, Paypal.gateway.
  unfold try_except, bind, lift_res, ret, raise, logger, modify.
  rewrite Hcalls, last_attempt_raises, Z.ltb_irrefl.
  eexists. split; reflexivity.
Qed.

Lemma create_loop_raises_again (count : nat) :
  forall (first : nat) (w : World) (bound : option Paypal.Payment),
    (first + count)%nat = attempts ->
    gateway_calls w = (calls + first)%nat ->
    exists w',
      Paypal.for_attempts
        (Paypal.create_attempt Payment_create basket data (Z.of_nat attempts))
        (map (fun k => 1 + Z.of_nat k) (seq first count)) bound w =
      (match count with O => Ret bound | S _ => Raise e end, w')
      /\ audit w' = audit w.
Proof.
  induction count as [|count IH]; intros first w bound Hlast Hcalls.
  - simpl. exists w. split; reflexivity.
  - simpl seq. simpl map. simpl Paypal.for_attempts.
    destruct count as [|count].
    + replace (1 + Z.of_nat first) with (Z.of_nat attempts) by lia.
      destruct (create_attempt_raises_again w) as (w' & Hrun & Haudit); [lia|].
      unfold bind at 1. rewrite Hrun. exists w'. split; [reflexivity | exact Haudit].
    + pose proof (no_earlier_attempt_succeeds first ltac:(lia)) as Hfail.
      rewrite <- Hcalls in Hfail.
      destruct (create_attempt_retries Payment_create basket data (Z.of_nat attempts)
                  (1 + Z.of_nat first) w ltac:(lia) Hfail) as [msg Hrun].
      unfold bind at 1. rewrite Hrun.
      destruct (IH (S first) (with_log (fun l => (l ++ [(WARNING, msg)])%list)
                                (with_gateway_calls S w))
                  (Some (Paypal.created_payment (Payment_create data (gateway_calls w)))))
        as (w' & Hloop & Haudit).
      { lia. }
      { simpl. lia. }
      exists w'. split; [exact Hloop | exact Haudit].
Qed.

(** X24: when the earlier attempts do not succeed and the last attempt
    raises, for instance because the gateway cannot be reached, that
    exception leaves [get_transaction_parameters] as it is, not as a
    GatewayError, and nothing is written to the audit log. *)
Theorem last_attempt_exception_propagates (w : World) :
  transaction_data basket = Ret data ->
  gateway_calls w = calls ->
  exists w',
    Paypal.get_transaction_parameters retry_attempts switch_is_active Payment_create
      transaction_data basket w = (Raise e, w')
    /\ audit w' = audit w.
Proof.
  intros Hdata Hcalls. unfold Paypal.get_transaction_parameters.
  unfold bind at 1, lift_res at 1. rewrite Hdata.
  destruct (create_loop_raises_again attempts 0 w None)
    as (w' & Hloop & Haudit); [reflexivity | lia |].
  unfold py_range.
  replace (Paypal.create_attempts retry_attempts switch_is_active + 1 - 1)
    with (Paypal.create_attempts retry_attempts switch_is_active) by lia.
  fold attempts.
  replace (Z.of_nat attempts) with (Paypal.create_attempts retry_attempts switch_is_active)
    in Hloop by (subst attempts; lia).
  unfold bind at 1. rewrite Hloop.
  destruct attempts eqn:E; [lia|].
  exists w'. split; [reflexivity | exact Haudit].
Qed.

End PaypalCreateRaises.

Lemma last_attempt_exception_propagates_witness :
  exists w',
    Paypal.get_transaction_parameters 2 Examples.switch_on Examples.create_unreachable
      Examples.transaction_data Examples.basket Examples.empty_world =
    (Raise (ExternalError "ConnectionError"), w')
    /\ audit w' = [].
Proof.
  apply (last_attempt_exception_propagates 2 Examples.switch_on Examples.create_unreachable
           Examples.transaction_data Examples.basket (<["intent" := PyStr "sale"]> ∅)
           0%nat (ExternalError "ConnectionError")).
  - vm_compute. lia.
  - intros k _. reflexivity.
  - reflexivity.
  - reflexivity.
  - reflexivity.
Defined.

(** ** More on executing a payment *)

Section PaypalExecuteMore.

Variables (retry_attempts : Z) (switch_is_active : string -> bool)
          (Payment_find : PyVal -> nat -> Res Paypal.Payment)
          (Payment_execute : Paypal.Payment -> dict -> nat -> Res Paypal.Payment)
          (response : dict).

Lemma execute_attempt_succeeds (basket : option Basket) (available_attempts attempt_count : Z)
    (w : World) (found payment : Paypal.Payment) :
  Payment_find (dict_get response "paymentId") (gateway_calls w) = Ret found ->
  Payment_execute found (Paypal.payer_data response) (S (gateway_calls w)) = Ret payment ->
  Paypal.payment_success payment = true ->
  Paypal.execute_attempt Payment_find Payment_execute response basket
    (Paypal.payer_data response) available_attempts attempt_count w =
  (Ret (Paypal.Break, payment), with_gateway_calls S (with_gateway_calls S w)).
Proof.
  intros Hf He Hs. unfold Paypal.execute_attempt, Paypal.gateway.
  unfold bind, lift_res, ret. simpl. rewrite Hf. simpl. rewrite He, Hs. reflexivity.
Qed.

(** The attempts before the one that succeeds, by attempt counting from 0:
    the payments they leave and the debug ids of their errors.  [calls]
    gateway calls were made before the first attempt, attempt [k] is the
    one that succeeds. *)
Variables (payments : nat -> Paypal.Payment) (debug_ids : nat -> PyVal)
          (calls k : nat) (found payment : Paypal.Payment).

Let attempts : nat := Z.to_nat (Paypal.execute_attempts retry_attempts switch_is_active).

Hypothesis succeeds_in_time : (k < attempts)%nat.

Hypothesis earlier_attempts_unsuccessful :
  forall j : nat,
    (j < k)%nat ->
    Paypal.execute_unsuccessful Payment_find Payment_execute response (calls + 2 * j)
      (payments j) (debug_ids j).

Hypothesis payment_found :
  Payment_find (dict_get response "paymentId") (calls + 2 * k) = Ret found.

Hypothesis payment_executed :
  Payment_execute found (Paypal.payer_data response) (S (calls + 2 * k)) = Ret payment.

Hypothesis execution_successful : Paypal.payment_success payment = true.

Lemma execute_loop_succeeds (basket : option Basket) (count : nat) :
  forall (first : nat) (w : World) (bound : option Paypal.Payment),
    (first <= k)%nat ->
    (k < first + count)%nat ->
    (first + count)%nat = attempts ->
    gateway_calls w = (calls + 2 * first)%nat ->
    exists w',
      Paypal.for_attempts
        (Paypal.execute_attempt Payment_find Payment_execute response basket
           (Paypal.payer_data response) (Z.of_nat attempts))
        (map (fun j => 1 + Z.of_nat j) (seq first count)) bound w = (Ret (Some payment), w')
      /\ audit w' =
         (audit w ++
          map (fun j => audit_row Paypal.NAME (Paypal.payment_error (payments j))
                          (debug_ids j) (option_map basket_id basket))
            (seq first (k - first)))%list
      /\ ledger_kept w w'.
Proof.
  induction count as [|count IH]; intros first w bound Hle Hlt Hlast Hcalls; [lia|].
  simpl seq. simpl map. simpl Paypal.for_attempts.
  destruct (Nat.eq_dec first k) as [->|Hne].
  - pose proof payment_found as Hf. pose proof payment_executed as He.
    rewrite <- Hcalls in Hf, He.
    unfold bind at 1.
    rewrite (execute_attempt_succeeds basket _ _ w found payment Hf He
               execution_successful).
    eexists. split; [reflexivity|]. rewrite Nat.sub_diag. simpl.
    rewrite app_nil_r. split; [reflexivity | repeat split].
  - pose proof (earlier_attempts_unsuccessful first ltac:(lia)) as Hun.
    rewrite <- Hcalls in Hun.
    destruct (execute_attempt_unsuccessful Payment_find Payment_execute response basket
                (Z.of_nat attempts) (1 + Z.of_nat first) w _ _ Hun)
      as (w1 & Hrun & Haudit & Hcalls1).
    assert (Hl1 : ledger_kept w w1).
    { clear -Hun Hrun. destruct Hun as (f & Hf & He & Hs & Hd).
      unfold Paypal.execute_attempt, Paypal.gateway in Hrun.
      unfold record_processor_response, bind, lift_res, ret, raise, logger, modify in Hrun.
      simpl in Hrun. rewrite Hf in Hrun. simpl in Hrun. rewrite He, Hs, Hd in Hrun.
      destruct (1 + Z.of_nat first =? Z.of_nat attempts);
        simplify_eq; repeat split. }
    unfold bind at 1. rewrite Hrun.
    replace (1 + Z.of_nat first =? Z.of_nat attempts) with false
      by (symmetry; apply Z.eqb_neq; lia).
    destruct (IH (S first) w1 (Some (payments first))) as (w' & Hloop & Haudit' & Hl');
      try lia.
    exists w'. split; [exact Hloop|]. split.
    + rewrite Haudit', Haudit. rewrite <- app_assoc.
      replace (k - first)%nat with (S (k - S first)) by lia. reflexivity.
    + eapply ledger_kept_trans; eassumption.
Qed.

(** X25: when attempt [k] is the first to execute the payment, counting
    from 0, the audit log gets one row for the error of each attempt before
    it and then one row for the executed payment; the call returns the id
    of the payment, the total and currency of its first transaction, and a
    label for the payer, read from the [payer_info] of the [payer] of the
    payment: the email in brackets when there is one, "PayPal Account" when
    not.  No source, refund or payment event is touched. *)
Theorem execute_succeeds_after_failures (basket : Basket) (w : World)
    (transaction : Paypal.Transaction) (rest : list Paypal.Transaction) (amount_total : Z)
    (payer : Paypal.Payer) (info : Paypal.PayerInfo) :
  gateway_calls w = calls ->
  Paypal.payment_transactions payment = transaction :: rest ->
  Paypal.transaction_total transaction = Some amount_total ->
  Paypal.payment_payer payment = Some payer ->
  Paypal.payer_info payer = Some info ->
  exists w',
    Paypal.handle_processor_response retry_attempts switch_is_active Payment_find
      Payment_execute response (Some basket) w =
    (Ret {| Paypal.transaction_id := Paypal.payment_id payment;
            Paypal.total := amount_total;
            Paypal.handled_currency := Paypal.transaction_currency transaction;
            Paypal.card_number :=
              match Paypal.payer_info_email info with
              | None | Some "" => "PayPal Account"
              | Some email => "PayPal (" +:+ email +:+ ")"
              end;
            Paypal.card_type := None |}, w')
    /\ audit w' =
       (audit w ++
        map (fun j => audit_row Paypal.NAME (Paypal.payment_error (payments j))
                        (debug_ids j) (Some (basket_id basket)))
          (seq 0 k) ++
        [audit_row Paypal.NAME (Paypal.payment_to_dict payment)
           (PyStr (Paypal.payment_id payment)) (Some (basket_id basket))])%list
    /\ ledger_kept w w'.
Proof.
  intros Hcalls Hts Htotal Hpayer Hinfo. unfold Paypal.handle_processor_response.
  destruct (execute_loop_succeeds (Some basket) attempts 0 w None)
    as (w1 & Hloop & Haudit & Hl); try lia.
  unfold py_range.
  replace (Paypal.execute_attempts retry_attempts switch_is_active + 1 - 1)
    with (Paypal.execute_attempts retry_attempts switch_is_active) by lia.
  fold attempts.
  replace (Z.of_nat attempts) with (Paypal.execute_attempts retry_attempts switch_is_active)
    in Hloop by (subst attempts; lia).
  unfold bind at 1. rewrite Hloop.
  unfold record_processor_response, bind, lift_res, ret, raise, logger, modify,
    Paypal.local, getattr_of.
  simpl. rewrite Hts. simpl. rewrite Htotal. simpl. rewrite Hpayer. simpl.
  rewrite Hinfo. simpl.
  rewrite Nat.sub_0_r in Haudit.
  destruct Hl as (H1 & H2 & H3 & H4).
  eexists. split; [|split].
  - f_equal. f_equal. destruct (Paypal.payer_info_email info) as [[|c email]|]; reflexivity.
  - simpl. rewrite Haudit, <- app_assoc. reflexivity.
  - repeat split; simpl; assumption.
Qed.

(** X26: without a basket, which is the default of the argument, a payment
    that was executed is recorded, after the errors of the attempts before
    it, and the call then raises AttributeError instead of returning the
    result. *)
Theorem execute_without_basket (w : World) :
  gateway_calls w = calls ->
  exists w',
    Paypal.handle_processor_response retry_attempts switch_is_active Payment_find
      Payment_execute response None w = (Raise AttributeError, w')
    /\ audit w' =
       (audit w ++
        map (fun j => audit_row Paypal.NAME (Paypal.payment_error (payments j))
                        (debug_ids j) None)
          (seq 0 k) ++
        [audit_row Paypal.NAME (Paypal.payment_to_dict payment)
           (PyStr (Paypal.payment_id payment)) None])%list.
Proof.
  intros Hcalls. unfold Paypal.handle_processor_response.
  destruct (execute_loop_succeeds None attempts 0 w None)
    as (w1 & Hloop & Haudit & Hl); try lia.
  unfold py_range.
  replace (Paypal.execute_attempts retry_attempts switch_is_active + 1 - 1)
    with (Paypal.execute_attempts retry_attempts switch_is_active) by lia.
  fold attempts.
  replace (Z.of_nat attempts) with (Paypal.execute_attempts retry_attempts switch_is_active)
    in Hloop by (subst attempts; lia).
  unfold bind at 1. rewrite Hloop.
  unfold record_processor_response, bind, lift_res, ret, raise, logger, modify,
    Paypal.local, getattr_of.
  simpl. eexists. split; [reflexivity|]. simpl.
  rewrite Haudit, Nat.sub_0_r, <- app_assoc. reflexivity.
Qed.


End PaypalExecuteMore.

Lemma execute_succeeds_after_failures_witness :
  exists w',
    Paypal.handle_processor_response 1 Examples.switch_on Examples.find_payment
      Examples.execute_second_time Examples.returned (Some Examples.basket)
      Examples.empty_world =
    (Ret {| Paypal.transaction_id := "PAY-1B56960729604235TKQQIYVY";
            Paypal.total := 4900;
            Paypal.handled_currency := "USD";
            Paypal.card_number := "PayPal (buyer@example.com)";
            Paypal.card_type := None |}, w')
    /\ audit w' =
       [audit_row "paypal" (Paypal.payment_error Examples.payment_not_executed)
          (PyStr "9e2a6c7f1d3b8") (Some 7%nat);
        audit_row "paypal" (Paypal.payment_to_dict Examples.payment_executed)
          (PyStr "PAY-1B56960729604235TKQQIYVY") (Some 7%nat)]
    /\ ledger_kept Examples.empty_world w'.
Proof.
  assert (Hlt : (1 < Z.to_nat (Paypal.execute_attempts 1 Examples.switch_on))%nat)
    by (vm_compute; lia).
  assert (Hearlier :
            forall j : nat,
              (j < 1)%nat ->
              Paypal.execute_unsuccessful Examples.find_payment Examples.execute_second_time
                Examples.returned (0 + 2 * j) Examples.payment_not_executed
                (PyStr "9e2a6c7f1d3b8")).
  { intros j Hj. exists Examples.payment_executed.
    assert (j = 0%nat) as -> by lia. repeat split; reflexivity. }
  exact (execute_succeeds_after_failures 1 Examples.switch_on Examples.find_payment
           Examples.execute_second_time Examples.returned
           (fun _ => Examples.payment_not_executed) (fun _ => PyStr "9e2a6c7f1d3b8")
           0%nat 1%nat Examples.payment_executed Examples.payment_executed
           Hlt Hearlier eq_refl eq_refl eq_refl
           Examples.basket Examples.empty_world
           {| Paypal.transaction_currency := "USD";
              Paypal.transaction_total := Some 4900;
              Paypal.related_resources :=
                [ {| Paypal.sale := Raise AttributeError |};
                  {| Paypal.sale := Ret (Some Examples.sale) |} ] |}
           [] 4900
           {| Paypal.payer_info := Some {| Paypal.payer_info_email := Some "buyer@example.com" |} |}
           {| Paypal.payer_info_email := Some "buyer@example.com" |}
           eq_refl eq_refl eq_refl eq_refl eq_refl).
Defined.

Lemma execute_without_basket_witness :
  exists w',
    Paypal.handle_processor_response 1 Examples.switch_on Examples.find_payment
      Examples.execute_second_time Examples.returned None Examples.empty_world =
    (Raise AttributeError, w')
    /\ audit w' =
       [audit_row "paypal" (Paypal.payment_error Examples.payment_not_executed)
          (PyStr "9e2a6c7f1d3b8") None;
        audit_row "paypal" (Paypal.payment_to_dict Examples.payment_executed)
          (PyStr "PAY-1B56960729604235TKQQIYVY") None].
Proof.
  assert (Hlt : (1 < Z.to_nat (Paypal.execute_attempts 1 Examples.switch_on))%nat)
    by (vm_compute; lia).
  assert (Hearlier :
            forall j : nat,
              (j < 1)%nat ->
              Paypal.execute_unsuccessful Examples.find_payment Examples.execute_second_time
                Examples.returned (0 + 2 * j) Examples.payment_not_executed
                (PyStr "9e2a6c7f1d3b8")).
  { intros j Hj. exists Examples.payment_executed.
    assert (j = 0%nat) as -> by lia. repeat split; reflexivity. }
  exact (execute_without_basket 1 Examples.switch_on Examples.find_payment
           Examples.execute_second_time Examples.returned
           (fun _ => Examples.payment_not_executed) (fun _ => PyStr "9e2a6c7f1d3b8")
           0%nat 1%nat Examples.payment_executed Examples.payment_executed
           Hlt Hearlier eq_refl eq_refl eq_refl Examples.empty_world eq_refl).
Defined.


Lemma audit_extended_refl (w : World) : audit_extended w w.
Proof. exists []. rewrite app_nil_r. reflexivity. Qed.

Lemma audit_extended_trans (w1 w2 w3 : World) :
  audit_extended w1 w2 -> audit_extended w2 w3 -> audit_extended w1 w3.
Proof.
  intros [r1 H1] [r2 H2]. exists (r1 ++ r2)%list. rewrite H2, H1, app_assoc. reflexivity.
Qed.

(** A loop keeps what each of its iterations keeps. *)
Lemma for_attempts_keeps (R : World -> World -> Prop)
    (body : Z -> M (Paypal.Flow * Paypal.Payment)) :
  (forall w, R w w) ->
  (forall w1 w2 w3, R w1 w2 -> R w2 w3 -> R w1 w3) ->
  (forall i w, R w (snd (body i w))) ->
  forall attempts bound w, R w (snd (Paypal.for_attempts body attempts bound w)).
Proof.
  intros Hrefl Htrans Hbody. induction attempts as [|i attempts IH]; intros bound w; simpl.
  - apply Hrefl.
  - unfold bind. pose proof (Hbody i w) as Hi.
    destruct (body i w) as [[[flow p]|e] w1]; simpl in *.
    + destruct flow; simpl.
      * eapply Htrans; [exact Hi | apply IH].
      * exact Hi.
    + exact Hi.
Qed.

Section PaypalInvariants.

Variables (retry_attempts : Z) (switch_is_active : string -> bool)
          (Payment_find : PyVal -> nat -> Res Paypal.Payment)
          (Payment_execute : Paypal.Payment -> dict -> nat -> Res Paypal.Payment)
          (Sale_refund : Paypal.Sale -> Z -> string -> nat -> Res Paypal.SaleRefund).

Lemma execute_attempt_effect (response : dict) (basket : option Basket) (data : dict)
    (available_attempts attempt_count : Z) (w : World) :
  let w' := snd (Paypal.execute_attempt Payment_find Payment_execute response basket data
                   available_attempts attempt_count w) in
  ledger_kept w w' /\ audit_extended w w'.
Proof.
  unfold Paypal.execute_attempt, Paypal.gateway, ledger_kept, audit_extended.
  unfold record_processor_response, bind, lift_res, ret, raise, logger, modify, py_getitem.
  simpl.
  repeat case_match; simplify_eq; simpl; repeat split;
    first [ exists []; rewrite app_nil_r; reflexivity
          | eexists (_ :: nil); reflexivity ].
Qed.

(** X27: the redirect-wallet adapter builds no ledger entity: executing a
    payment and issuing a credit change no source, refund or payment event,
    whatever the gateway does, and they only add rows at the end of the
    audit log. *)
Theorem paypal_keeps_ledger (response : dict) (basket : option Basket) (order : Order)
    (reference_number : PyVal) (amount : Z) (currency : string) (w : World) :
  let executed := snd (Paypal.handle_processor_response retry_attempts switch_is_active
                         Payment_find Payment_execute response basket w) in
  let credited := snd (Paypal.issue_credit Payment_find Sale_refund order reference_number
                         amount currency w) in
  (ledger_kept w executed /\ audit_extended w executed)
  /\ (ledger_kept w credited /\ audit_extended w credited).
Proof.
  cbv zeta. split.
  - set (R := fun w0 w' : World => ledger_kept w0 w' /\ audit_extended w0 w').
    change (R w (snd (Paypal.handle_processor_response retry_attempts switch_is_active
                        Payment_find Payment_execute response basket w))).
    unfold Paypal.handle_processor_response.
    set (body := Paypal.execute_attempt Payment_find Payment_execute response basket
                   (Paypal.payer_data response)
                   (Paypal.execute_attempts retry_attempts switch_is_active)).
    pose proof (for_attempts_keeps R body
      (fun w0 => conj (ledger_kept_refl w0) (audit_extended_refl w0))
      (fun w1 w2 w3 H12 H23 =>
         conj (ledger_kept_trans _ _ _ (proj1 H12) (proj1 H23))
              (audit_extended_trans _ _ _ (proj2 H12) (proj2 H23)))
      (fun i w0 => execute_attempt_effect response basket _ _ i w0)
      (py_range 1 (Paypal.execute_attempts retry_attempts switch_is_active + 1)) None w)
      as Hloop.
    unfold bind at 1.
    destruct (Paypal.for_attempts body _ None w) as [[payment|e] w1]; simpl in Hloop |- *;
      [|exact Hloop].
    subst R. simpl in Hloop. destruct Hloop as [Hl [rows Ha]].
    unfold record_processor_response, bind, lift_res, ret, raise, logger, modify,
      Paypal.local, getattr_of, ledger_kept, audit_extended in *.
    destruct Hl as (H1 & H2 & H3 & H4).
    repeat case_match; simplify_eq; simpl; repeat split; try assumption;
      first [ exists rows; exact Ha
            | eexists (rows ++ _ :: nil)%list; rewrite app_assoc, <- Ha; reflexivity ].
  - unfold Paypal.issue_credit, Paypal.gateway, ledger_kept, audit_extended.
    unfold record_processor_response, try_except, bind, lift_res, ret, raise, logger, modify,
      getattr_of, py_getitem.
    simpl.
    repeat case_match; simplify_eq; simpl; repeat split;
      first [ exists []; rewrite app_nil_r; reflexivity
            | eexists (_ :: nil); reflexivity ].
Qed.

(** X28: an exception of the lookup or of the execution leaves
    [handle_processor_response] as it is and at once: the attempt is not
    repeated, and nothing is written to the audit log. *)
Theorem execute_exception_not_retried (response : dict) (basket : option Basket)
    (w : World) (e : Exn) :
  1 <= Paypal.execute_attempts retry_attempts switch_is_active ->
  (Payment_find (dict_get response "paymentId") (gateway_calls w) = Raise e ->
   Paypal.handle_processor_response retry_attempts switch_is_active Payment_find
     Payment_execute response basket w = (Raise e, with_gateway_calls S w))
  /\ (forall found,
        Payment_find (dict_get response "paymentId") (gateway_calls w) = Ret found ->
        Payment_execute found (Paypal.payer_data response) (S (gateway_calls w)) = Raise e ->
        Paypal.handle_processor_response retry_attempts switch_is_active Payment_find
          Payment_execute response basket w =
        (Raise e, with_gateway_calls S (with_gateway_calls S w))).
Proof.
  intros Hn. unfold Paypal.handle_processor_response.
  rewrite py_range_cons by lia. simpl Paypal.for_attempts.
  unfold Paypal.execute_attempt, Paypal.gateway.
  unfold bind, lift_res, ret. simpl. split.
  - intros ->. reflexivity.
  - intros found -> He. simpl. rewrite He. reflexivity.
Qed.

(** X29: [issue_credit] returns only the id of a refund that the gateway
    made for the sale of the payment and reported as successful, after
    recording it; and when it raises, it raises GatewayError, unless the
    error of an unsuccessful refund has no debug id to record it under. *)
Theorem paypal_issue_credit_outcome (order : Order) (reference_number : PyVal) (amount : Z)
    (currency : string) (w w' : World) (r : Res PyVal) :
  Paypal.issue_credit Payment_find Sale_refund order reference_number amount currency w
  = (r, w') ->
  match r with
  | Ret v =>
      exists payment sale refund,
        Payment_find reference_number (gateway_calls w) = Ret payment
        /\ Paypal._get_payment_sale payment = Some sale
        /\ Sale_refund sale amount currency (S (gateway_calls w)) = Ret refund
        /\ Paypal.sale_refund_success refund = true
        /\ v = PyStr (Paypal.sale_refund_id refund)
        /\ audit w' =
           (audit w ++ [audit_row Paypal.NAME (Paypal.sale_refund_to_dict refund)
                          (PyStr (Paypal.sale_refund_id refund)) (order_basket order)])%list
  | Raise e =>
      is_GatewayError e = true
      \/ exists sale refund,
           Sale_refund sale amount currency (S (gateway_calls w)) = Ret refund
           /\ Paypal.sale_refund_success refund = false
           /\ py_getitem (Paypal.sale_refund_error refund) "debug_id" = Raise e
  end.
Proof.
  unfold Paypal.issue_credit, Paypal.gateway.
  unfold record_processor_response, try_except, bind, lift_res, ret, raise, logger, modify,
    getattr_of.
  simpl.
  destruct (Payment_find reference_number (gateway_calls w)) as [payment|e0] eqn:Hf; simpl.
  2:{ intros [= <- <-]. left. reflexivity. }
  destruct (Paypal._get_payment_sale payment) as [sale|] eqn:Hs; simpl.
  2:{ intros [= <- <-]. left. reflexivity. }
  destruct (Sale_refund sale amount currency (S (gateway_calls w))) as [refund|e0] eqn:Hr;
    simpl.
  2:{ intros [= <- <-]. left. reflexivity. }
  destruct (Paypal.sale_refund_success refund) eqn:Hsucc.
  - intros [= <- <-]. exists payment, sale, refund. repeat split; auto.
  - destruct (py_getitem (Paypal.sale_refund_error refund) "debug_id") as [debug_id|e0]
      eqn:Hd; simpl.
    + intros [= <- <-]. left. reflexivity.
    + intros [= <- <-]. right. exists sale, refund. auto.
Qed.

End PaypalInvariants.

Lemma execute_exception_not_retried_witness :
  Paypal.handle_processor_response 3 Examples.switch_on Examples.find_nothing
    Examples.execute_fails Examples.returned (Some Examples.basket) Examples.empty_world =
  (Raise (ExternalError "ResourceNotFound"), with_gateway_calls S Examples.empty_world).
Proof.
  apply (proj1 (execute_exception_not_retried 3 Examples.switch_on Examples.find_nothing
                  Examples.execute_fails Examples.returned (Some Examples.basket)
                  Examples.empty_world (ExternalError "ResourceNotFound")
                  ltac:(vm_compute; discriminate))).
  reflexivity.
Defined.

Lemma paypal_issue_credit_outcome_witness :
  exists payment sale refund,
    Examples.find_payment (PyStr "PAY-1B56960729604235TKQQIYVY") 0%nat = Ret payment
    /\ Paypal._get_payment_sale payment = Some sale
    /\ Examples.refund_completes sale 4900 "USD" 1%nat = Ret refund
    /\ Paypal.sale_refund_success refund = true
    /\ PyStr "0P209507D6694645N" = PyStr (Paypal.sale_refund_id refund)
    /\ audit (snd (Paypal.issue_credit Examples.find_payment Examples.refund_completes
                     Examples.order (PyStr "PAY-1B56960729604235TKQQIYVY") 4900 "USD"
                     Examples.empty_world)) =
       [audit_row Paypal.NAME (Paypal.sale_refund_to_dict refund)
          (PyStr (Paypal.sale_refund_id refund)) (Some 7%nat)].
Proof.
  apply (paypal_issue_credit_outcome Examples.find_payment Examples.refund_completes
           Examples.order (PyStr "PAY-1B56960729604235TKQQIYVY") 4900 "USD"
           Examples.empty_world _ (Ret (PyStr "0P209507D6694645N"))).
  reflexivity.
Defined.
